(** * The workflow designer's editor core, embedded in Rocq

    Source: frontend/src/views-admin/module_application/workflow/index.vue
    (the [<script setup>] block), components/NodeConfigPanel.vue and
    components/EdgeConfigPanel.vue.

    The editor is plain JavaScript: nodes, edges, form payloads and imported
    documents are untyped values.  The embedding therefore works on a type of
    JavaScript values (JSON data plus [undefined] and [NaN]); plain objects are
    finite maps from property names to values, so two objects are equal
    exactly when they have the same properties with equal values.  Handlers
    are state transformers over the component's refs that may throw; what a
    handler changed before it throws stays changed, as in JavaScript.

    What the environment supplies is an argument of the handler: the result
    of [JSON.parse] on a text, the reading of [Date.now()], the pointer
    position of an event, the answer to a confirmation dialog.  What the user
    is shown ([ElMessage], [ElMessageBox.alert]) is appended to the [notices]
    of the state.

    The graph on the canvas lives in the store of the VueFlow library, which
    is not part of the component: the component hands its [nodes] and
    [edges] refs to the library as props, reads the store through
    [getNodes] and [getEdges] and changes it through [setNodes], [setEdges],
    [addNodes] and [addEdges].  What a getter returns is therefore an
    argument of the handler that reads it, and what a handler asks of the
    store is appended to the [storeCalls] of the state; nothing is assumed
    about what the library does with a call or with the props. *)

From Stdlib Require Import ZArith Ascii String List Lia.
From stdpp Require Import base option list strings gmap fin_maps pretty.

Local Open Scope string_scope.
Local Open Scope Z_scope.

(** ** JavaScript values *)

(** Numbers are modelled by the integers (and [NaN]): [VNum z] is the double
    whose value is the integer [z].  Fractional numbers and the infinities
    are outside the model. *)
Local Unset Elimination Schemes.
Inductive value : Type :=
  | VUndef
  | VNull
  | VBool (b : bool)
  | VNum (z : Z)
  | VNaN
  | VStr (s : string)
  | VArr (l : list value)
  | VObj (o : gmap string value).
Local Set Elimination Schemes.

(** The number of constructors in a value, used as induction measure. *)
Fixpoint vsize (v : value) : nat :=
  match v with
  | VArr l => S (foldr (λ x acc, vsize x + acc)%nat 0%nat l)
  | VObj o => S (map_fold (λ _ x acc, vsize x + acc)%nat 0%nat o)
  | _ => 1%nat
  end.

(** ** Outcomes: a JavaScript computation returns or throws *)

Inductive outcome (A : Type) : Type :=
  | Ok (a : A)
  | Throw.
Arguments Ok {A} a.
Arguments Throw {A}.

#[global] Instance outcome_ret : MRet outcome := λ A a, Ok a.
#[global] Instance outcome_bind : MBind outcome := λ A B f m,
  match m with
  | Ok a => f a
  | Throw => Throw
  end.

(** ** Primitive operations on values *)

(** [v.k] for the property names the editor reads (id, type, data, position,
    x, y, source, target, label, nodes, edges): reading a property of
    [undefined] or [null] throws a TypeError; primitives and arrays have none
    of these properties. *)
Definition get (k : string) (v : value) : outcome value :=
  match v with
  | VUndef | VNull => Throw
  | VObj o => Ok (default VUndef (o !! k))
  | _ => Ok VUndef
  end.

(** [v?.k] *)
Definition get_opt (k : string) (v : value) : value :=
  match v with
  | VObj o => default VUndef (o !! k)
  | _ => VUndef
  end.

(** ToBoolean *)
Definition truthy (v : value) : bool :=
  match v with
  | VUndef | VNull | VNaN => false
  | VBool b => b
  | VNum z => negb (z =? 0)
  | VStr s => negb (String.eqb s "")
  | VArr _ | VObj _ => true
  end.

(** [a || b] *)
Definition js_or (a b : value) : value := if truthy a then a else b.

(** [a === b].  Objects and arrays compare by identity; every object of the
    model is a separate allocation, so two of them are never identical. *)
Definition strict_eq (a b : value) : bool :=
  match a, b with
  | VUndef, VUndef => true
  | VNull, VNull => true
  | VBool x, VBool y => Bool.eqb x y
  | VNum x, VNum y => (x =? y)
  | VStr x, VStr y => String.eqb x y
  | _, _ => false
  end.

(** SameValueZero, the comparison of [Set.prototype.has]: as [===] except
    that [NaN] equals itself. *)
Definition same_value_zero (a b : value) : bool :=
  match a, b with
  | VNaN, VNaN => true
  | _, _ => strict_eq a b
  end.

(** ToString, as applied by template literals and by [Array.prototype.join]
    (which prints [undefined] and [null] elements as the empty string). *)
Fixpoint to_string (v : value) : string :=
  match v with
  | VUndef => "undefined"
  | VNull => "null"
  | VBool true => "true"
  | VBool false => "false"
  | VNum z => pretty z
  | VNaN => "NaN"
  | VStr s => s
  | VArr l =>
      String.concat ","
        (map (λ x, match x with VUndef | VNull => "" | _ => to_string x end) l)
  | VObj _ => "[object Object]"
  end.

Definition join (sep : string) (l : list value) : string :=
  String.concat sep
    (map (λ x, match x with VUndef | VNull => "" | _ => to_string x end) l).

(** The double nearest to the integer [z], ties to the even mantissa
    (round to nearest even, 53 bits); integers beyond the range of the
    doubles are outside the model. *)
Definition to_double (z : Z) : Z :=
  let a := Z.abs z in
  if a <? 2 ^ 53 then z
  else
    let e := Z.log2 a - 52 in
    let q := a / 2 ^ e in
    let r := a mod 2 ^ e in
    let half := 2 ^ (e - 1) in
    let q' := if r <? half then q
              else if half <? r then q + 1
              else if Z.even q then q else q + 1 in
    Z.sgn z * (q' * 2 ^ e).

(** [a + n] for a number literal [n]: string concatenation when the left
    operand converts to a string, addition of doubles otherwise. *)
Definition js_plus (a : value) (n : Z) : value :=
  match a with
  | VNum z => VNum (to_double (z + n))
  | VStr s => VStr (s +:+ pretty n)
  | VNull => VNum n
  | VBool b => VNum ((if b then 1 else 0) + n)
  | VUndef | VNaN => VNaN
  | VArr _ | VObj _ => VStr (to_string a +:+ pretty n)
  end.

(** The own properties copied by an object spread [{...v}]: those of an
    object; [undefined], [null], numbers and booleans contribute none.
    (Spreading an array or a string would copy its indexed elements; nodes,
    payloads and forms of that shape are outside the model, which gives them
    no property.) *)
Definition spread (v : value) : gmap string value :=
  match v with
  | VObj o => o
  | _ => ∅
  end.

(** ** The JSON deep copy [JSON.parse(JSON.stringify(v))] *)

(** [JSON.stringify] drops object properties whose value is [undefined],
    prints [undefined] array elements and [NaN] as [null], and recurses. *)
Fixpoint clone (v : value) : value :=
  match v with
  | VNaN => VNull
  | VArr l =>
      VArr (map (λ x, match x with VUndef => VNull | _ => clone x end) l)
  | VObj o =>
      VObj (omap (λ x, match x with VUndef => None | _ => Some (clone x) end) o)
  | _ => v
  end.

(** At top level [JSON.stringify(undefined)] is [undefined], and
    [JSON.parse(undefined)] throws a SyntaxError. *)
Definition JSON_clone (v : value) : outcome value :=
  match v with
  | VUndef => Throw
  | _ => Ok (clone v)
  end.

(** ** Arrays *)

(** Calling an array method ([filter], [map], [forEach], [some]) on a value
    that is not an array throws a TypeError. *)
Definition as_array (v : value) : outcome (list value) :=
  match v with
  | VArr l => Ok l
  | _ => Throw
  end.

(** [l.filter(p)], [l.map(f)] and [l.some(p)] with callbacks that may throw. *)
Fixpoint filterM (p : value → outcome bool) (l : list value) : outcome (list value) :=
  match l with
  | [] => Ok []
  | x :: r =>
      b ← p x;
      r' ← filterM p r;
      Ok (if b : bool then x :: r' else r')
  end.

Fixpoint mapM (f : value → outcome value) (l : list value) : outcome (list value) :=
  match l with
  | [] => Ok []
  | x :: r =>
      y ← f x;
      r' ← mapM f r;
      Ok (y :: r')
  end.

Fixpoint someM (p : value → outcome bool) (l : list value) : outcome bool :=
  match l with
  | [] => Ok false
  | x :: r =>
      b ← p x;
      if b : bool then Ok true else someM p r
  end.

(** [arr[i]] for a number [i]: [undefined] (here [None]) out of range. *)
Definition index {A : Type} (l : list A) (i : Z) : option A :=
  if i <? 0 then None else l !! Z.to_nat i.

(** [arr.slice(0, e)]: a negative [e] counts from the end. *)
Definition slice0 {A : Type} (e : Z) (l : list A) : list A :=
  let len := Z.of_nat (length l) in
  let final := if e <? 0 then Z.max (len + e) 0 else Z.min e len in
  take (Z.to_nat final) l.

(** [new Set(ids).has(x)] *)
Definition set_has (ids : list value) (x : value) : bool :=
  existsb (same_value_zero x) ids.

(** ** The component state *)

(** One entry of [history]: the object [{ nodes, edges }] built by
    [saveToHistory]. *)
Record snapshot : Type := Snapshot {
  snap_nodes : value;
  snap_edges : value
}.

(** What the user sees: [ElMessage.success/warning/error(text)] and the two
    [ElMessageBox.alert] dialogs of the validator, which list the errors
    and warnings (the HTML around the lists is not modelled). *)
Inductive notice : Type :=
  | MsgSuccess (text : string)
  | MsgWarning (text : string)
  | MsgError (text : string)
  | AlertFailed (errors warnings : list string)
  | AlertWarnings (warnings : list string).

(** A request to the VueFlow store: [setNodes(l)], [setEdges(l)],
    [addNodes(n)], [addEdges(connection)]. *)
Inductive store_call : Type :=
  | SetNodes (l : list value)
  | SetEdges (l : list value)
  | AddNodes (n : value)
  | AddEdges (connection : value).

(** The refs of the component, what it has shown and what it has asked of
    the store.  [nodes] and [edges] are the refs that the component passes to
    VueFlow as props and that [saveToHistory], [stats], [handleSave] and
    [handleExport] read; no handler copies the store into them. *)
Record editor : Type := Editor {
  nodes : value;
  edges : value;
  updateState : string;
  selectedEdge : value;
  selectedNode : value;
  history : list snapshot;
  historyIndex : Z;
  clipboard : value;
  dragItem : value;
  notices : list notice;
  storeCalls : list store_call
}.

Definition maxHistory : Z := 50.

Definition set_nodes (v : value) (st : editor) : editor :=
  Editor v (edges st) (updateState st) (selectedEdge st) (selectedNode st)
    (history st) (historyIndex st) (clipboard st) (dragItem st) (notices st) (storeCalls st).
Definition set_edges (v : value) (st : editor) : editor :=
  Editor (nodes st) v (updateState st) (selectedEdge st) (selectedNode st)
    (history st) (historyIndex st) (clipboard st) (dragItem st) (notices st) (storeCalls st).
Definition set_updateState (s : string) (st : editor) : editor :=
  Editor (nodes st) (edges st) s (selectedEdge st) (selectedNode st)
    (history st) (historyIndex st) (clipboard st) (dragItem st) (notices st) (storeCalls st).
Definition set_selectedEdge (v : value) (st : editor) : editor :=
  Editor (nodes st) (edges st) (updateState st) v (selectedNode st)
    (history st) (historyIndex st) (clipboard st) (dragItem st) (notices st) (storeCalls st).
Definition set_selectedNode (v : value) (st : editor) : editor :=
  Editor (nodes st) (edges st) (updateState st) (selectedEdge st) v
    (history st) (historyIndex st) (clipboard st) (dragItem st) (notices st) (storeCalls st).
Definition set_history (h : list snapshot) (st : editor) : editor :=
  Editor (nodes st) (edges st) (updateState st) (selectedEdge st) (selectedNode st)
    h (historyIndex st) (clipboard st) (dragItem st) (notices st) (storeCalls st).
Definition set_historyIndex (i : Z) (st : editor) : editor :=
  Editor (nodes st) (edges st) (updateState st) (selectedEdge st) (selectedNode st)
    (history st) i (clipboard st) (dragItem st) (notices st) (storeCalls st).
Definition set_clipboard (v : value) (st : editor) : editor :=
  Editor (nodes st) (edges st) (updateState st) (selectedEdge st) (selectedNode st)
    (history st) (historyIndex st) v (dragItem st) (notices st) (storeCalls st).
Definition set_dragItem (v : value) (st : editor) : editor :=
  Editor (nodes st) (edges st) (updateState st) (selectedEdge st) (selectedNode st)
    (history st) (historyIndex st) (clipboard st) v (notices st) (storeCalls st).
Definition add_notice (n : notice) (st : editor) : editor :=
  Editor (nodes st) (edges st) (updateState st) (selectedEdge st) (selectedNode st)
    (history st) (historyIndex st) (clipboard st) (dragItem st) (notices st ++ [n])%list
    (storeCalls st).
Definition add_call (c : store_call) (st : editor) : editor :=
  Editor (nodes st) (edges st) (updateState st) (selectedEdge st) (selectedNode st)
    (history st) (historyIndex st) (clipboard st) (dragItem st) (notices st)
    (storeCalls st ++ [c])%list.

(** The state of a freshly mounted component whose refs hold [ns] and [es]:
    nothing selected, empty history with index -1, empty clipboard, nothing
    asked of the store yet. *)
Definition mounted (ns es : value) : editor :=
  Editor ns es "" (VObj ∅) (VObj ∅) [] (-1) VNull VNull [] [].

(** ** Handlers: state transformers that may throw *)

Definition handler (A : Type) : Type := editor → outcome A * editor.

#[global] Instance handler_ret : MRet handler := λ A a st, (Ok a, st).
#[global] Instance handler_bind : MBind handler := λ A B f m st,
  match m st with
  | (Ok a, st') => f a st'
  | (Throw, st') => (Throw, st')
  end.

Definition read {A : Type} (f : editor → A) : handler A := λ st, (Ok (f st), st).
Definition modify (f : editor → editor) : handler unit := λ st, (Ok tt, f st).
Definition lift {A : Type} (o : outcome A) : handler A := λ st, (o, st).
Definition notify (n : notice) : handler unit := modify (add_notice n).
Definition skip : handler unit := mret tt.

(** [try { body } catch { recover }]: the state reached when [body] threw is
    kept. *)
Definition try_catch (body recover : handler unit) : handler unit := λ st,
  match body st with
  | (Ok a, st') => (Ok a, st')
  | (Throw, st') => recover st'
  end.

(** The state a handler leaves behind, returned or thrown. *)
Definition exec {A : Type} (h : handler A) (st : editor) : editor := snd (h st).

(** ** History: [saveToHistory], [undo], [redo] *)

Definition saveToHistory : handler unit :=
  ns ← read nodes;
  n' ← lift (JSON_clone ns);
  es ← read edges;
  e' ← lift (JSON_clone es);
  let state := Snapshot n' e' in
  idx ← read historyIndex;
  h ← read history;
  (if idx <? Z.of_nat (length h) - 1
   then modify (set_history (slice0 (idx + 1) h))
   else skip);;
  h ← read history;
  modify (set_history (h ++ [state])%list);;
  h ← read history;
  if Z.of_nat (length h) >? maxHistory
  then modify (set_history (tail h))
  else modify (set_historyIndex (idx + 1)).

(** [state.nodes] for [state = history[i]]: throws when [state] is
    [undefined]. *)
Definition field (f : snapshot → value) (state : option snapshot) : outcome value :=
  match state with
  | Some s => Ok (f s)
  | None => Throw
  end.

(** The two assignments [nodes.value = JSON.parse(JSON.stringify(state.nodes))]
    and [edges.value = ...] that [undo] and [redo] both make. *)
Definition restore (state : option snapshot) : handler unit :=
  sn ← lift (field snap_nodes state);
  n' ← lift (JSON_clone sn);
  modify (set_nodes n');;
  se ← lift (field snap_edges state);
  e' ← lift (JSON_clone se);
  modify (set_edges e').

Definition undo : handler unit :=
  idx ← read historyIndex;
  if idx >? 0 then
    modify (set_historyIndex (idx - 1));;
    h ← read history;
    idx ← read historyIndex;
    restore (index h idx);;
    notify (MsgSuccess "撤销成功")
  else
    notify (MsgWarning "没有可撤销的操作").

Definition redo : handler unit :=
  idx ← read historyIndex;
  h ← read history;
  if idx <? Z.of_nat (length h) - 1 then
    modify (set_historyIndex (idx + 1));;
    h ← read history;
    idx ← read historyIndex;
    restore (index h idx);;
    notify (MsgSuccess "重做成功")
  else
    notify (MsgWarning "没有可重做的操作").

(** [onInit] and [onNodeDragStop] record the graph ([fitView] and the console
    log do not touch the state). *)
Definition onInit : handler unit := saveToHistory.
Definition onNodeDragStop : handler unit := saveToHistory.

(** ** The VueFlow store *)

(** The four functions of [useVueFlow()] that change the store.  A handler
    that reads the store takes what [getNodes.value] and [getEdges.value]
    return, two arrays, as its arguments [allNodes] and [allEdges]. *)
Definition setNodes (l : list value) : handler unit := modify (add_call (SetNodes l)).
Definition setEdges (l : list value) : handler unit := modify (add_call (SetEdges l)).
Definition addNodes (n : value) : handler unit := modify (add_call (AddNodes n)).
Definition addEdges (connection : value) : handler unit :=
  modify (add_call (AddEdges connection)).

(** ** Clipboard: [handleCopy], [handlePaste] *)

Definition handleCopy : handler unit :=
  sel ← read selectedNode;
  sid ← lift (get "id" sel);
  if truthy sid then
    c ← lift (JSON_clone sel);
    modify (set_clipboard c);;
    notify (MsgSuccess "节点已复制")
  else skip.

(** [now] is the reading of [Date.now()]. *)
Definition handlePaste (now : Z) : handler unit :=
  c ← read clipboard;
  if truthy c then
    px ← lift (get "position" c);
    x ← lift (get "x" px);
    py ← lift (get "position" c);
    y ← lift (get "y" py);
    let newNode :=
      VObj (<["position" := VObj {[ "x" := js_plus x 50; "y" := js_plus y 50 ]}]>
           (<["id" := VStr ("node-" +:+ pretty now)]> (spread c))) in
    addNodes newNode;;
    modify (set_selectedNode newNode);;
    modify (set_updateState "node");;
    saveToHistory;;
    notify (MsgSuccess "节点已粘贴")
  else skip.

(** ** Import: [handleFileChange] *)

(** [file] is [event.target.files[0]]: [None] when no file was chosen,
    otherwise the result of [JSON.parse] on the file's text ([Throw] when the
    text is not JSON); the body is the reader's [onload] callback. *)
Definition handleFileChange (file : option (outcome value)) : handler unit :=
  match file with
  | Some parsed =>
      try_catch
        (data ← lift parsed;
         dn ← lift (get "nodes" data);
         both ← (if truthy dn
                 then de ← lift (get "edges" data); mret (truthy de)
                 else mret false);
         if both : bool then
           dn ← lift (get "nodes" data);
           modify (set_nodes dn);;
           de ← lift (get "edges" data);
           modify (set_edges de);;
           saveToHistory;;
           notify (MsgSuccess "流程导入成功")
         else
           notify (MsgError "无效的流程文件格式"))
        (notify (MsgError "文件解析失败"))
  | None => skip
  end.

(** ** Validation: [handleValidate] *)

(** The [forEach] over the edges: one error per missing endpoint. *)
Fixpoint edge_errors (nodeIds : list value) (es : list value) : outcome (list string) :=
  match es with
  | [] => Ok []
  | edge :: r =>
      src ← get "source" edge;
      e1 ← (if negb (set_has nodeIds src)
            then lb ← get "label" edge;
                 name ← (if truthy lb then Ok lb else get "id" edge);
                 Ok ["连线 " +:+ to_string name +:+ " 的源节点不存在"]
            else Ok []) : outcome (list string);
      tgt ← get "target" edge;
      e2 ← (if negb (set_has nodeIds tgt)
            then lb ← get "label" edge;
                 name ← (if truthy lb then Ok lb else get "id" edge);
                 Ok ["连线 " +:+ to_string name +:+ " 的目标节点不存在"]
            else Ok []) : outcome (list string);
      rest ← edge_errors nodeIds r;
      Ok (e1 ++ e2 ++ rest)%list
  end.

Definition has_type (t : string) (n : value) : outcome bool :=
  ty ← get "type" n;
  Ok (strict_eq ty (VStr t)).

(** [e.source === node.id || e.target === node.id] *)
Definition touches (node e : value) : outcome bool :=
  s ← get "source" e;
  i ← get "id" node;
  if strict_eq s i then Ok true
  else
    t ← get "target" e;
    i ← get "id" node;
    Ok (strict_eq t i).

(** The [errors] and [warnings] arrays as they stand before the result is
    presented. *)
Definition validate (allNodes allEdges : list value)
    : outcome (list string * list string) :=
  let ns := allNodes in
  let errors0 := if (Z.of_nat (length ns) =? 0) then ["流程中没有节点"] else [] in
  startNodes ← filterM (has_type "input") ns;
  endNodes ← filterM (has_type "output") ns;
  let errors1 :=
    if (Z.of_nat (length startNodes) =? 0) then ["流程缺少开始节点"] else [] in
  let warnings1 :=
    if (Z.of_nat (length startNodes) =? 0) then []
    else if (Z.of_nat (length startNodes) >? 1) then ["流程有多个开始节点"] else [] in
  let errors2 :=
    if (Z.of_nat (length endNodes) =? 0) then ["流程缺少结束节点"] else [] in
  let warnings2 :=
    if (Z.of_nat (length endNodes) =? 0) then []
    else if (Z.of_nat (length endNodes) >? 1) then ["流程有多个结束节点"] else [] in
  nodeIds ← mapM (get "id") ns;
  let es := allEdges in
  errors3 ← edge_errors nodeIds es;
  orphanNodes ← filterM (λ node, b ← someM (touches node) es; Ok (negb b)) ns;
  warnings3 ←
    (if (Z.of_nat (length orphanNodes) >? 0) then
       labels ← mapM (λ n, d ← get "data" n; get "label" d) orphanNodes;
       Ok ["有 " +:+ pretty (Z.of_nat (length orphanNodes)) +:+ " 个孤立节点: "
             +:+ join ", " labels]
     else Ok []) : outcome (list string);
  Ok ((errors0 ++ errors1 ++ errors2 ++ errors3)%list,
      (warnings1 ++ warnings2 ++ warnings3)%list).

Definition handleValidate (allNodes allEdges : list value) : handler unit :=
  r ← lift (validate allNodes allEdges);
  let errors := fst r in
  let warnings := snd r in
  if (Z.of_nat (length errors) >? 0) then notify (AlertFailed errors warnings)
  else if (Z.of_nat (length warnings) >? 0) then notify (AlertWarnings warnings)
  else notify (MsgSuccess "流程验证通过，没有发现问题").

(** ** Selection *)

Definition onEdgeClick (edge : value) : handler unit :=
  modify (set_selectedEdge edge);;
  modify (set_updateState "edge").

Definition onNodeClick (node : value) : handler unit :=
  modify (set_selectedNode node);;
  modify (set_updateState "node").

Definition handleClosePanel : handler unit :=
  modify (set_updateState "");;
  modify (set_selectedNode (VObj ∅));;
  modify (set_selectedEdge (VObj ∅)).

(** ** Drag and drop: [onDragStart], [onDragEnd], [onDrop] *)

(** [cond ? a : undefined] *)
Definition only_for (cond : bool) (a : value) : value := if cond then a else VUndef.

(** [item] is the palette entry: a string for the two fixed entries, an
    object otherwise; [clientX] and [clientY] are the pointer coordinates of
    the event and [now] the reading of [Date.now()]. *)
Definition onDragStart (clientX clientY : value) (item : value) (now : Z) : handler unit :=
  match item with
  | VStr _ =>
      modify (set_dragItem (VObj {[
        "id" := VStr ("node-" +:+ pretty now);
        "data" := VObj {[ "label" := item ]};
        "type" := (if strict_eq item (VStr "开始") then VStr "input"
                   else if strict_eq item (VStr "结束") then VStr "output"
                   else VStr "custom");
        "position" := VObj {[ "x" := clientX; "y" := clientY ]};
        "class" := (if strict_eq item (VStr "开始") then VStr "round-start"
                    else if strict_eq item (VStr "结束") then VStr "round-stop"
                    else VStr "light") ]}))
  | _ =>
      lb ← lift (get "label" item);
      nm ← lift (get "name" item);
      ty ← lift (get "type" item);
      cl ← lift (get "class" item);
      modify (set_dragItem (VObj {[
        "id" := VStr ("node-" +:+ pretty now);
        "data" := VObj {[
          "label" := js_or lb nm;
          "assignee" := only_for (strict_eq ty (VStr "task")) (VStr "未指定");
          "priority" := only_for (strict_eq ty (VStr "task")) (VStr "medium");
          "approver" := only_for (strict_eq ty (VStr "approval")) (VStr "待指定");
          "approvalType" := only_for (strict_eq ty (VStr "approval")) (VStr "single");
          "notifyType" := only_for (strict_eq ty (VStr "notification")) (VStr "email");
          "recipients" := only_for (strict_eq ty (VStr "notification")) (VStr "");
          "delay" := only_for (strict_eq ty (VStr "timer")) (VNum 0);
          "condition" := only_for (strict_eq ty (VStr "condition")) (VStr "");
          "branchCount" := only_for (strict_eq ty (VStr "parallel")) (VNum 2) ]};
        "type" := js_or ty (VStr "custom");
        "position" := VObj {[ "x" := clientX; "y" := clientY ]};
        "class" := js_or cl (VStr "light") ]}))
  end.

Definition onDragEnd : handler unit := modify (set_dragItem VNull).

(** [position] is what [screenToFlowCoordinate] returns for the drop point.
    The callback registered with [onNodesInitialized], which re-centres the
    node once it is rendered, runs later and is not part of this handler. *)
Definition onDrop (position : value) : handler unit :=
  d ← read dragItem;
  let newNode := VObj (<["position" := position]> (spread d)) in
  modify (set_dragItem VNull);;
  addNodes newNode;;
  saveToHistory.

(** ** Config panels: [handleSaveNode], [handleDeleteNode], [handleSaveEdge],
    [handleDeleteEdge] *)

(** [x.id !== selected.id] *)
Definition other_id (selected x : value) : outcome bool :=
  xi ← get "id" x;
  si ← get "id" selected;
  Ok (negb (strict_eq xi si)).

Definition handleSaveNode (allNodes : list value) (data : value) : handler unit :=
  sel ← read selectedNode;
  kept ← lift (filterM (other_id sel) allNodes);
  sd ← lift (get "data" sel);
  setNodes (kept ++ [VObj (<["data" := VObj (spread data ∪ spread sd)]> (spread sel))])%list;;
  saveToHistory.

(** [e.source !== selected.id && e.target !== selected.id] *)
Definition detached (selected e : value) : outcome bool :=
  s ← get "source" e;
  si ← get "id" selected;
  if negb (strict_eq s si) then
    t ← get "target" e;
    si ← get "id" selected;
    Ok (negb (strict_eq t si))
  else Ok false.

(** [confirmed] tells whether the user confirmed the dialog; the body is the
    callback passed to [then].  [allEdges] is read after [setNodes] has been
    called. *)
Definition handleDeleteNode (allNodes allEdges : list value) (confirmed : bool)
    : handler unit :=
  if confirmed then
    sel ← read selectedNode;
    kept ← lift (filterM (other_id sel) allNodes);
    setNodes kept;;
    sel ← read selectedNode;
    keptE ← lift (filterM (detached sel) allEdges);
    setEdges keptE;;
    notify (MsgSuccess "节点删除成功");;
    handleClosePanel;;
    saveToHistory
  else skip.

Definition handleSaveEdge (allEdges : list value) (data : value) : handler unit :=
  sel ← read selectedEdge;
  kept ← lift (filterM (other_id sel) allEdges);
  lb ← lift (get "label" data);
  ty ← lift (get "type" data);
  an ← lift (get "animated" data);
  co ← lift (get "color" data);
  sw ← lift (get "strokeWidth" data);
  cd ← lift (get "condition" data);
  de ← lift (get "description" data);
  setEdges (kept ++ [VObj (
    <["data" := VObj {[ "condition" := cd; "description" := de ]}]> (
    <["style" := VObj {[ "stroke" := co; "strokeWidth" := sw ]}]> (
    <["animated" := an]> (
    <["type" := ty]> (
    <["label" := lb]> (spread sel))))))])%list;;
  saveToHistory.

Definition handleDeleteEdge (allEdges : list value) (confirmed : bool) : handler unit :=
  if confirmed then
    sel ← read selectedEdge;
    kept ← lift (filterM (other_id sel) allEdges);
    setEdges kept;;
    notify (MsgSuccess "连线删除成功");;
    handleClosePanel;;
    saveToHistory
  else skip.

(** The form of NodeConfigPanel.vue, as built from the [node] prop. *)
Definition formData (node : value) : value :=
  let d := get_opt "data" node in
  VObj {[
    "label" := js_or (get_opt "label" d) (VStr "");
    "assignee" := js_or (get_opt "assignee" d) (VStr "");
    "priority" := js_or (get_opt "priority" d) (VStr "medium");
    "approver" := js_or (get_opt "approver" d) (VStr "");
    "approvalType" := js_or (get_opt "approvalType" d) (VStr "single");
    "notifyType" := js_or (get_opt "notifyType" d) (VStr "email");
    "recipients" := js_or (get_opt "recipients" d) (VStr "");
    "delay" := js_or (get_opt "delay" d) (VNum 0);
    "condition" := js_or (get_opt "condition" d) (VStr "");
    "branchCount" := js_or (get_opt "branchCount" d) (VNum 2);
    "description" := js_or (get_opt "description" d) (VStr "") ]}.

(** ** Local persistence and clearing: [handleLoad], [handleClear] *)

(** [savedData] is what [localStorage.getItem("workflowData")] returns
    ([None] for [null]) and [parsed] the result of [JSON.parse(savedData)]. *)
Definition handleLoad (savedData : option string) (parsed : outcome value) : handler unit :=
  if truthy (from_option VStr VNull savedData) then
    try_catch
      (workflowData ← lift parsed;
       wn ← lift (get "nodes" workflowData);
       modify (set_nodes wn);;
       we ← lift (get "edges" workflowData);
       modify (set_edges we);;
       saveToHistory;;
       notify (MsgSuccess "流程加载成功"))
      (notify (MsgError "流程加载失败"))
  else
    notify (MsgWarning "没有保存的流程数据").

Definition handleClear (confirmed : bool) : handler unit :=
  if confirmed then
    modify (set_nodes (VArr []));;
    modify (set_edges (VArr []));;
    saveToHistory;;
    notify (MsgSuccess "画布已清空")
  else skip.

(** ** Sessions on the history stack *)

(** An event of a session: a record, an undo, a redo, or an edit that
    replaces the node and edge lists by [ns] and [es] (what clearing, loading,
    importing and choosing a template do to the refs before they record). *)
Inductive op : Type :=
  | OpRecord
  | OpUndo
  | OpRedo
  | OpEdit (ns es : value).

Definition step (o : op) : handler unit :=
  match o with
  | OpRecord => saveToHistory
  | OpUndo => undo
  | OpRedo => redo
  | OpEdit ns es => modify (set_nodes ns);; modify (set_edges es)
  end.

(** Events are handled one after the other; a handler that throws leaves the
    state it reached, and the next event is handled from there. *)
Fixpoint run (ops : list op) (st : editor) : editor :=
  match ops with
  | [] => st
  | o :: r => run r (exec (step o) st)
  end.

(** [N] assignments of the two lists, each followed by a record. *)
Definition edits (gs : list (value * value)) : list op :=
  flat_map (λ g, [OpEdit (fst g) (snd g); OpRecord]) gs.

(** The history index invariant. *)
Definition hist_inv (st : editor) : Prop :=
  (0 ≤ historyIndex st < Z.of_nat (length (history st)))
  ∨ (length (history st) = 0%nat ∧ historyIndex st = -1).

(** A value that the JSON deep copy reproduces exactly. *)
Definition faithful (v : value) : Prop := JSON_clone v = Ok v.

Definition faithful_snapshot (s : snapshot) : Prop :=
  faithful (snap_nodes s) ∧ faithful (snap_edges s).

(** The snapshot that [saveToHistory] takes of the graph [g]. *)
Definition snapshot_of (g : value * value) : snapshot :=
  Snapshot (clone (fst g)) (clone (snd g)).

(** ** Vocabulary of the statements *)

(** The index invariant together with the capacity bound; this is what every
    history operation preserves. *)
Definition hist_ok (st : editor) : Prop :=
  hist_inv st ∧ Z.of_nat (length (history st)) ≤ maxHistory.

(** What [saveToHistory] does to the stack [h] and the index [idx] when it
    pushes the snapshot [s]. *)
Definition pushed (h : list snapshot) (idx : Z) (s : snapshot) : list snapshot * Z :=
  let h1 := if idx <? Z.of_nat (length h) - 1 then slice0 (idx + 1) h else h in
  let h2 := (h1 ++ [s])%list in
  if Z.of_nat (length h2) >? maxHistory then (tail h2, idx) else (h2, idx + 1).

(** The last [maxHistory] entries of [l]. *)
Definition newest {A} (l : list A) : list A := drop (length l - Z.to_nat maxHistory) l.

(** A graph that [saveToHistory] can snapshot: neither list is [undefined]. *)
Definition recordable (g : value * value) : Prop := fst g ≠ VUndef ∧ snd g ≠ VUndef.

(** A value whose properties can be read: neither [undefined] nor [null]. *)
Definition defined (v : value) : Prop := v ≠ VUndef ∧ v ≠ VNull.

(** [x.id !== i], [e.source !== i && e.target !== i] for a string [i]. *)
Definition id_differs (i : string) (x : value) : bool :=
  negb (strict_eq (get_opt "id" x) (VStr i)).
Definition touches_neither (i : string) (e : value) : bool :=
  negb (strict_eq (get_opt "source" e) (VStr i))
  && negb (strict_eq (get_opt "target" e) (VStr i)).

(** [n.type === t], and the number of nodes of kind [t]. *)
Definition is_kind (t : string) (n : value) : bool :=
  strict_eq (get_opt "type" n) (VStr t).
Definition kind_count (t : string) (ns : list value) : nat :=
  length (List.filter (is_kind t) ns).

(** The ids collected into [nodeIds]. *)
Definition node_ids (ns : list value) : list value := map (get_opt "id") ns.

(** [edge.label || edge.id], as printed in a message. *)
Definition edge_name (e : value) : string :=
  to_string (js_or (get_opt "label" e) (get_opt "id" e)).

(** The two messages of the edge check. *)
Definition source_missing (e : value) : string := "连线 " +:+ edge_name e +:+ " 的源节点不存在".
Definition target_missing (e : value) : string := "连线 " +:+ edge_name e +:+ " 的目标节点不存在".

(** The errors the validator reports for one edge. *)
Definition dangling_errors (ids : list value) (e : value) : list string :=
  ((if set_has ids (get_opt "source" e) then [] else [source_missing e])
   ++ (if set_has ids (get_opt "target" e) then [] else [target_missing e]))%list.

(** The number of edge endpoints (sources, then targets) that reference no
    node of [ns]. *)
Definition dangling_endpoints (ns es : list value) : nat :=
  (length (List.filter (λ e, negb (set_has (node_ids ns) (get_opt "source" e))) es)
   + length (List.filter (λ e, negb (set_has (node_ids ns) (get_opt "target" e))) es))%nat.

(** A node as the validator needs it: its properties can be read, and so can
    those of its data payload. *)
Definition node_ok (n : value) : Prop := defined n ∧ defined (get_opt "data" n).

(** Some edge has [node] as its source or target. *)
Definition touched_by (es : list value) (node : value) : bool :=
  existsb (λ e, strict_eq (get_opt "source" e) (get_opt "id" node)
                || strict_eq (get_opt "target" e) (get_opt "id" node)) es.

(** The errors of the first three checks. *)
Definition start_errors (ns : list value) : list string :=
  if (Z.of_nat (kind_count "input" ns) =? 0) then ["流程缺少开始节点"] else [].
Definition end_errors (ns : list value) : list string :=
  if (Z.of_nat (kind_count "output" ns) =? 0) then ["流程缺少结束节点"] else [].
Definition empty_errors (ns : list value) : list string :=
  if (Z.of_nat (length ns) =? 0) then ["流程中没有节点"] else [].

(** Neither list is [undefined]. *)
Definition both_defined (dn de : value) : bool :=
  match dn, de with
  | VUndef, _ | _, VUndef => false
  | _, _ => true
  end.

(** The state after a successful import of the lists [dn] and [de]. *)
Definition imported (dn de : value) (st : editor) : editor :=
  add_notice (MsgSuccess "流程导入成功")
    (exec saveToHistory (set_edges de (set_nodes dn st))).

(** The node built by [handlePaste] from the clipboard content [c]. *)
Definition pasted (c : value) (now : Z) : value :=
  VObj (<["position" := VObj {[ "x" := js_plus (get_opt "x" (get_opt "position" c)) 50;
                                "y" := js_plus (get_opt "y" (get_opt "position" c)) 50 ]}]>
       (<["id" := VStr ("node-" +:+ pretty now)]> (spread c))).

(** The node that [handleSaveNode] puts back for the selected node [sel]
    and the form payload [data]. *)
Definition saved_node (sel data : value) : value :=
  VObj (<["data" := VObj (spread data ∪ spread (get_opt "data" sel))]> (spread sel)).

(** The edge that [handleSaveEdge] puts back. *)
Definition saved_edge (sel data : value) : value :=
  VObj (
    <["data" := VObj {[ "condition" := get_opt "condition" data;
                        "description" := get_opt "description" data ]}]> (
    <["style" := VObj {[ "stroke" := get_opt "color" data;
                         "strokeWidth" := get_opt "strokeWidth" data ]}]> (
    <["animated" := get_opt "animated" data]> (
    <["type" := get_opt "type" data]> (
    <["label" := get_opt "label" data]> (spread sel)))))).

(** ** The initial graph and sample inputs *)

Definition position (x y : Z) : value := VObj {[ "x" := VNum x; "y" := VNum y ]}.

Definition edge (id source target label : string) : value :=
  VObj {[ "id" := VStr id; "type" := VStr "smoothstep"; "source" := VStr source;
          "target" := VStr target; "label" := VStr label ]}.

Definition start_node : value :=
  VObj {[ "id" := VStr "start"; "type" := VStr "input";
          "data" := VObj {[ "label" := VStr "开始" ]};
          "position" := position 400 50; "class" := VStr "round-start" ]}.

Definition task1_position : gmap string value := {[ "x" := VNum 350; "y" := VNum 150 ]}.
Definition task1_props : gmap string value :=
  {[ "id" := VStr "task1"; "type" := VStr "task";
     "data" := VObj {[ "label" := VStr "提交申请"; "assignee" := VStr "张三";
                       "priority" := VStr "high" ]};
     "position" := VObj task1_position ]}.
Definition task1_node : value := VObj task1_props.

Definition approval1_node : value :=
  VObj {[ "id" := VStr "approval1"; "type" := VStr "approval";
          "data" := VObj {[ "label" := VStr "经理审批"; "approver" := VStr "经理A";
                            "approvalType" := VStr "single" ]};
          "position" := position 350 250 ]}.

Definition condition1_node : value :=
  VObj {[ "id" := VStr "condition1"; "type" := VStr "condition";
          "data" := VObj {[ "label" := VStr "金额判断"; "condition" := VStr "amount > 10000" ]};
          "position" := position 350 370 ]}.

Definition task2_node : value :=
  VObj {[ "id" := VStr "task2"; "type" := VStr "task";
          "data" := VObj {[ "label" := VStr "总监审批"; "assignee" := VStr "李四";
                            "priority" := VStr "high" ]};
          "position" := position 200 500 ]}.

Definition notification1_node : value :=
  VObj {[ "id" := VStr "notification1"; "type" := VStr "notification";
          "data" := VObj {[ "label" := VStr "发送通知"; "notifyType" := VStr "email";
                            "recipients" := VStr "user@example.com" ]};
          "position" := position 500 500 ]}.

Definition timer1_node : value :=
  VObj {[ "id" := VStr "timer1"; "type" := VStr "timer";
          "data" := VObj {[ "label" := VStr "延迟处理"; "delay" := VNum 30 ]};
          "position" := position 350 620 ]}.

Definition end_node : value :=
  VObj {[ "id" := VStr "end"; "type" := VStr "output";
          "data" := VObj {[ "label" := VStr "结束" ]};
          "position" := position 400 750; "class" := VStr "round-stop" ]}.

(** The graph the component starts with ([const nodes = ref([...])],
    [const edges = ref([...])]). *)
Definition initial_nodes : list value :=
  [start_node; task1_node; approval1_node; condition1_node; task2_node;
   notification1_node; timer1_node; end_node].

Definition initial_edges : list value :=
  [edge "e-start-task1" "start" "task1" "开始";
   edge "e-task1-approval1" "task1" "approval1" "提交";
   edge "e-approval1-condition1" "approval1" "condition1" "通过";
   edge "e-condition1-task2" "condition1" "task2" "大额";
   edge "e-condition1-notification1" "condition1" "notification1" "小额";
   edge "e-task2-timer1" "task2" "timer1" "完成";
   edge "e-notification1-timer1" "notification1" "timer1" "已发送";
   edge "e-timer1-end" "timer1" "end" "结束"].

(** The editor once VueFlow has initialised: the initial graph is recorded. *)
Definition opened : editor := exec onInit (mounted (VArr initial_nodes) (VArr initial_edges)).

(** An empty canvas, recorded. *)
Definition blank : editor := exec onInit (mounted (VArr []) (VArr [])).

(** The palette entry for approval nodes ([processNodes[1]]). *)
Definition approval_item : value :=
  VObj {[ "type" := VStr "approval"; "label" := VStr "审批节点";
          "class" := VStr "approval-drag-item" ]}.

(** An approval node dragged from the palette at clock reading
    1700000000000 and dropped on the empty canvas, and the node that the
    drop hands to [addNodes]. *)
Definition dropped : editor :=
  exec (onDrop (position 300 200))
    (exec (onDragStart (VNum 120) (VNum 340) approval_item 1700000000000) blank).

Definition dropped_node : value :=
  match storeCalls dropped with
  | [AddNodes n] => n
  | _ => VUndef
  end.




Definition two_edits : list (value * value) :=
  [(VArr [start_node], VArr []);
   (VArr [start_node; end_node], VArr [edge "e-start-end" "start" "end" "完成"])].

(** The text of a JSON object with the single field [foo], value 1. *)
Definition dquote : string := String "034"%char EmptyString.
Definition foo_text : string := "{" +:+ dquote +:+ "foo" +:+ dquote +:+ ":1}".

(** A graph without start node and with one dangling endpoint. *)
Definition no_start_nodes : list value := [task1_node; end_node].
Definition one_dangling : list value :=
  [edge "e-task1-end" "task1" "end" "完成"; edge "e-end-ghost" "end" "ghost" ""].

(** A node form and an edge form as the panels emit them. *)
Definition task1_form : gmap string value :=
  {[ "label" := VStr "提交申请"; "assignee" := VStr "lisi"; "priority" := VStr "low";
     "approver" := VStr ""; "approvalType" := VStr "single"; "notifyType" := VStr "email";
     "recipients" := VStr ""; "delay" := VNum 0; "condition" := VStr "";
     "branchCount" := VNum 2; "description" := VStr "" ]}.

Definition edge_form : value :=
  VObj {[ "label" := VStr "开始"; "type" := VStr "straight"; "color" := VStr "#ff0000";
          "strokeWidth" := VNum 3; "animated" := VBool true; "condition" := VStr "";
          "description" := VStr "" ]}.

(** ** Connecting two nodes: [onConnect] *)

(** [connection] is the connection that the library reports. *)
Definition onConnect (connection : value) : handler unit :=
  addEdges connection;;
  saveToHistory.

(** ** The statistics panel: [stats] *)

(** [v.length]: the number of elements of an array; reading it from
    [undefined] or [null] throws.  (A string has its length in UTF-16 code
    units; the strings of the model are byte sequences, so the two agree on
    ASCII text.) *)
Definition js_length (v : value) : outcome value :=
  match v with
  | VUndef | VNull => Throw
  | VArr l => Ok (VNum (Z.of_nat (length l)))
  | VStr s => Ok (VNum (Z.of_nat (String.length s)))
  | VObj o => Ok (default VUndef (o !! "length"))
  | _ => Ok VUndef
  end.

Record statistics : Type := Statistics {
  totalNodes : value;
  taskNodes : value;
  approvalNodes : value;
  conditionNodes : value;
  totalEdges : value
}.

(** The computed property, evaluated in the state [st]. *)
Definition stats (st : editor) : outcome statistics :=
  let allNodes := nodes st in
  total ← js_length allNodes;
  l ← as_array allNodes;
  tasks ← filterM (has_type "task") l;
  approvals ← filterM (has_type "approval") l;
  conditions ← filterM (has_type "condition") l;
  te ← js_length (edges st);
  Ok (Statistics total
        (VNum (Z.of_nat (length tasks)))
        (VNum (Z.of_nat (length approvals)))
        (VNum (Z.of_nat (length conditions)))
        te).

(** ** Templates: [templates], [handleTemplateSelect] *)

Record template : Type := Template {
  tpl_id : string;
  tpl_name : string;
  tpl_nodes : list value;
  tpl_edges : list value
}.

(** A node without a [class] property. *)
Definition plain_node (id type : string) (data : gmap string value) (x y : Z) : value :=
  VObj {[ "id" := VStr id; "type" := VStr type; "data" := VObj data;
          "position" := position x y ]}.

(** The end node of a template, at height [y]. *)
Definition end_node_at (y : Z) : value :=
  VObj {[ "id" := VStr "end"; "type" := VStr "output";
          "data" := VObj {[ "label" := VStr "结束" ]};
          "position" := position 400 y; "class" := VStr "round-stop" ]}.

Definition approval_template : template :=
  Template "approval" "审批流程"
    [ start_node;
      plain_node "task1" "task"
        {[ "label" := VStr "提交申请"; "assignee" := VStr "申请人";
           "priority" := VStr "medium" ]} 350 150;
      plain_node "approval1" "approval"
        {[ "label" := VStr "部门审批"; "approver" := VStr "部门经理";
           "approvalType" := VStr "single" ]} 350 250;
      end_node_at 350 ]
    [ edge "e-start-task1" "start" "task1" "开始";
      edge "e-task1-approval1" "task1" "approval1" "提交";
      edge "e-approval1-end" "approval1" "end" "通过" ].

Definition parallel_template : template :=
  Template "parallel" "并行处理"
    [ start_node;
      plain_node "parallel1" "parallel"
        {[ "label" := VStr "并行分支"; "branchCount" := VNum 3 ]} 350 150;
      plain_node "task1" "task"
        {[ "label" := VStr "任务A"; "assignee" := VStr "张三";
           "priority" := VStr "high" ]} 200 280;
      plain_node "task2" "task"
        {[ "label" := VStr "任务B"; "assignee" := VStr "李四";
           "priority" := VStr "high" ]} 350 280;
      plain_node "task3" "task"
        {[ "label" := VStr "任务C"; "assignee" := VStr "王五";
           "priority" := VStr "high" ]} 500 280;
      end_node_at 400 ]
    [ edge "e-start-parallel1" "start" "parallel1" "开始";
      edge "e-parallel1-task1" "parallel1" "task1" "分支1";
      edge "e-parallel1-task2" "parallel1" "task2" "分支2";
      edge "e-parallel1-task3" "parallel1" "task3" "分支3";
      edge "e-task1-end" "task1" "end" "完成";
      edge "e-task2-end" "task2" "end" "完成";
      edge "e-task3-end" "task3" "end" "完成" ].

Definition notification_template : template :=
  Template "notification" "通知流程"
    [ start_node;
      plain_node "task1" "task"
        {[ "label" := VStr "处理任务"; "assignee" := VStr "处理人";
           "priority" := VStr "high" ]} 350 150;
      plain_node "notification1" "notification"
        {[ "label" := VStr "发送邮件"; "notifyType" := VStr "email";
           "recipients" := VStr "user@example.com" ]} 350 250;
      plain_node "timer1" "timer"
        {[ "label" := VStr "延迟5秒"; "delay" := VNum 5 ]} 350 350;
      end_node_at 450 ]
    [ edge "e-start-task1" "start" "task1" "开始";
      edge "e-task1-notification1" "task1" "notification1" "完成";
      edge "e-notification1-timer1" "notification1" "timer1" "已发送";
      edge "e-timer1-end" "timer1" "end" "结束" ].

Definition templates : list template :=
  [approval_template; parallel_template; notification_template].

(** [templateId] is the command of the menu entry; [confirmed] tells whether
    the user confirmed the dialog, and the body is the callback passed to
    [then] ([fitView] does not touch the state). *)
Definition handleTemplateSelect (templateId : value) (confirmed : bool) : handler unit :=
  match List.find (λ t, strict_eq (VStr (tpl_id t)) templateId) templates with
  | Some template =>
      if confirmed then
        n' ← lift (JSON_clone (VArr (tpl_nodes template)));
        modify (set_nodes n');;
        e' ← lift (JSON_clone (VArr (tpl_edges template)));
        modify (set_edges e');;
        saveToHistory;;
        notify (MsgSuccess ("已加载模板: " +:+ tpl_name template))
      else skip
  | None => skip
  end.

(** ** Export and local save: [handleExport], [handleSave] *)

(** Both handlers build a document and hand its JSON text to the environment
    (a download, the [workflowData] slot of [localStorage]); the handler
    returns the document.  [createdAt] and [exportedAt] are the two readings
    of [new Date().toISOString()]. *)
Definition handleExport (createdAt exportedAt : string) : handler value :=
  ns ← read nodes;
  es ← read edges;
  let workflowData :=
    VObj {[ "nodes" := ns; "edges" := es;
            "metadata" := VObj {[ "version" := VStr "1.0.0";
                                  "createdAt" := VStr createdAt;
                                  "exportedAt" := VStr exportedAt ]} ]} in
  notify (MsgSuccess "流程导出成功");;
  mret workflowData.

Definition handleSave : handler value :=
  ns ← read nodes;
  es ← read edges;
  let workflowData := VObj {[ "nodes" := ns; "edges" := es ]} in
  notify (MsgSuccess "流程保存成功");;
  mret workflowData.

(** What [JSON.parse] makes of the JSON text of the document [d]. *)
Definition reread (d : outcome value) : outcome value := d ≫= JSON_clone.

(** ** Keyboard shortcuts: [handleKeyDown] *)

Record KeyboardEvent : Type := KeyEvent {
  ctrlKey : bool;
  metaKey : bool;
  shiftKey : bool;
  key : string
}.

(** [toLowerCase] on the ASCII letters.  (No other character lowers to one
    of the letters s, c, v, z, y that the switch compares with.) *)
Definition lower (c : ascii) : ascii :=
  let n := nat_of_ascii c in
  if (65 <=? n)%nat && (n <=? 90)%nat then ascii_of_nat (n + 32) else c.

Fixpoint toLowerCase (s : string) : string :=
  match s with
  | EmptyString => EmptyString
  | String c r => String (lower c) (toLowerCase r)
  end.

(** [now] is the reading of [Date.now()] should the event paste; [confirmed]
    the answer to the dialog and [allNodes], [allEdges] what the store
    returns should it delete. *)
Definition handleKeyDown (event : KeyboardEvent) (now : Z) (confirmed : bool)
    (allNodes allEdges : list value) : handler unit :=
  if ctrlKey event || metaKey event then
    let k := toLowerCase (key event) in
    if String.eqb k "s" then
      _ ← handleSave; skip
    else if String.eqb k "c" then
      sel ← read selectedNode;
      sid ← lift (get "id" sel);
      if truthy sid then handleCopy else skip
    else if String.eqb k "v" then
      c ← read clipboard;
      if truthy c then handlePaste now else skip
    else if String.eqb k "z" then
      if shiftKey event then redo else undo
    else if String.eqb k "y" then
      redo
    else skip
  else if String.eqb (key event) "Delete" || String.eqb (key event) "Backspace" then
    sel ← read selectedNode;
    sid ← lift (get "id" sel);
    us ← read updateState;
    if truthy sid && String.eqb us "node" then
      handleDeleteNode allNodes allEdges confirmed
    else
      sel ← read selectedEdge;
      eid ← lift (get "id" sel);
      us ← read updateState;
      if truthy eid && String.eqb us "edge" then handleDeleteEdge allEdges confirmed
      else skip
  else skip.

(** ** The form of EdgeConfigPanel.vue *)

Module EdgeConfigPanel.

(** The form as built from the [edge] prop. *)
Definition formData (edge : value) : value :=
  VObj {[
    "label" := js_or (get_opt "label" edge) (VStr "");
    "type" := js_or (get_opt "type" edge) (VStr "smoothstep");
    "color" := js_or (get_opt "stroke" (get_opt "style" edge)) (VStr "#000000");
    "strokeWidth" := js_or (get_opt "strokeWidth" (get_opt "style" edge)) (VNum 2);
    "animated" := js_or (get_opt "animated" edge) (VBool false);
    "condition" := js_or (get_opt "condition" (get_opt "data" edge)) (VStr "");
    "description" := js_or (get_opt "description" (get_opt "data" edge)) (VStr "") ]}.

End EdgeConfigPanel.

(** ** Sessions of user events *)

(** Everything the user and the library can do to the component: one
    constructor per handler, with what the environment supplies to it
    ([allNodes] and [allEdges] are what the store returns to the handler).
    [EvGraph] assigns the two refs; no handler does so without recording,
    and the event stands for any other code that would, so that what holds
    of all sessions does not depend on who writes the refs. *)
Inductive event : Type :=
  | EvInit
  | EvNodeDragStop
  | EvConnect (connection : value)
  | EvGraph (ns es : value)
  | EvKeyDown (e : KeyboardEvent) (now : Z) (confirmed : bool)
      (allNodes allEdges : list value)
  | EvUndo
  | EvRedo
  | EvCopy
  | EvPaste (now : Z)
  | EvExport (createdAt exportedAt : string)
  | EvFileChange (file : option (outcome value))
  | EvTemplateSelect (templateId : value) (confirmed : bool)
  | EvValidate (allNodes allEdges : list value)
  | EvEdgeClick (edge : value)
  | EvNodeClick (node : value)
  | EvDragStart (clientX clientY item : value) (now : Z)
  | EvDragEnd
  | EvDrop (position : value)
  | EvClosePanel
  | EvSaveNode (allNodes : list value) (data : value)
  | EvDeleteNode (allNodes allEdges : list value) (confirmed : bool)
  | EvSaveEdge (allEdges : list value) (data : value)
  | EvDeleteEdge (allEdges : list value) (confirmed : bool)
  | EvSave
  | EvLoad (savedData : option string) (parsed : outcome value)
  | EvClear (confirmed : bool).

Definition dispatch (ev : event) : handler unit :=
  match ev with
  | EvInit => onInit
  | EvNodeDragStop => onNodeDragStop
  | EvConnect connection => onConnect connection
  | EvGraph ns es => modify (set_nodes ns);; modify (set_edges es)
  | EvKeyDown e now confirmed allNodes allEdges =>
      handleKeyDown e now confirmed allNodes allEdges
  | EvUndo => undo
  | EvRedo => redo
  | EvCopy => handleCopy
  | EvPaste now => handlePaste now
  | EvExport createdAt exportedAt => _ ← handleExport createdAt exportedAt; skip
  | EvFileChange file => handleFileChange file
  | EvTemplateSelect templateId confirmed => handleTemplateSelect templateId confirmed
  | EvValidate allNodes allEdges => handleValidate allNodes allEdges
  | EvEdgeClick edge => onEdgeClick edge
  | EvNodeClick node => onNodeClick node
  | EvDragStart clientX clientY item now => onDragStart clientX clientY item now
  | EvDragEnd => onDragEnd
  | EvDrop position => onDrop position
  | EvClosePanel => handleClosePanel
  | EvSaveNode allNodes data => handleSaveNode allNodes data
  | EvDeleteNode allNodes allEdges confirmed => handleDeleteNode allNodes allEdges confirmed
  | EvSaveEdge allEdges data => handleSaveEdge allEdges data
  | EvDeleteEdge allEdges confirmed => handleDeleteEdge allEdges confirmed
  | EvSave => _ ← handleSave; skip
  | EvLoad savedData parsed => handleLoad savedData parsed
  | EvClear confirmed => handleClear confirmed
  end.

(** Events are handled one after the other, each from the state the previous
    one left, thrown or not. *)
Fixpoint play (evs : list event) (st : editor) : editor :=
  match evs with
  | [] => st
  | ev :: r => play r (exec (dispatch ev) st)
  end.

(** Every snapshot on the stack is reproduced exactly by the deep copy that
    [undo] and [redo] take of it. *)
Definition sound (st : editor) : Prop :=
  hist_ok st ∧ Forall faithful_snapshot (history st).

(** ** Further vocabulary *)

(** The edges whose source, respectively target, is the id of no node. *)
Definition source_dangling (ns : list value) (e : value) : bool :=
  negb (set_has (node_ids ns) (get_opt "source" e)).
Definition target_dangling (ns : list value) (e : value) : bool :=
  negb (set_has (node_ids ns) (get_opt "target" e)).

(** The nodes that no edge touches, and the warning that lists them. *)
Definition orphans (ns es : list value) : list value :=
  List.filter (λ node, negb (touched_by es node)) ns.
Definition orphan_warning (ns es : list value) : list string :=
  if (Z.of_nat (length (orphans ns es)) >? 0) then
    ["有 " +:+ pretty (Z.of_nat (length (orphans ns es))) +:+ " 个孤立节点: "
       +:+ join ", " (map (λ n, get_opt "label" (get_opt "data" n)) (orphans ns es))]
  else [].

(** The warnings about several start or end nodes. *)
Definition start_warnings (ns : list value) : list string :=
  if (1 <? Z.of_nat (kind_count "input" ns)) then ["流程有多个开始节点"] else [].
Definition end_warnings (ns : list value) : list string :=
  if (1 <? Z.of_nat (kind_count "output" ns)) then ["流程有多个结束节点"] else [].

(** The node that [onDrop] adds for the pending drag item [d]. *)
Definition dropped_at (position d : value) : value :=
  VObj (<["position" := position]> (spread d)).

(** A handler that keeps the stack sound, whether it returns or throws. *)
Definition keeps {A : Type} (h : handler A) : Prop :=
  ∀ st, sound st → sound (exec h st).

(** A key event that is no shortcut in the state [st]: with Ctrl or Cmd
    held, a key other than s, c, v, z, y, or c with no node selected, or v
    with an empty clipboard; without them, a key other than Delete and
    Backspace, or any key while no panel is open. *)
Definition idle (e : KeyboardEvent) (st : editor) : Prop :=
  if ctrlKey e || metaKey e then
    toLowerCase (key e) ∉ ["s"; "c"; "v"; "z"; "y"]
    ∨ (toLowerCase (key e) = "c" ∧ truthy (get_opt "id" (selectedNode st)) = false)
    ∨ (toLowerCase (key e) = "v" ∧ truthy (clipboard st) = false)
  else
    key e ∉ ["Delete"; "Backspace"] ∨ updateState st = "".

(** The notice that [handleValidate] shows for the lists [errors] and
    [warnings]. *)
Definition verdict (errors warnings : list string) : notice :=
  match errors, warnings with
  | [], [] => MsgSuccess "流程验证通过，没有发现问题"
  | [], _ => AlertWarnings warnings
  | _, _ => AlertFailed errors warnings
  end.

(** A node of one of the three kinds that the statistics panel counts. *)
Definition counted (n : value) : bool :=
  is_kind "task" n || is_kind "approval" n || is_kind "condition" n.

(** The events that only look at the graph, select, or prepare a drag. *)
Definition passive (ev : event) : bool :=
  match ev with
  | EvCopy | EvExport _ _ | EvValidate _ _ | EvEdgeClick _ | EvNodeClick _
  | EvDragStart _ _ _ _ | EvDragEnd | EvClosePanel | EvSave => true
  | _ => false
  end.

(** A handler that leaves the two lists and the history stack alone and
    asks nothing of the store, whether it returns or throws. *)
Definition leaves_graph {A : Type} (h : handler A) : Prop :=
  ∀ st, nodes (exec h st) = nodes st ∧ edges (exec h st) = edges st
        ∧ history (exec h st) = history st
        ∧ historyIndex (exec h st) = historyIndex st
        ∧ storeCalls (exec h st) = storeCalls st.

(** The events that edit the graph through the store: dropping, pasting,
    connecting, dragging a node, saving or deleting a node or an edge, by
    button or by key. *)
Definition store_edit (ev : event) : bool :=
  match ev with
  | EvNodeDragStop | EvConnect _ | EvPaste _ | EvDrop _ | EvSaveNode _ _
  | EvDeleteNode _ _ _ | EvSaveEdge _ _ | EvDeleteEdge _ _ => true
  | EvKeyDown e _ _ _ _ =>
      negb ((ctrlKey e || metaKey e)
            && (String.eqb (toLowerCase (key e)) "z"
                || String.eqb (toLowerCase (key e)) "y"))
  | _ => false
  end.




(** A payload that the object spread copies as the model has it: not an
    array and not a string. *)
Definition plain (v : value) : Prop :=
  match v with
  | VArr _ | VStr _ => False
  | _ => True
  end.


(** A handler that changes neither list of the component nor the history
    stack nor its index (it may ask the store for changes). *)
Definition silent {A : Type} (h : handler A) : Prop :=
  ∀ st, nodes (exec h st) = nodes st ∧ edges (exec h st) = edges st
        ∧ history (exec h st) = history st
        ∧ historyIndex (exec h st) = historyIndex st.

(** A handler that leaves both lists of the component as they are and records
    at most once: what it pushes, if anything, is the snapshot of those
    lists. *)
Definition unrecorded {A : Type} (h : handler A) : Prop :=
  ∀ st, nodes (exec h st) = nodes st ∧ edges (exec h st) = edges st
        ∧ ((history (exec h st), historyIndex (exec h st))
           = (history st, historyIndex st)
           ∨ (history (exec h st), historyIndex (exec h st))
             = pushed (history st) (historyIndex st) (snapshot_of (nodes st, edges st))).
(** ** Tactics *)

(** Unfold the handler monad and compute. *)

Ltac run_handler :=
  unfold exec, step, setNodes, setEdges, addNodes, addEdges, notify, skip,
    try_catch, read, modify, lift, mbind, mret, handler_bind, handler_ret,
    outcome_bind, outcome_ret in *;
  simpl in *.

(** Turn boolean comparisons in the hypotheses into propositions. *)

Ltac zbool :=
  rewrite ?Z.gtb_ltb in *;
  repeat match goal with
  | H : (_ <? _) = true |- _ => apply Z.ltb_lt in H
  | H : (_ <? _) = false |- _ => apply Z.ltb_ge in H
  | H : (_ =? _) = true |- _ => apply Z.eqb_eq in H
  | H : (_ =? _) = false |- _ => apply Z.eqb_neq in H
  end.

(** Split a conjunction of facts that hold by computation. *)
Ltac conj_split := repeat match goal with |- _ ∧ _ => split end.

(** * Properties *)

(** ** Values and the JSON deep copy *)

Lemma vsize_elem (l : list value) (x : value) :
  x ∈ l → (vsize x < vsize (VArr l))%nat.
Proof.
  induction 1 as [x l|x y l _ IH]; simpl in *; lia.
Qed.

Lemma vsize_lookup (o : gmap string value) (k : string) (x : value) :
  o !! k = Some x → (vsize x < vsize (VObj o))%nat.
Proof.
  intros Hk. simpl.
  rewrite (map_fold_delete_L _ _ k x o); [lia| |done].
  intros; lia.
Qed.

(** Structural induction on values. *)
Lemma value_ind (P : value → Prop) :
  P VUndef → P VNull → (∀ b, P (VBool b)) → (∀ z, P (VNum z)) → P VNaN →
  (∀ s, P (VStr s)) →
  (∀ l, Forall P l → P (VArr l)) →
  (∀ o, map_Forall (λ _ x, P x) o → P (VObj o)) →
  ∀ v, P v.
Proof.
  intros HU HN HB HZ HNaN HS HA HO v.
  remember (vsize v) as n eqn:Hn. revert v Hn.
  induction n as [n IH] using lt_wf_ind. intros v ->.
  destruct v; auto.
  - apply HA, Forall_forall. intros x Hx.
    eapply IH; [|reflexivity]. by apply vsize_elem.
  - apply HO. intros k x Hk.
    eapply IH; [|reflexivity]. by eapply vsize_lookup.
Qed.

Lemma clone_undef (v : value) : clone v = VUndef → v = VUndef.
Proof. by destruct v. Qed.

Lemma clone_idempotent (v : value) : clone (clone v) = clone v.
Proof.
  induction v as [| | | | | |l IH|o IH] using value_ind; try done.
  - simpl. f_equal. rewrite map_map. apply map_ext_Forall.
    eapply Forall_impl; [exact IH|]. intros x Hx.
    destruct x; try done; exact Hx.
  - simpl. f_equal. apply map_eq. intros k.
    rewrite !lookup_omap. destruct (o !! k) as [x|] eqn:Hk; [|done].
    apply IH in Hk.
    destruct x; try done; simpl; f_equal; exact Hk.
Qed.

Lemma JSON_clone_ok (v : value) : v ≠ VUndef → JSON_clone v = Ok (clone v).
Proof. by destruct v. Qed.

Lemma clone_faithful (v : value) : v ≠ VUndef → faithful (clone v).
Proof.
  intros Hv. unfold faithful. rewrite JSON_clone_ok.
  - by rewrite clone_idempotent.
  - intros H. by apply clone_undef in H.
Qed.


(** A faithful value is its own deep copy. *)
Lemma faithful_clone (v : value) : faithful v → clone v = v.
Proof.
  unfold faithful, JSON_clone. destruct v; intros H; try discriminate; try done; congruence.
Qed.

(** A property of the deep copy of an object is the deep copy of the
    property (a dropped [undefined] reads as [undefined]). *)
Lemma clone_lookup (o : gmap string value) (k : string) :
  get_opt k (clone (VObj o)) = clone (get_opt k (VObj o)).
Proof.
  simpl. rewrite lookup_omap. destruct (o !! k) as [x|]; [|done].
  by destruct x.
Qed.

Lemma clone_object (o : gmap string value) : ∃ co, clone (VObj o) = VObj co.
Proof. by eexists. Qed.

Lemma truthy_defined (v : value) : truthy v = true → v ≠ VUndef.
Proof. by destruct v. Qed.

(** Reading a property does not throw on a value that is neither [undefined]
    nor [null]. *)
Lemma get_defined (k : string) (v : value) : defined v → get k v = Ok (get_opt k v).
Proof. intros [? ?]. by destruct v. Qed.

(** [v === "i"] holds exactly when [v] is the string [i]. *)
Lemma strict_eq_str (v : value) (i : string) : strict_eq v (VStr i) = true ↔ v = VStr i.
Proof.
  destruct v; simpl; try (split; [discriminate|congruence]).
  rewrite String.eqb_eq. split; congruence.
Qed.

(** ** Arrays and lists *)

(** [filter], [map] and [some] with callbacks that do not throw are the list
    functions. *)
Lemma filterM_ok (p : value → outcome bool) (q : value → bool) (l : list value) :
  Forall (λ x, p x = Ok (q x)) l → filterM p l = Ok (List.filter q l).
Proof.
  induction 1 as [|x l Hx _ IH]; simpl; [done|].
  rewrite Hx. simpl. rewrite IH. simpl. by destruct (q x).
Qed.

Lemma mapM_ok (f : value → outcome value) (g : value → value) (l : list value) :
  Forall (λ x, f x = Ok (g x)) l → mapM f l = Ok (map g l).
Proof.
  induction 1 as [|x l Hx _ IH]; simpl; [done|].
  rewrite Hx. simpl. by rewrite IH.
Qed.

Lemma someM_ok (p : value → outcome bool) (q : value → bool) (l : list value) :
  Forall (λ x, p x = Ok (q x)) l → someM p l = Ok (existsb q l).
Proof.
  induction 1 as [|x l Hx _ IH]; simpl; [done|].
  rewrite Hx. simpl. by destruct (q x).
Qed.

Lemma index_lookup {A} (l : list A) (i : Z) :
  0 ≤ i → index l i = l !! Z.to_nat i.
Proof. intros Hi. unfold index. destruct (i <? 0) eqn:H; zbool; [lia|done]. Qed.

Lemma index_is_Some {A} (l : list A) (i : Z) :
  0 ≤ i < Z.of_nat (length l) → is_Some (index l i).
Proof.
  intros Hi. rewrite index_lookup by lia. apply lookup_lt_is_Some. lia.
Qed.

Lemma index_Forall {A} (P : A → Prop) (l : list A) (i : Z) (x : A) :
  Forall P l → index l i = Some x → P x.
Proof.
  intros Hl Hx. unfold index in Hx. destruct (i <? 0); [done|].
  eapply Forall_lookup_1; eauto.
Qed.

Lemma length_tail_Z {A} (l : list A) :
  Z.of_nat (length (tail l)) = Z.max (Z.of_nat (length l) - 1) 0.
Proof. destruct l; simpl; lia. Qed.

Lemma singleton_length {A} (l : list A) : length l = 1%nat → ∃ x, l = [x].
Proof. destruct l as [|x [|y l]]; try done. by exists x. Qed.

Lemma Forall_filter_list {A} (P : A → Prop) (q : A → bool) (l : list A) :
  Forall P l → Forall P (List.filter q l).
Proof.
  induction 1 as [|x l Hx _ IH]; simpl; [constructor|].
  destruct (q x); [by constructor|done].
Qed.

Lemma newest_newest_app {A} (l k : list A) :
  newest (newest l ++ k) = newest (l ++ k).
Proof.
  unfold newest. rewrite !length_app, length_drop.
  destruct (decide (length l ≤ Z.to_nat maxHistory)%nat) as [Hle|Hgt].
  - replace (length l - Z.to_nat maxHistory)%nat with 0%nat by lia.
    rewrite drop_0. f_equal. lia.
  - rewrite <- (drop_app_le l k) by lia.
    rewrite drop_drop. f_equal. lia.
Qed.

Lemma newest_length {A} (l : list A) :
  length (newest l) = Nat.min (length l) (Z.to_nat maxHistory).
Proof. unfold newest. rewrite length_drop. lia. Qed.

Lemma newest_short {A} (l : list A) :
  (length l ≤ Z.to_nat maxHistory)%nat → newest l = l.
Proof.
  intros H. unfold newest.
  replace (length l - Z.to_nat maxHistory)%nat with 0%nat by lia. apply drop_0.
Qed.


(** ** [saveToHistory] *)

(** [saveToHistory] pushes the deep copy of the graph. *)
Lemma saveToHistory_ok (st : editor) (n e : value) :
  JSON_clone (nodes st) = Ok n → JSON_clone (edges st) = Ok e →
  saveToHistory st =
    (Ok tt,
     set_historyIndex (snd (pushed (history st) (historyIndex st) (Snapshot n e)))
       (set_history (fst (pushed (history st) (historyIndex st) (Snapshot n e))) st)).
Proof.
  intros Hn He. unfold saveToHistory, pushed. run_handler. rewrite Hn, He.
  destruct st as [ns es us se sn h i c d nt]; simpl in *.
  destruct (i <? Z.of_nat (length h) - 1); simpl;
    match goal with |- context [?a >? maxHistory] => destruct (a >? maxHistory) end;
    reflexivity.
Qed.

(** When a list is [undefined] the snapshot cannot be built: the handler
    throws before it touches the stack. *)
Lemma saveToHistory_throw (st : editor) :
  JSON_clone (nodes st) = Throw ∨ JSON_clone (edges st) = Throw →
  saveToHistory st = (Throw, st).
Proof.
  intros H. unfold saveToHistory. run_handler.
  destruct (JSON_clone (nodes st)); destruct (JSON_clone (edges st)); try done;
    destruct H; done.
Qed.

(** [saveToHistory] only touches the history stack. *)
Lemma saveToHistory_frame (st : editor) :
  let st' := exec saveToHistory st in
  nodes st' = nodes st ∧ edges st' = edges st ∧ updateState st' = updateState st
  ∧ selectedNode st' = selectedNode st ∧ selectedEdge st' = selectedEdge st
  ∧ clipboard st' = clipboard st ∧ dragItem st' = dragItem st
  ∧ notices st' = notices st.
Proof.
  cbv zeta. unfold exec.
  destruct (JSON_clone (nodes st)) as [n|] eqn:Hn;
    [destruct (JSON_clone (edges st)) as [e|] eqn:He|].
  - by rewrite (saveToHistory_ok st n e).
  - rewrite saveToHistory_throw; auto 10.
  - rewrite saveToHistory_throw; auto 10.
Qed.

(** Under the invariant, a push keeps the entries up to the index, drops the
    oldest of them when the stack is full, appends the snapshot and leaves
    the index on it. *)
Lemma pushed_spec (h : list snapshot) (i : Z) (s : snapshot) :
  (0 ≤ i < Z.of_nat (length h)) ∨ (length h = 0%nat ∧ i = -1) →
  Z.of_nat (length h) ≤ maxHistory →
  let kept := take (Z.to_nat (i + 1)) h in
  pushed h i s =
    if Z.of_nat (length kept) <? maxHistory
    then ((kept ++ [s])%list, i + 1)
    else ((tail kept ++ [s])%list, i).
Proof.
  intros Hi Hlen. cbv zeta. unfold pushed, slice0, maxHistory in *.
  rewrite !Z.gtb_ltb.
  assert (Hk : Z.of_nat (length (take (Z.to_nat (i + 1)) h)) = i + 1).
  { rewrite length_take. lia. }
  destruct (i <? Z.of_nat (length h) - 1) eqn:Hlt.
  - destruct (i + 1 <? 0) eqn:Hneg; [lia|].
    rewrite Z.min_l by lia.
    remember (take (Z.to_nat (i + 1)) h) as kept eqn:Hkept.
    rewrite length_app. simpl.
    destruct (Z.of_nat (length kept) <? 50) eqn:H1;
      destruct (50 <? Z.of_nat (length kept + 1)) eqn:H2; zbool; try lia; done.
  - rewrite (take_ge h) in * by lia. rewrite length_app. simpl.
    destruct (Z.of_nat (length h) <? 50) eqn:H1;
      destruct (50 <? Z.of_nat (length h + 1)) eqn:H2; zbool; try lia; try done.
    destruct h; [simpl in *; lia|done].
Qed.

Lemma pushed_hist_ok (h : list snapshot) (i : Z) (s : snapshot) :
  (0 ≤ i < Z.of_nat (length h)) ∨ (length h = 0%nat ∧ i = -1) →
  Z.of_nat (length h) ≤ maxHistory →
  let h' := fst (pushed h i s) in
  let i' := snd (pushed h i s) in
  i' = Z.of_nat (length h') - 1 ∧ 1 ≤ Z.of_nat (length h') ≤ maxHistory.
Proof.
  intros Hi Hlen. cbv zeta. rewrite pushed_spec by done. cbv zeta.
  assert (Hk : Z.of_nat (length (take (Z.to_nat (i + 1)) h)) = i + 1).
  { rewrite length_take. lia. }
  remember (take (Z.to_nat (i + 1)) h) as kept eqn:Hkept.
  unfold maxHistory in *.
  destruct (Z.of_nat (length kept) <? 50) eqn:H1; zbool; simpl;
    rewrite length_app; simpl.
  - lia.
  - pose proof (length_tail_Z kept). lia.
Qed.

Lemma saveToHistory_history (st : editor) :
  (history (exec saveToHistory st) = history st
   ∧ historyIndex (exec saveToHistory st) = historyIndex st)
  ∨ ∃ s, (history (exec saveToHistory st), historyIndex (exec saveToHistory st))
         = pushed (history st) (historyIndex st) s.
Proof.
  destruct (JSON_clone (nodes st)) as [n|] eqn:Hn;
    [destruct (JSON_clone (edges st)) as [e|] eqn:He|].
  - right. exists (Snapshot n e). unfold exec.
    rewrite (saveToHistory_ok st n e Hn He). simpl.
    by destruct (pushed _ _ _).
  - left. unfold exec. rewrite saveToHistory_throw; auto.
  - left. unfold exec. rewrite saveToHistory_throw; auto.
Qed.

Arguments saveToHistory : simpl never.

(** ** The history index invariant *)

(** [undo] leaves the stack alone and moves the index down by one unless it
    is at (or below) 0, also when restoring the snapshot throws. *)
Lemma undo_history (st : editor) :
  history (exec undo st) = history st
  ∧ historyIndex (exec undo st)
    = (if historyIndex st >? 0 then historyIndex st - 1 else historyIndex st).
Proof.
  unfold undo, restore. run_handler.
  destruct (historyIndex st >? 0); [|done].
  destruct (index (history st) (historyIndex st - 1)) as [s|]; simpl; [|done].
  destruct (JSON_clone (snap_nodes s)); simpl; [|done].
  destruct (JSON_clone (snap_edges s)); done.
Qed.

(** [redo] leaves the stack alone and moves the index up by one unless it is
    on (or after) the last entry. *)
Lemma redo_history (st : editor) :
  history (exec redo st) = history st
  ∧ historyIndex (exec redo st)
    = (if historyIndex st <? Z.of_nat (length (history st)) - 1
       then historyIndex st + 1 else historyIndex st).
Proof.
  unfold redo, restore. run_handler.
  destruct (historyIndex st <? Z.of_nat (length (history st)) - 1); [|done].
  destruct (index (history st) (historyIndex st + 1)) as [s|]; simpl; [|done].
  destruct (JSON_clone (snap_nodes s)); simpl; [|done].
  destruct (JSON_clone (snap_edges s)); done.
Qed.

(** Every event preserves the index invariant and the capacity bound. *)
Lemma step_hist_ok (o : op) (st : editor) :
  hist_ok st → hist_ok (exec (step o) st).
Proof.
  intros [Hinv Hlen]. destruct o.
  - change (exec (step OpRecord) st) with (exec saveToHistory st).
    unfold hist_ok, hist_inv.
    destruct (saveToHistory_history st) as [[-> ->]|[s Hs]]; [done|].
    pose proof (pushed_hist_ok (history st) (historyIndex st) s Hinv Hlen) as Hp.
    cbv zeta in Hp. rewrite <- Hs in Hp. simpl in Hp. lia.
  - destruct (undo_history st) as [Hh Hi].
    change (exec (step OpUndo) st) with (exec undo st).
    unfold hist_ok, hist_inv in *. rewrite Hh, Hi.
    destruct (historyIndex st >? 0) eqn:Hgt; zbool; lia.
  - destruct (redo_history st) as [Hh Hi].
    change (exec (step OpRedo) st) with (exec redo st).
    unfold hist_ok, hist_inv in *. rewrite Hh, Hi.
    destruct (historyIndex st <? Z.of_nat (length (history st)) - 1) eqn:Hgt;
      zbool; lia.
  - exact (conj Hinv Hlen).
Qed.

(** C1. From a freshly mounted editor (empty history, index -1), after every
    prefix of every sequence of records, undos and redos, interleaved with
    arbitrary edits of the graph, the history index invariant holds:
    [0 <= historyIndex < history.length], or the history is empty and the
    index is -1; the stack never exceeds [maxHistory] entries.  A record at
    capacity (which evicts the oldest snapshot) and undos or redos at a
    boundary are steps like any other. *)
Theorem history_index_invariant (ns es : value) (ops : list op) (k : nat) :
  let st := run (take k ops) (mounted ns es) in
  hist_inv st ∧ Z.of_nat (length (history st)) ≤ maxHistory.
Proof.
  cbv zeta. change (hist_ok (run (take k ops) (mounted ns es))).
  assert (Hinit : hist_ok (mounted ns es)).
  { split; [right; done|]. simpl. unfold maxHistory. lia. }
  revert Hinit. generalize (mounted ns es) as st. generalize (take k ops) as l.
  induction l as [|o l IH]; intros st Hst; simpl; [exact Hst|].
  apply IH. by apply step_hist_ok.
Qed.

(** Sixty records on the initial graph: the stack is full and the index is on
    its last entry; sixty undos then stop at index 0, sixty redos at 49. *)
Example sixty_records :
  let st := run (repeat OpRecord 60) (mounted (VArr initial_nodes) (VArr initial_edges)) in
  length (history st) = 50%nat ∧ historyIndex st = 49
  ∧ historyIndex (run (repeat OpUndo 60) st) = 0
  ∧ historyIndex (run (repeat OpRedo 60) (run (repeat OpUndo 60) st)) = 49.
Proof. cbv zeta. conj_split; vm_compute; reflexivity. Qed.

(** ** Undo and redo *)

Lemma restore_faithful (st : editor) (s : snapshot) :
  faithful_snapshot s →
  restore (Some s) st = (Ok tt, set_edges (snap_edges s) (set_nodes (snap_nodes s) st)).
Proof.
  intros [Hn He]. unfold restore. run_handler. by rewrite Hn, He.
Qed.

(** Away from the boundary, [undo] restores the previous snapshot. *)
Lemma undo_restores (st : editor) (s : snapshot) :
  0 < historyIndex st →
  index (history st) (historyIndex st - 1) = Some s →
  faithful_snapshot s →
  undo st =
    (Ok tt,
     add_notice (MsgSuccess "撤销成功")
       (set_edges (snap_edges s)
          (set_nodes (snap_nodes s) (set_historyIndex (historyIndex st - 1) st)))).
Proof.
  intros Hi Hs Hf. unfold undo. run_handler.
  destruct (historyIndex st >? 0) eqn:Hgt; zbool; [|lia].
  rewrite Hs. pose proof (restore_faithful (set_historyIndex (historyIndex st - 1) st) s Hf) as Hr.
  run_handler. by rewrite Hr.
Qed.

(** At the boundary, [undo] only warns. *)
Lemma undo_boundary (st : editor) :
  historyIndex st ≤ 0 →
  undo st = (Ok tt, add_notice (MsgWarning "没有可撤销的操作") st).
Proof.
  intros Hi. unfold undo. run_handler.
  destruct (historyIndex st >? 0) eqn:Hgt; zbool; [lia|done].
Qed.

(** Away from the boundary, [redo] restores the next snapshot. *)
Lemma redo_restores (st : editor) (s : snapshot) :
  historyIndex st < Z.of_nat (length (history st)) - 1 →
  index (history st) (historyIndex st + 1) = Some s →
  faithful_snapshot s →
  redo st =
    (Ok tt,
     add_notice (MsgSuccess "重做成功")
       (set_edges (snap_edges s)
          (set_nodes (snap_nodes s) (set_historyIndex (historyIndex st + 1) st)))).
Proof.
  intros Hi Hs Hf. unfold redo. run_handler.
  destruct (historyIndex st <? Z.of_nat (length (history st)) - 1) eqn:Hgt; zbool; [|lia].
  rewrite Hs. pose proof (restore_faithful (set_historyIndex (historyIndex st + 1) st) s Hf) as Hr.
  run_handler. by rewrite Hr.
Qed.

(** At the boundary, [redo] only warns. *)
Lemma redo_boundary (st : editor) :
  Z.of_nat (length (history st)) - 1 ≤ historyIndex st →
  redo st = (Ok tt, add_notice (MsgWarning "没有可重做的操作") st).
Proof.
  intros Hi. unfold redo. run_handler.
  destruct (historyIndex st <? Z.of_nat (length (history st)) - 1) eqn:Hgt; zbool; [lia|done].
Qed.



(** A record with the index on the last entry. *)
Lemma record_top (st : editor) :
  historyIndex st = Z.of_nat (length (history st)) - 1 →
  Z.of_nat (length (history st)) ≤ maxHistory →
  nodes st ≠ VUndef → edges st ≠ VUndef →
  let st' := exec saveToHistory st in
  history st' = newest (history st ++ [snapshot_of (nodes st, edges st)])
  ∧ historyIndex st' = Z.of_nat (length (history st')) - 1
  ∧ nodes st' = nodes st ∧ edges st' = edges st.
Proof.
  intros Hi Hlen Hn He. cbv zeta. unfold exec.
  rewrite (saveToHistory_ok st (clone (nodes st)) (clone (edges st)))
    by (by apply JSON_clone_ok).
  simpl.
  assert (Hinv : 0 ≤ historyIndex st < Z.of_nat (length (history st))
                 ∨ length (history st) = 0%nat ∧ historyIndex st = -1).
  { destruct (history st); simpl in *; [right|left]; lia. }
  rewrite pushed_spec by done. cbv zeta.
  rewrite take_ge by lia. unfold newest, maxHistory in *.
  rewrite length_app. simpl.
  destruct (Z.of_nat (length (history st)) <? 50) eqn:Hlt; zbool; simpl.
  - rewrite length_app. simpl.
    replace (length (history st) + 1 - Z.to_nat 50)%nat with 0%nat by lia.
    split; [done|]. split; [lia|done].
  - rewrite length_app. simpl.
    replace (length (history st) + 1 - Z.to_nat 50)%nat with 1%nat by lia.
    destruct (history st) as [|x h] eqn:Hh; [simpl in *; lia|]. simpl.
    rewrite drop_0. split; [done|]. split; [|done].
    simpl in *. lia.
Qed.

(** The state after recording each of the graphs [gs] in turn: the stack
    holds the newest [maxHistory] snapshots and the index is on the last. *)
Lemma edits_run (gs : list (value * value)) (st : editor) :
  historyIndex st = Z.of_nat (length (history st)) - 1 →
  Z.of_nat (length (history st)) ≤ maxHistory →
  Forall recordable gs →
  let st' := run (edits gs) st in
  history st' = newest (history st ++ map snapshot_of gs)
  ∧ historyIndex st' = Z.of_nat (length (history st')) - 1
  ∧ last ((nodes st, edges st) :: gs) = Some (nodes st', edges st').
Proof.
  revert st. induction gs as [|g gs IH]; intros st Hi Hlen Hgs; cbv zeta.
  - simpl. rewrite app_nil_r, newest_short by (unfold maxHistory in *; lia). done.
  - apply Forall_cons in Hgs as [[Hg1 Hg2] Hgs].
    change (run (edits (g :: gs)) st)
      with (run (edits gs) (exec saveToHistory (set_edges (snd g) (set_nodes (fst g) st)))).
    destruct (record_top (set_edges (snd g) (set_nodes (fst g) st)))
      as (Hh & Hidx & Hn & He); [done..|].
    cbv zeta in *. simpl in Hh, Hn, He.
    match goal with |- context [run _ ?st1] =>
      destruct (IH st1) as (Hh1 & Hidx1 & Hg1'); [done| |done|] end.
    { rewrite Hh, newest_length. unfold maxHistory. lia. }
    cbv zeta in *. split; [|split; [done|]].
    + rewrite Hh1, Hh. simpl.
      rewrite newest_newest_app, <- app_assoc. by destruct g.
    + rewrite <- Hg1', Hn, He. simpl. by destruct g.
Qed.








(** With fifty edits the first record has evicted the snapshot of the initial
    graph: fifty undos stop on the graph of the first edit, and the fifty
    redos still come back to the last one. *)
Example fifty_edits_evict_the_initial_graph :
  let numbered (i : nat) := VArr [VObj {[ "id" := VNum (Z.of_nat i) ]}] in
  let gs := map (λ i, (numbered i, VArr [])) (seq 1 50) in
  let recorded := run (OpRecord :: edits gs) (mounted (VArr []) (VArr [])) in
  let undone := run (repeat OpUndo 50) recorded in
  nodes recorded = numbered 50%nat
  ∧ historyIndex undone = 0 ∧ nodes undone = numbered 1%nat
  ∧ nodes (run (repeat OpRedo 50) undone) = numbered 50%nat.
Proof. cbv zeta. conj_split; vm_compute; reflexivity. Qed.

(** ** Loading from the persisted slot *)

(** A missing slot is reported and nothing else changes. *)
Lemma handleLoad_missing_slot (st : editor) (parsed : outcome value) :
  handleLoad None parsed st = (Ok tt, add_notice (MsgWarning "没有保存的流程数据") st).
Proof. done. Qed.

(** Content that is not JSON is reported and nothing else changes. *)
Lemma handleLoad_unparsable (st : editor) (text : string) :
  handleLoad (Some text) Throw st
  = (Ok tt, add_notice (if String.eqb text "" then MsgWarning "没有保存的流程数据"
                        else MsgError "流程加载失败") st).
Proof. unfold handleLoad. simpl. by destruct (String.eqb text ""). Qed.

(** Content that parses to an object (or any value other than [null]): both
    lists are overwritten with its [nodes] and [edges] fields, whatever they
    are; the load is reported as failed exactly when one of them is
    [undefined], and recorded otherwise. *)
Lemma handleLoad_parsed (st : editor) (text : string) (data : value) :
  text ≠ "" → defined data →
  let dn := get_opt "nodes" data in
  let de := get_opt "edges" data in
  exec (handleLoad (Some text) (Ok data)) st
  = if both_defined dn de
    then add_notice (MsgSuccess "流程加载成功")
           (exec saveToHistory (set_edges de (set_nodes dn st)))
    else add_notice (MsgError "流程加载失败") (set_edges de (set_nodes dn st)).
Proof.
  intros Htext Hdata. cbv zeta. unfold exec, handleLoad, both_defined. simpl.
  destruct (String.eqb text "") eqn:E; [by apply String.eqb_eq in E|]. simpl.
  run_handler. rewrite !(get_defined _ _ Hdata). simpl.
  set (s1 := set_edges (get_opt "edges" data) (set_nodes (get_opt "nodes" data) st)).
  destruct (JSON_clone (nodes s1)) as [n|] eqn:Hn;
    [destruct (JSON_clone (edges s1)) as [e|] eqn:He|].
  - rewrite (saveToHistory_ok s1 n e) by done.
    subst s1; simpl in *.
    destruct (get_opt "nodes" data); try done; destruct (get_opt "edges" data); done.
  - rewrite (saveToHistory_throw s1) by auto. subst s1; simpl in *.
    destruct (get_opt "nodes" data); try done; destruct (get_opt "edges" data); done.
  - rewrite (saveToHistory_throw s1) by auto. subst s1; simpl in *.
    destruct (get_opt "nodes" data); try done; destruct (get_opt "edges" data); done.
Qed.

(** Content that parses but has no [nodes] and no [edges]: both lists are
    overwritten with [undefined] before [saveToHistory] throws and the
    failure is reported. *)
Lemma handleLoad_fields_missing (st : editor) :
  handleLoad (Some foo_text) (Ok (VObj {[ "foo" := VNum 1 ]})) st
  = (Ok tt, add_notice (MsgError "流程加载失败") (set_edges VUndef (set_nodes VUndef st))).
Proof. reflexivity. Qed.

(** C3, at the failing input.  With the slot holding the text of the object
    with the single field [foo], [handleLoad] reports "流程加载失败" and yet
    the node and edge lists are no longer what they were: both are
    [undefined].  The history is untouched.  (A missing slot and content that
    is not JSON do leave the graph untouched, see [handleLoad_missing_slot]
    and [handleLoad_unparsable].) *)
Theorem failed_load_overwrites_graph (st : editor) :
  let st' := exec (handleLoad (Some foo_text) (Ok (VObj {[ "foo" := VNum 1 ]}))) st in
  notices st' = (notices st ++ [MsgError "流程加载失败"])%list
  ∧ nodes st' = VUndef ∧ edges st' = VUndef
  ∧ history st' = history st ∧ historyIndex st' = historyIndex st.
Proof. cbv zeta. unfold exec. rewrite handleLoad_fields_missing. done. Qed.

(** The same on the opened editor. *)
Example failed_load_on_initial_graph :
  let st' := exec (handleLoad (Some foo_text) (Ok (VObj {[ "foo" := VNum 1 ]}))) opened in
  nodes opened = VArr initial_nodes ∧ nodes st' = VUndef
  ∧ notices st' = [MsgError "流程加载失败"].
Proof. cbv zeta. conj_split; reflexivity. Qed.

(** ** Importing a file *)

(** The three outcomes of an import. *)
Lemma handleFileChange_accepts (st : editor) (data : value) :
  truthy (get_opt "nodes" data) = true → truthy (get_opt "edges" data) = true →
  handleFileChange (Some (Ok data)) st
  = (Ok tt, imported (get_opt "nodes" data) (get_opt "edges" data) st).
Proof.
  intros Hn He. unfold handleFileChange, imported.
  destruct data; try done. simpl in Hn, He.
  run_handler. rewrite Hn, He. simpl.
  pose proof (saveToHistory_ok
    (set_edges (default VUndef (o !! "edges")) (set_nodes (default VUndef (o !! "nodes")) st))
    (clone (default VUndef (o !! "nodes"))) (clone (default VUndef (o !! "edges")))) as Hs.
  simpl in Hs. rewrite Hs; [done| |].
  - apply JSON_clone_ok. by apply truthy_defined.
  - apply JSON_clone_ok. by apply truthy_defined.
Qed.

Lemma handleFileChange_rejects (st : editor) (data : value) :
  data ≠ VUndef → data ≠ VNull →
  truthy (get_opt "nodes" data) && truthy (get_opt "edges" data) = false →
  handleFileChange (Some (Ok data)) st
  = (Ok tt, add_notice (MsgError "无效的流程文件格式") st).
Proof.
  intros Hu Hn Hf. unfold handleFileChange.
  destruct data; try done; simpl in Hf; run_handler; try done.
  destruct (truthy (default VUndef (o !! "nodes"))); simpl in *; [|done].
  by rewrite Hf.
Qed.

Lemma handleFileChange_parse_failed (st : editor) (parsed : outcome value) :
  parsed = Throw ∨ parsed = Ok VNull →
  handleFileChange (Some parsed) st = (Ok tt, add_notice (MsgError "文件解析失败") st).
Proof. by intros [-> | ->]. Qed.

(** C4, amended.  For every imported file, from a state satisfying the
    history invariant: if its text parses to a value whose [nodes] and
    [edges] fields are both truthy, the node and edge lists are replaced by
    the file's, exactly one snapshot (their deep copy) is pushed on the
    history, with the index on it, and success is reported; if it parses to
    a value other than [null] in which one of the two fields is absent or
    falsy, "无效的流程文件格式" is reported and nothing else changes; if
    parsing fails, or yields [null], "文件解析失败" is reported and nothing
    else changes. *)
Theorem import_file (st : editor) (parsed : outcome value) :
  hist_inv st → Z.of_nat (length (history st)) ≤ maxHistory →
  let st' := exec (handleFileChange (Some parsed)) st in
  match parsed with
  | Throw | Ok VNull | Ok VUndef =>
      st' = add_notice (MsgError "文件解析失败") st
  | Ok data =>
      let dn := get_opt "nodes" data in
      let de := get_opt "edges" data in
      if truthy dn && truthy de then
        let kept := take (Z.to_nat (historyIndex st + 1)) (history st) in
        let older := if Z.of_nat (length kept) <? maxHistory then kept else tail kept in
        nodes st' = dn ∧ edges st' = de
        ∧ history st' = (older ++ [Snapshot (clone dn) (clone de)])%list
        ∧ historyIndex st' = Z.of_nat (length (history st')) - 1
        ∧ notices st' = (notices st ++ [MsgSuccess "流程导入成功"])%list
      else
        st' = add_notice (MsgError "无效的流程文件格式") st
  end.
Proof.
  intros Hinv Hlen. cbv zeta. unfold exec.
  destruct parsed as [data|]; [|by rewrite handleFileChange_parse_failed by auto].
  assert (Hmain :
    data ≠ VUndef → data ≠ VNull →
    if truthy (get_opt "nodes" data) && truthy (get_opt "edges" data) then
      let st' := (handleFileChange (Some (Ok data)) st).2 in
      let kept := take (Z.to_nat (historyIndex st + 1)) (history st) in
      let older := if Z.of_nat (length kept) <? maxHistory then kept else tail kept in
      nodes st' = get_opt "nodes" data ∧ edges st' = get_opt "edges" data
      ∧ history st'
        = (older ++ [Snapshot (clone (get_opt "nodes" data)) (clone (get_opt "edges" data))])%list
      ∧ historyIndex st' = Z.of_nat (length (history st')) - 1
      ∧ notices st' = (notices st ++ [MsgSuccess "流程导入成功"])%list
    else (handleFileChange (Some (Ok data)) st).2
         = add_notice (MsgError "无效的流程文件格式") st).
  { intros Hu Hn.
    destruct (truthy (get_opt "nodes" data)) eqn:Htn;
      [destruct (truthy (get_opt "edges" data)) eqn:Hte|]; cbn [andb].
    - rewrite handleFileChange_accepts by done. unfold imported, exec.
      rewrite (saveToHistory_ok _ (clone (get_opt "nodes" data)) (clone (get_opt "edges" data)))
        by (simpl; apply JSON_clone_ok; by apply truthy_defined).
      simpl.
      pose proof (pushed_hist_ok (history st) (historyIndex st)
        (Snapshot (clone (get_opt "nodes" data)) (clone (get_opt "edges" data))) Hinv Hlen)
        as [Hidx _].
      rewrite pushed_spec in * by done. cbv zeta in *.
      destruct (Z.of_nat (length (take (Z.to_nat (historyIndex st + 1)) (history st)))
                <? maxHistory); simpl in *; done.
    - rewrite handleFileChange_rejects; try done. by rewrite Htn, Hte.
    - rewrite handleFileChange_rejects; try done. by rewrite Htn. }
  destruct data; try (apply Hmain; discriminate); reflexivity.
Qed.

(** Importing a two-node document into the opened editor. *)
Lemma import_file_witness :
  let doc := VObj {[ "nodes" := VArr [start_node; end_node];
                     "edges" := VArr [edge "e-start-end" "start" "end" "完成"];
                     "metadata" := VObj {[ "version" := VStr "1.0.0" ]} ]} in
  let st' := exec (handleFileChange (Some (Ok doc))) opened in
  nodes st' = VArr [start_node; end_node]
  ∧ length (history st') = 2%nat ∧ historyIndex st' = 1
  ∧ notices st' = [MsgSuccess "流程导入成功"].
Proof.
  cbv zeta.
  assert (H1 : hist_inv opened) by (left; vm_compute; split; [discriminate|reflexivity]).
  assert (H2 : Z.of_nat (length (history opened)) ≤ maxHistory) by (vm_compute; discriminate).
  pose proof (import_file opened
    (Ok (VObj {[ "nodes" := VArr [start_node; end_node];
                 "edges" := VArr [edge "e-start-end" "start" "end" "完成"];
                 "metadata" := VObj {[ "version" := VStr "1.0.0" ]} ]})) H1 H2) as H.
  cbv zeta in H.
  destruct H as (Hn & He & Hh & Hi & Hnt).
  split; [exact Hn|]. split; [by rewrite Hh|]. split; [by rewrite Hi, Hh|exact Hnt].
Defined.

(** C4 as stated fails.  A document whose [nodes] field is present with value
    [null] is rejected as an invalid format (graph kept, no history entry),
    although both fields are present; and the document [null], which parses
    and lacks both fields, is reported as a parse failure, not as an invalid
    format. *)
Lemma import_claim_fails :
  let present_but_null := VObj {[ "nodes" := VNull; "edges" := VArr [] ]} in
  let st1 := exec (handleFileChange (Some (Ok present_but_null))) opened in
  let st2 := exec (handleFileChange (Some (Ok VNull))) opened in
  (nodes st1 = VArr initial_nodes ∧ history st1 = history opened
   ∧ notices st1 = [MsgError "无效的流程文件格式"])
  ∧ notices st2 = [MsgError "文件解析失败"].
Proof. cbv zeta. conj_split; reflexivity. Qed.

(** ** Deleting a node *)

Lemma other_id_ok (sel : value) (i : string) (l : list value) :
  get "id" sel = Ok (VStr i) → Forall defined l →
  filterM (other_id sel) l = Ok (List.filter (id_differs i) l).
Proof.
  intros Hsel Hl. apply filterM_ok. eapply Forall_impl; [exact Hl|].
  intros x Hx. unfold other_id, id_differs. rewrite (get_defined _ _ Hx), Hsel. done.
Qed.

Lemma detached_ok (sel : value) (i : string) (l : list value) :
  get "id" sel = Ok (VStr i) → Forall defined l →
  filterM (detached sel) l = Ok (List.filter (touches_neither i) l).
Proof.
  intros Hsel Hl. apply filterM_ok. eapply Forall_impl; [exact Hl|].
  intros x Hx. unfold detached, touches_neither.
  rewrite !(get_defined _ _ Hx), Hsel. simpl.
  by destruct (strict_eq (get_opt "source" x) (VStr i)).
Qed.

(** Filtering by id on a list in which the id occurs nowhere, or once. *)
Lemma filter_id_differs_keep (i : string) (l : list value) :
  Forall (λ m, get_opt "id" m ≠ VStr i) l → List.filter (id_differs i) l = l.
Proof.
  induction 1 as [|x l Hx _ IH]; simpl; [done|].
  unfold id_differs at 1.
  destruct (strict_eq (get_opt "id" x) (VStr i)) eqn:E.
  - by apply strict_eq_str in E.
  - simpl. by rewrite IH.
Qed.

Lemma filter_id_differs_remove (i : string) (l1 l2 : list value) (n : value) :
  get_opt "id" n = VStr i → Forall (λ m, get_opt "id" m ≠ VStr i) (l1 ++ l2) →
  List.filter (id_differs i) (l1 ++ n :: l2) = (l1 ++ l2)%list.
Proof.
  intros Hid Hrest. apply Forall_app in Hrest as [H1 H2].
  rewrite List.filter_app. simpl. unfold id_differs at 2. rewrite Hid. simpl.
  rewrite String.eqb_refl. simpl. by rewrite !filter_id_differs_keep.
Qed.

(** [saveToHistory] asks nothing of the store. *)
Lemma saveToHistory_calls (st : editor) :
  storeCalls (exec saveToHistory st) = storeCalls st.
Proof.
  destruct (JSON_clone (nodes st)) as [n|] eqn:Hn;
    [destruct (JSON_clone (edges st)) as [e|] eqn:He|]; unfold exec.
  - by rewrite (saveToHistory_ok st n e).
  - by rewrite saveToHistory_throw by auto.
  - by rewrite saveToHistory_throw by auto.
Qed.

(** A confirmed deletion, for the lists [ns] and [es] that the store
    returns: the two requests, the notice, the closed panel, the record. *)
Lemma handleDeleteNode_confirmed (st : editor) (ns es : list value) (i : string) :
  get "id" (selectedNode st) = Ok (VStr i) →
  Forall defined ns → Forall defined es →
  handleDeleteNode ns es true st =
    saveToHistory
      (set_selectedEdge (VObj ∅) (set_selectedNode (VObj ∅) (set_updateState ""
         (add_notice (MsgSuccess "节点删除成功")
            (add_call (SetEdges (List.filter (touches_neither i) es))
               (add_call (SetNodes (List.filter (id_differs i) ns)) st)))))).
Proof.
  intros Hsel Hns Hes. unfold handleDeleteNode, handleClosePanel. run_handler.
  rewrite (other_id_ok _ i) by done. simpl.
  rewrite (detached_ok _ i) by done. simpl.
  done.
Qed.

(** C5.  Confirmed deletion of the selected node, whose id is [i], from the
    graph that the store returns: the store is asked to keep exactly the
    nodes whose id is not [i] and exactly the edges whose source and target
    are both different from [i], in their order and unchanged; when [i]
    names one node of the graph, that node and nothing else leaves the node
    list.  These are the only two requests, and the component's own lists
    are not touched. *)
Theorem delete_node_cascade (st : editor) (ns es : list value) (i : string) :
  get "id" (selectedNode st) = Ok (VStr i) →
  Forall defined ns → Forall defined es →
  let st' := exec (handleDeleteNode ns es true) st in
  let ns' := List.filter (id_differs i) ns in
  let es' := List.filter (touches_neither i) es in
  storeCalls st' = (storeCalls st ++ [SetNodes ns'; SetEdges es'])%list
  ∧ (∀ n, n ∈ ns' ↔ n ∈ ns ∧ get_opt "id" n ≠ VStr i)
  ∧ (∀ e, e ∈ es' ↔
       e ∈ es ∧ ¬ (get_opt "source" e = VStr i ∨ get_opt "target" e = VStr i))
  ∧ (∀ l1 n l2, ns = (l1 ++ n :: l2)%list → get_opt "id" n = VStr i →
       Forall (λ m, get_opt "id" m ≠ VStr i) (l1 ++ l2) → ns' = (l1 ++ l2)%list)
  ∧ nodes st' = nodes st ∧ edges st' = edges st.
Proof.
  intros Hsel Hns Hes. cbv zeta.
  assert (Hrun : exec (handleDeleteNode ns es true) st
                 = exec saveToHistory
                     (set_selectedEdge (VObj ∅) (set_selectedNode (VObj ∅)
                        (set_updateState ""
                           (add_notice (MsgSuccess "节点删除成功")
                              (add_call (SetEdges (List.filter (touches_neither i) es))
                                 (add_call (SetNodes (List.filter (id_differs i) ns))
                                    st))))))).
  { unfold exec. by rewrite (handleDeleteNode_confirmed st ns es i). }
  rewrite Hrun, saveToHistory_calls.
  match goal with |- context [exec saveToHistory ?s] =>
    destruct (saveToHistory_frame s) as (-> & -> & _) end.
  conj_split.
  - simpl. by rewrite <- app_assoc.
  - intros n. rewrite !list_elem_of_In, filter_In. unfold id_differs.
    rewrite negb_true_iff, <- not_true_iff_false, strict_eq_str. done.
  - intros e. rewrite !list_elem_of_In, filter_In. unfold touches_neither.
    rewrite andb_true_iff, !negb_true_iff, <- !not_true_iff_false, !strict_eq_str.
    tauto.
  - intros l1 n l2 -> Hid Hrest. by apply filter_id_differs_remove.
  - done.
  - done.
Qed.

(** Deleting [task1] from the initial graph asks the store to drop it and
    its two edges. *)
Lemma delete_node_cascade_witness :
  let st := exec (onNodeClick task1_node) opened in
  let st' := exec (handleDeleteNode initial_nodes initial_edges true) st in
  storeCalls st'
  = [SetNodes [start_node; approval1_node; condition1_node; task2_node;
               notification1_node; timer1_node; end_node];
     SetEdges [edge "e-approval1-condition1" "approval1" "condition1" "通过";
               edge "e-condition1-task2" "condition1" "task2" "大额";
               edge "e-condition1-notification1" "condition1" "notification1" "小额";
               edge "e-task2-timer1" "task2" "timer1" "完成";
               edge "e-notification1-timer1" "notification1" "timer1" "已发送";
               edge "e-timer1-end" "timer1" "end" "结束"]].
Proof.
  cbv zeta.
  destruct (delete_node_cascade (exec (onNodeClick task1_node) opened)
              initial_nodes initial_edges "task1") as (Hc & _).
  - reflexivity.
  - repeat constructor; discriminate.
  - repeat constructor; discriminate.
  - exact Hc.
Defined.

(** ** The validator *)

Lemma edge_errors_ok (ids es : list value) :
  Forall defined es →
  edge_errors ids es = Ok (flat_map (dangling_errors ids) es).
Proof.
  induction 1 as [|e es He _ IH]; simpl; [done|].
  rewrite !(get_defined _ _ He). simpl. rewrite IH. unfold dangling_errors.
  unfold source_missing, target_missing, edge_name, js_or.
  destruct (set_has ids (get_opt "source" e)), (set_has ids (get_opt "target" e));
    simpl; rewrite ?(get_defined _ _ He); simpl;
    destruct (truthy (get_opt "label" e)); simpl; by rewrite ?app_nil_r.
Qed.

(** One message per dangling endpoint. *)
Lemma dangling_errors_length (ns es : list value) :
  length (flat_map (dangling_errors (node_ids ns)) es) = dangling_endpoints ns es.
Proof.
  unfold dangling_endpoints. induction es as [|e es IH]; simpl; [done|].
  rewrite length_app, IH. unfold dangling_errors.
  destruct (set_has (node_ids ns) (get_opt "source" e)),
    (set_has (node_ids ns) (get_opt "target" e)); simpl; lia.
Qed.

Lemma has_type_ok (t : string) (ns : list value) :
  Forall defined ns → filterM (has_type t) ns = Ok (List.filter (is_kind t) ns).
Proof.
  intros H. apply filterM_ok. eapply Forall_impl; [exact H|].
  intros n Hn. unfold has_type, is_kind. by rewrite (get_defined _ _ Hn).
Qed.

Lemma orphans_ok (ns es : list value) :
  Forall defined ns → Forall defined es →
  filterM (λ node, b ← someM (touches node) es; Ok (negb b)) ns
  = Ok (List.filter (λ node, negb (touched_by es node)) ns).
Proof.
  intros Hns Hes. apply filterM_ok. eapply Forall_impl; [exact Hns|].
  intros n Hn. unfold touched_by.
  rewrite (someM_ok _ (λ e, strict_eq (get_opt "source" e) (get_opt "id" n)
                            || strict_eq (get_opt "target" e) (get_opt "id" n))); [done|].
  eapply Forall_impl; [exact Hes|]. intros e He. unfold touches.
  rewrite !(get_defined _ _ He), !(get_defined _ _ Hn). simpl.
  by destruct (strict_eq (get_opt "source" e) (get_opt "id" n)).
Qed.

Lemma labels_ok (ns : list value) :
  Forall node_ok ns →
  mapM (λ n, d ← get "data" n; get "label" d) ns
  = Ok (map (λ n, get_opt "label" (get_opt "data" n)) ns).
Proof.
  intros H. apply mapM_ok. eapply Forall_impl; [exact H|].
  intros n [Hn Hd]. rewrite (get_defined _ _ Hn). simpl. by rewrite (get_defined _ _ Hd).
Qed.

(** On lists whose nodes and edges are well formed the validator does not
    throw, and its errors are those of the three counts followed by one per
    dangling endpoint, in edge order. *)
Lemma validate_errors (ns es : list value) :
  Forall node_ok ns → Forall defined es →
  ∃ warnings,
    validate ns es
    = Ok ((empty_errors ns ++ start_errors ns ++ end_errors ns
            ++ flat_map (dangling_errors (node_ids ns)) es)%list, warnings).
Proof.
  intros Hns Hes.
  assert (Hdef : Forall defined ns).
  { eapply Forall_impl; [exact Hns|]. by intros n [? _]. }
  unfold validate. simpl.
  rewrite !has_type_ok by done. simpl.
  rewrite (mapM_ok _ (get_opt "id")); [|eapply Forall_impl; [exact Hdef|];
    intros n Hn; by apply get_defined]. simpl.
  rewrite edge_errors_ok by done. simpl.
  rewrite orphans_ok by done. simpl.
  destruct (Z.of_nat (length (List.filter _ ns)) >? 0).
  - rewrite labels_ok by (by apply Forall_filter_list). simpl. eexists. reflexivity.
  - simpl. eexists. reflexivity.
Qed.

(** Any error makes the validation fail, with all errors and warnings
    shown. *)
Lemma handleValidate_failed (st : editor) (ns es : list value)
    (errors warnings : list string) :
  validate ns es = Ok (errors, warnings) → errors ≠ [] →
  handleValidate ns es st = (Ok tt, add_notice (AlertFailed errors warnings) st).
Proof.
  intros Hv He. unfold handleValidate. run_handler. rewrite Hv. simpl.
  destruct errors; [done|]. simpl.
  replace (Z.pos (Pos.of_succ_nat (length errors)) >? 0) with true; [done|].
  symmetry. rewrite Z.gtb_ltb. apply Z.ltb_lt. lia.
Qed.

(** The initial graph validates with no error and no warning. *)
Example validate_initial_graph :
  validate initial_nodes initial_edges = Ok ([], [])
  ∧ notices (exec (handleValidate initial_nodes initial_edges) opened)
    = [MsgSuccess "流程验证通过，没有发现问题"].
Proof. conj_split; vm_compute; reflexivity. Qed.

(** C6, on the lists that the validator reads.  The validator checks the
    lists that the store returns, whatever the component's own lists hold.  When the returned lists are non-empty with
    no start node and at least one end node, it reports "流程缺少开始节点"
    followed by one error for each endpoint of a returned edge that names no
    returned node, and presents them as a failed validation: two errors if
    the store returns one dangling endpoint, and the missing start node alone
    if it returns none. *)
Theorem validate_missing_start_and_dangling_edge (st : editor) (ns es : list value) :
  Forall node_ok ns → Forall defined es →
  ns ≠ [] →
  kind_count "input" ns = 0%nat →
  (1 ≤ kind_count "output" ns)%nat →
  ∃ warnings,
    handleValidate ns es st
    = (Ok tt,
       add_notice
         (AlertFailed
            ("流程缺少开始节点" :: flat_map (dangling_errors (node_ids ns)) es) warnings)
         st)
    ∧ length (flat_map (dangling_errors (node_ids ns)) es) = dangling_endpoints ns es
    ∧ (dangling_endpoints ns es = 1%nat →
       ∃ e msg,
         e ∈ es
         ∧ ((msg = source_missing e
             ∧ set_has (node_ids ns) (get_opt "source" e) = false)
            ∨ (msg = target_missing e
               ∧ set_has (node_ids ns) (get_opt "target" e) = false))
         ∧ flat_map (dangling_errors (node_ids ns)) es = [msg]).
Proof.
  intros Hns Hes Hne Hstart Hend.
  destruct (validate_errors ns es Hns Hes) as [warnings Hv].
  exists warnings. conj_split.
  - apply handleValidate_failed; [|done].
    rewrite Hv. unfold empty_errors, start_errors, end_errors.
    rewrite Hstart. simpl.
    destruct ns; [done|]. simpl.
    destruct (Z.of_nat (kind_count "output" (v :: ns)) =? 0) eqn:E; zbool; [lia|done].
  - apply dangling_errors_length.
  - intros Hdang. rewrite <- dangling_errors_length in Hdang.
    apply singleton_length in Hdang as [msg Hmsg].
    assert (Hin : msg ∈ flat_map (dangling_errors (node_ids ns)) es)
      by (rewrite Hmsg; apply list_elem_of_here).
    rewrite list_elem_of_In in Hin. apply in_flat_map in Hin as [e [Hein Hem]].
    exists e, msg. split; [by apply list_elem_of_In|]. split; [|done].
    unfold dangling_errors in Hem.
    destruct (set_has (node_ids ns) (get_opt "source" e)) eqn:Hs;
      destruct (set_has (node_ids ns) (get_opt "target" e)) eqn:Ht;
      simpl in Hem; intuition.
Qed.

(** Were the store to return an edge into a node that does not exist, the
    message would name it by its id, its label being empty. *)
Example validate_no_start_one_dangling :
  let st := mounted (VArr no_start_nodes) (VArr one_dangling) in
  handleValidate no_start_nodes one_dangling st
  = (Ok tt,
     add_notice (AlertFailed ["流程缺少开始节点"; "连线 e-end-ghost 的目标节点不存在"] []) st).
Proof. vm_compute. reflexivity. Qed.

(** The component's lists hold a task, an end node and an edge into a node
    that does not exist; the store returns the two nodes and the other edge.
    The validator reports the missing start node and nothing about the
    edge. *)
Lemma validate_missing_start_and_dangling_edge_witness :
  let st := mounted (VArr no_start_nodes) (VArr one_dangling) in
  dangling_endpoints no_start_nodes one_dangling = 1%nat
  ∧ ∃ warnings,
      handleValidate no_start_nodes [edge "e-task1-end" "task1" "end" "完成"] st
      = (Ok tt, add_notice (AlertFailed ["流程缺少开始节点"] warnings) st).
Proof.
  cbv zeta. split; [reflexivity|].
  destruct (validate_missing_start_and_dangling_edge
              (mounted (VArr no_start_nodes) (VArr one_dangling))
              no_start_nodes [edge "e-task1-end" "task1" "end" "完成"])
    as (warnings & Hv & _).
  - repeat constructor; discriminate.
  - repeat constructor; discriminate.
  - discriminate.
  - reflexivity.
  - vm_compute. lia.
  - exists warnings. exact Hv.
Defined.

(** C10.  On the empty graph the validator does not stop at the first check:
    it reports the three errors "流程中没有节点", "流程缺少开始节点" and
    "流程缺少结束节点", no warning, and presents them as a failed
    validation. *)
Theorem validate_empty_graph (st : editor) :
  handleValidate [] [] st
  = (Ok tt,
     add_notice (AlertFailed ["流程中没有节点"; "流程缺少开始节点"; "流程缺少结束节点"] []) st).
Proof.
  by apply handleValidate_failed.
Qed.

(** The empty canvas. *)
Lemma validate_empty_graph_witness :
  handleValidate [] [] (mounted (VArr []) (VArr []))
  = (Ok tt,
     add_notice (AlertFailed ["流程中没有节点"; "流程缺少开始节点"; "流程缺少结束节点"] [])
       (mounted (VArr []) (VArr []))).
Proof. apply validate_empty_graph. Defined.

(** ** Copy and paste *)


(** What [handlePaste] does once it has read the position on the clipboard:
    it asks the store to add the node built from the clipboard and selects
    that node; the component's own lists are not touched, and the record that
    follows throws only if one of them is [undefined]. *)
Lemma handlePaste_object (st : editor) (co : gmap string value) (now : Z) :
  clipboard st = VObj co → defined (get_opt "position" (VObj co)) →
  let newNode := pasted (VObj co) now in
  let st' := exec (handlePaste now) st in
  storeCalls st' = (storeCalls st ++ [AddNodes newNode])%list
  ∧ selectedNode st' = newNode ∧ updateState st' = "node"
  ∧ clipboard st' = VObj co ∧ nodes st' = nodes st ∧ edges st' = edges st
  ∧ (nodes st ≠ VUndef → edges st ≠ VUndef →
     handlePaste now st
     = (Ok tt,
        add_notice (MsgSuccess "节点已粘贴")
          (exec saveToHistory
             (set_updateState "node"
                (set_selectedNode newNode (add_call (AddNodes newNode) st)))))).
Proof.
  intros Hc Hdef. cbv zeta.
  set (s1 := set_updateState "node"
               (set_selectedNode (pasted (VObj co) now)
                  (add_call (AddNodes (pasted (VObj co) now)) st))).
  assert (Hrun : handlePaste now st
                 = match saveToHistory s1 with
                   | (Ok _, s2) => (Ok tt, add_notice (MsgSuccess "节点已粘贴") s2)
                   | (Throw, s2) => (Throw, s2)
                   end).
  { unfold handlePaste, pasted, s1. run_handler. rewrite Hc. simpl.
    rewrite !(get_defined _ _ Hdef). simpl. done. }
  destruct (saveToHistory_frame s1) as (Hfn & Hfe & Hfu & Hfs & _ & Hfc & _).
  pose proof (saveToHistory_calls s1) as Hfk.
  unfold exec in *. rewrite Hrun.
  conj_split.
  - destruct (saveToHistory s1) as [[[]|] s2]; simpl in *; by rewrite Hfk.
  - destruct (saveToHistory s1) as [[[]|] s2]; simpl in *; by rewrite Hfs.
  - destruct (saveToHistory s1) as [[[]|] s2]; simpl in *; by rewrite Hfu.
  - destruct (saveToHistory s1) as [[[]|] s2]; simpl in *; by rewrite Hfc.
  - destruct (saveToHistory s1) as [[[]|] s2]; simpl in *; by rewrite Hfn.
  - destruct (saveToHistory s1) as [[[]|] s2]; simpl in *; by rewrite Hfe.
  - intros Hn He.
    by rewrite (saveToHistory_ok s1 (clone (nodes s1)) (clone (edges s1)))
      by (by apply JSON_clone_ok).
Qed.


(** Beyond 2^53 the sum is rounded to the nearest double, ties to even. *)
Example js_plus_rounds :
  js_plus (VNum (2 ^ 54)) 50 = VNum 18014398509482032
  ∧ js_plus (VNum (2 ^ 53)) 1 = VNum (2 ^ 53)
  ∧ js_plus (VNum (- 2 ^ 53 - 53)) 50 = VNum (- 2 ^ 53 - 4)
  ∧ js_plus (VNum 350) 50 = VNum 400.
Proof. conj_split; vm_compute; reflexivity. Qed.




(** ** Saving a configuration form *)

(** What [handleSaveNode] and [handleSaveEdge] ask of the store, for the
    list that the store returns. *)
Lemma handleSaveNode_saves (st : editor) (ns : list value) (i : string) (data : value) :
  defined (selectedNode st) → get "id" (selectedNode st) = Ok (VStr i) →
  Forall defined ns →
  handleSaveNode ns data st
  = saveToHistory
      (add_call (SetNodes (List.filter (id_differs i) ns
                           ++ [saved_node (selectedNode st) data])) st).
Proof.
  intros Hdef Hid Hns. unfold handleSaveNode, saved_node. run_handler.
  rewrite (other_id_ok _ i) by done. simpl.
  rewrite (get_defined _ _ Hdef). simpl. done.
Qed.

Lemma handleSaveEdge_saves (st : editor) (es : list value) (j : string) (data : value) :
  get "id" (selectedEdge st) = Ok (VStr j) →
  Forall defined es → defined data →
  handleSaveEdge es data st
  = saveToHistory
      (add_call (SetEdges (List.filter (id_differs j) es
                           ++ [saved_edge (selectedEdge st) data])) st).
Proof.
  intros Hid Hes Hdata. unfold handleSaveEdge, saved_edge. run_handler.
  rewrite (other_id_ok _ j) by done. simpl.
  rewrite !(get_defined _ _ Hdata). simpl. done.
Qed.

(** C8.  Saving the form [f] for the selected node (whose payload is an
    object, or absent) asks the store to put back, at the end of the node
    list it returned, the selected node with its data payload replaced by
    the shallow merge of the form into the old payload: a field of the form
    has the form's value, any other field keeps the old one.  The selection
    is unchanged: the panel stays on the node. *)
Theorem save_node_merges_form (st : editor) (ns : list value)
    (o f : gmap string value) (i : string) :
  Forall defined ns →
  updateState st = "node" → selectedNode st = VObj o → o !! "id" = Some (VStr i) →
  plain (get_opt "data" (VObj o)) →
  let st' := exec (handleSaveNode ns (VObj f)) st in
  let old := spread (get_opt "data" (VObj o)) in
  let saved := saved_node (VObj o) (VObj f) in
  storeCalls st'
  = (storeCalls st ++ [SetNodes (List.filter (id_differs i) ns ++ [saved])])%list
  ∧ (∃ merged,
       get_opt "data" saved = VObj merged
       ∧ (∀ k v, f !! k = Some v → merged !! k = Some v)
       ∧ (∀ k, f !! k = None → merged !! k = old !! k))
  ∧ (∀ k, k ≠ "data" → get_opt k saved = get_opt k (VObj o))
  ∧ updateState st' = "node" ∧ selectedNode st' = VObj o.
Proof.
  intros Hns Hus Hsel Hid _. cbv zeta.
  assert (Hrun : exec (handleSaveNode ns (VObj f)) st
                 = exec saveToHistory
                     (add_call (SetNodes (List.filter (id_differs i) ns
                                          ++ [saved_node (VObj o) (VObj f)])) st)).
  { unfold exec.
    rewrite (handleSaveNode_saves st ns i); try done;
      [by rewrite Hsel|by rewrite Hsel|rewrite Hsel; simpl; by rewrite Hid]. }
  rewrite Hrun, saveToHistory_calls.
  match goal with |- context [exec saveToHistory ?s] =>
    destruct (saveToHistory_frame s) as (_ & _ & -> & -> & _) end.
  simpl. split; [done|]. split; [|split; [|done]].
  - exists (f ∪ spread (default VUndef (o !! "data"))).
    rewrite lookup_insert_eq. simpl. split; [done|]. split.
    + intros k v Hk. by apply lookup_union_Some_l.
    + intros k Hk. by apply lookup_union_r.
  - intros k Hk. by rewrite lookup_insert_ne.
Qed.

(** Saving a form for [task1] that changes the assignee. *)
Lemma save_node_merges_form_witness :
  let st := exec (onNodeClick task1_node) opened in
  let st' := exec (handleSaveNode initial_nodes (VObj task1_form)) st in
  let saved := saved_node task1_node (VObj task1_form) in
  storeCalls st'
  = [SetNodes [start_node; approval1_node; condition1_node; task2_node;
               notification1_node; timer1_node; end_node; saved]]
  ∧ (∃ merged, get_opt "data" saved = VObj merged
               ∧ merged !! "assignee" = Some (VStr "lisi"))
  ∧ updateState st' = "node" ∧ selectedNode st' = task1_node.
Proof.
  cbv zeta.
  destruct (save_node_merges_form (exec (onNodeClick task1_node) opened)
              initial_nodes task1_props task1_form "task1")
    as (Hn & (merged & Hd & Hover & _) & _ & Hus & Hsel).
  - repeat constructor; discriminate.
  - reflexivity.
  - reflexivity.
  - reflexivity.
  - exact I.
  - split; [exact Hn|]. split; [|split; [exact Hus|exact Hsel]].
    exists merged. split; [exact Hd|]. apply Hover. reflexivity.
Defined.

(** C9.  Saving a node's configuration asks the store for the node list it
    returned with the edited node removed from its position and the saved
    node appended at the end; the other nodes keep their order and are
    unchanged, and nothing is asked about the edges.  The same holds for the
    edge list when an edge's configuration is saved.  Each half needs its own
    selection only. *)
Theorem save_moves_element_to_end (st : editor) :
  (∀ (l1 l2 : list value) (n : value) (o f : gmap string value) (i : string),
     selectedNode st = VObj o → o !! "id" = Some (VStr i) →
     plain (get_opt "data" (VObj o)) →
     Forall defined (l1 ++ n :: l2) →
     get_opt "id" n = VStr i → Forall (λ m, get_opt "id" m ≠ VStr i) (l1 ++ l2) →
     storeCalls (exec (handleSaveNode (l1 ++ n :: l2) (VObj f)) st)
     = (storeCalls st ++ [SetNodes (l1 ++ l2 ++ [saved_node (VObj o) (VObj f)])])%list)
  ∧ (∀ (k1 k2 : list value) (e : value) (oe : gmap string value) (j : string)
       (edata : value),
       selectedEdge st = VObj oe → oe !! "id" = Some (VStr j) →
       Forall defined (k1 ++ e :: k2) →
       get_opt "id" e = VStr j → Forall (λ m, get_opt "id" m ≠ VStr j) (k1 ++ k2) →
       defined edata →
       storeCalls (exec (handleSaveEdge (k1 ++ e :: k2) edata) st)
       = (storeCalls st ++ [SetEdges (k1 ++ k2 ++ [saved_edge (VObj oe) edata])])%list).
Proof.
  split.
  - intros l1 l2 n o f i Hsel Hid _ Hns Hnid Hrest.
    unfold exec.
    rewrite (handleSaveNode_saves st _ i (VObj f)); try done;
      [|by rewrite Hsel|rewrite Hsel; simpl; by rewrite Hid].
    rewrite Hsel, filter_id_differs_remove, <- app_assoc by done.
    match goal with |- context [saveToHistory ?s] =>
      pose proof (saveToHistory_calls s) as Hk end.
    unfold exec in Hk. by rewrite Hk.
  - intros k1 k2 e oe j edata Hsel Hid Hes Heid Hrest Hdata.
    unfold exec.
    rewrite (handleSaveEdge_saves st _ j edata); try done;
      [|rewrite Hsel; simpl; by rewrite Hid].
    rewrite Hsel, filter_id_differs_remove, <- app_assoc by done.
    match goal with |- context [saveToHistory ?s] =>
      pose proof (saveToHistory_calls s) as Hk end.
    unfold exec in Hk. by rewrite Hk.
Qed.

(** After a click on [task1], second in the node list, its save puts it
    last; after a click on the first edge, its save puts it last.  In each
    case the other selection is empty. *)
Lemma save_moves_element_to_end_witness :
  let first_edge := edge "e-start-task1" "start" "task1" "开始" in
  let on_node := exec (onNodeClick task1_node) opened in
  let on_edge := exec (onEdgeClick first_edge) opened in
  selectedEdge on_node = VObj ∅ ∧ selectedNode on_edge = VObj ∅
  ∧ storeCalls (exec (handleSaveNode initial_nodes (VObj task1_form)) on_node)
    = [SetNodes [start_node; approval1_node; condition1_node; task2_node;
                 notification1_node; timer1_node; end_node;
                 saved_node task1_node (VObj task1_form)]]
  ∧ storeCalls (exec (handleSaveEdge initial_edges edge_form) on_edge)
    = [SetEdges (tail initial_edges ++ [saved_edge first_edge edge_form])].
Proof.
  cbv zeta. split; [reflexivity|]. split; [reflexivity|]. split.
  - apply (proj1 (save_moves_element_to_end (exec (onNodeClick task1_node) opened))
             [start_node]
             [approval1_node; condition1_node; task2_node; notification1_node;
              timer1_node; end_node]
             task1_node task1_props task1_form "task1").
    + reflexivity.
    + reflexivity.
    + exact I.
    + repeat constructor; discriminate.
    + reflexivity.
    + repeat constructor; vm_compute; discriminate.
  - apply (proj2 (save_moves_element_to_end
                    (exec (onEdgeClick (edge "e-start-task1" "start" "task1" "开始")) opened))
             [] (tail initial_edges) (edge "e-start-task1" "start" "task1" "开始")
             {[ "id" := VStr "e-start-task1"; "type" := VStr "smoothstep";
                "source" := VStr "start"; "target" := VStr "task1";
                "label" := VStr "开始" ]}
             "e-start-task1" edge_form).
    + reflexivity.
    + reflexivity.
    + repeat constructor; discriminate.
    + reflexivity.
    + repeat constructor; vm_compute; discriminate.
    + split; discriminate.
Defined.

(** The form that the node panel builds for the start node: the eleven
    fields, with their defaults where the payload has none. *)
Example formData_start_node :
  let form := formData start_node in
  get_opt "label" form = VStr "开始" ∧ get_opt "priority" form = VStr "medium"
  ∧ get_opt "delay" form = VNum 0 ∧ get_opt "branchCount" form = VNum 2
  ∧ size (spread form) = 11%nat.
Proof. cbv zeta. conj_split; vm_compute; reflexivity. Qed.

(** * Further properties of the component *)

(** ** Every handler keeps the history stack sound *)

Lemma sound_frame (st st' : editor) :
  history st' = history st → historyIndex st' = historyIndex st →
  sound st → sound st'.
Proof.
  unfold sound, hist_ok, hist_inv. intros -> ->. done.
Qed.

Lemma keeps_ret {A} (a : A) : keeps (mret a).
Proof. intros st H. exact H. Qed.

Lemma keeps_read {A} (f : editor → A) : keeps (read f).
Proof. intros st H. exact H. Qed.

Lemma keeps_lift {A} (o : outcome A) : keeps (lift o).
Proof. intros st H. exact H. Qed.

Lemma keeps_modify (f : editor → editor) :
  (∀ st, history (f st) = history st ∧ historyIndex (f st) = historyIndex st) →
  keeps (modify f).
Proof.
  intros Hf st H. destruct (Hf st) as [Hh Hi].
  by apply (sound_frame st).
Qed.

Lemma keeps_bind {A B} (m : handler A) (f : A → handler B) :
  keeps m → (∀ a, keeps (f a)) → keeps (m ≫= f).
Proof.
  intros Hm Hf st H. specialize (Hm st H).
  unfold exec, mbind, handler_bind in *.
  destruct (m st) as [[a|] st1]; simpl in *; [|exact Hm].
  by apply Hf.
Qed.

Lemma keeps_try_catch (body recover : handler unit) :
  keeps body → keeps recover → keeps (try_catch body recover).
Proof.
  intros Hb Hr st H. specialize (Hb st H).
  unfold exec, try_catch in *.
  destruct (body st) as [[a|] st1]; simpl in *; [exact Hb|].
  by apply Hr.
Qed.

Lemma pushed_faithful (h : list snapshot) (i : Z) (s : snapshot) :
  (0 ≤ i < Z.of_nat (length h)) ∨ (length h = 0%nat ∧ i = -1) →
  Z.of_nat (length h) ≤ maxHistory →
  Forall faithful_snapshot h → faithful_snapshot s →
  Forall faithful_snapshot (fst (pushed h i s)).
Proof.
  intros Hi Hlen Hh Hs.
  rewrite (pushed_spec h i s Hi Hlen). cbv zeta.
  assert (Hk : Forall faithful_snapshot (take (Z.to_nat (i + 1)) h))
    by by apply Forall_take.
  destruct (_ <? _); simpl; apply Forall_app; split; auto.
  destruct (take _ h); simpl; [done|]. by inversion Hk.
Qed.

Lemma keeps_saveToHistory : keeps saveToHistory.
Proof.
  intros st [[Hinv Hlen] Hf].
  destruct (JSON_clone (nodes st)) as [n|] eqn:Hn;
    [destruct (JSON_clone (edges st)) as [e|] eqn:He|].
  - unfold exec. rewrite (saveToHistory_ok st n e Hn He). simpl.
    destruct (pushed_hist_ok (history st) (historyIndex st) (Snapshot n e) Hinv Hlen)
      as [Hi' Hl'].
    split; [split|].
    + left. simpl. lia.
    + simpl. lia.
    + simpl. apply pushed_faithful; auto.
      assert (Hn' : n = clone (nodes st) ∧ nodes st ≠ VUndef)
        by (destruct (nodes st); try done; by injection Hn as <-).
      assert (He' : e = clone (edges st) ∧ edges st ≠ VUndef)
        by (destruct (edges st); try done; by injection He as <-).
      destruct Hn' as [-> ?], He' as [-> ?].
      split; by apply clone_faithful.
  - unfold exec. rewrite saveToHistory_throw by auto. done.
  - unfold exec. rewrite saveToHistory_throw by auto. done.
Qed.

Lemma keeps_undo : keeps undo.
Proof.
  intros st [Hok Hf]. split.
  - exact (step_hist_ok OpUndo st Hok).
  - destruct (undo_history st) as [-> _]. exact Hf.
Qed.

Lemma keeps_redo : keeps redo.
Proof.
  intros st [Hok Hf]. split.
  - exact (step_hist_ok OpRedo st Hok).
  - destruct (redo_history st) as [-> _]. exact Hf.
Qed.

(** Decompose a handler into its binds and branches. *)
Ltac keeps_step :=
  first
    [ apply keeps_saveToHistory
    | apply keeps_undo
    | apply keeps_redo
    | apply keeps_ret
    | apply keeps_read
    | apply keeps_lift
    | apply keeps_modify; intros ?; split; reflexivity
    | apply keeps_try_catch
    | apply keeps_bind; [|intros ?]
    | match goal with
      | |- keeps (if ?b then _ else _) => destruct b
      | |- keeps (match ?x with _ => _ end) => destruct x
      | |- keeps (let _ := _ in _) => cbv zeta
      end ].

Ltac keeps_all :=
  unfold onInit, onNodeDragStop, onConnect, addEdges, handleKeyDown, handleCopy,
    handlePaste, handleExport, handleSave, handleFileChange, handleTemplateSelect,
    handleValidate, onEdgeClick, onNodeClick, onDragStart, onDragEnd, onDrop,
    handleClosePanel, handleSaveNode, handleDeleteNode, handleSaveEdge,
    handleDeleteEdge, handleLoad, handleClear, setNodes, setEdges, addNodes,
    notify, skip;
  repeat keeps_step.

Lemma keeps_dispatch (ev : event) : keeps (dispatch ev).
Proof.
  destruct ev; unfold dispatch; keeps_all.
Qed.

Lemma play_sound (evs : list event) (st : editor) : sound st → sound (play evs st).
Proof.
  revert st. induction evs as [|ev r IH]; intros st H; simpl; [done|].
  apply IH. by apply keeps_dispatch.
Qed.

Lemma mounted_sound (ns es : value) : sound (mounted ns es).
Proof.
  split; [split|]; simpl.
  - right. done.
  - unfold maxHistory. lia.
  - constructor.
Qed.

Lemma reachable_sound (ns es : value) (evs : list event) :
  sound (play evs (mounted ns es)).
Proof. apply play_sound, mounted_sound. Qed.

(** X1.  Whatever the user and the library do to a freshly mounted
    component, in any order and with any inputs, after every event the
    history index is a valid position of the stack (or -1 on the empty
    stack), the stack holds at most [maxHistory] snapshots, and every
    snapshot on it is reproduced exactly by the JSON deep copy.  Events that
    throw are included. *)
Theorem every_event_keeps_the_history_sound (ns es : value) (evs : list event) (k : nat) :
  let st := play (take k evs) (mounted ns es) in
  hist_inv st
  ∧ Z.of_nat (length (history st)) ≤ maxHistory
  ∧ Forall faithful_snapshot (history st).
Proof.
  intros st.
  destruct (reachable_sound ns es (take k evs)) as [[Hinv Hlen] Hf].
  done.
Qed.

(** X2.  In every state that a freshly mounted component can reach,
    [undo] and [redo] return without throwing; when there is an entry below
    (above) the index, the graph shown afterwards is exactly that entry. *)
Theorem undo_and_redo_never_throw (ns es : value) (evs : list event) :
  let st := play evs (mounted ns es) in
  fst (undo st) = Ok tt ∧ fst (redo st) = Ok tt
  ∧ (∀ s, 0 < historyIndex st → index (history st) (historyIndex st - 1) = Some s →
       nodes (exec undo st) = snap_nodes s ∧ edges (exec undo st) = snap_edges s)
  ∧ (∀ s, index (history st) (historyIndex st + 1) = Some s →
       nodes (exec redo st) = snap_nodes s ∧ edges (exec redo st) = snap_edges s).
Proof.
  intros st.
  destruct (reachable_sound ns es evs) as [[Hinv Hlen] Hf].
  fold st in Hinv, Hlen, Hf.
  assert (Hu : ∀ s, 0 < historyIndex st →
            index (history st) (historyIndex st - 1) = Some s →
            undo st = (Ok tt, add_notice (MsgSuccess "撤销成功")
              (set_edges (snap_edges s) (set_nodes (snap_nodes s)
                 (set_historyIndex (historyIndex st - 1) st))))).
  { intros s Hpos Hs. apply undo_restores; auto. by eapply index_Forall. }
  assert (Hr : ∀ s, index (history st) (historyIndex st + 1) = Some s →
            redo st = (Ok tt, add_notice (MsgSuccess "重做成功")
              (set_edges (snap_edges s) (set_nodes (snap_nodes s)
                 (set_historyIndex (historyIndex st + 1) st))))).
  { intros s Hs. apply redo_restores; auto; [|by eapply index_Forall].
    unfold index in Hs. destruct (_ <? 0) eqn:E; [done|].
    apply lookup_lt_Some in Hs. zbool. lia. }
  conj_split.
  - destruct (Z_lt_le_dec 0 (historyIndex st)) as [Hpos|Hle].
    + destruct (index_is_Some (history st) (historyIndex st - 1)) as [s Hs];
        [destruct Hinv; lia|].
      by rewrite (Hu s).
    + by rewrite undo_boundary.
  - destruct (Z_lt_le_dec (historyIndex st) (Z.of_nat (length (history st)) - 1))
      as [Hlt|Hge].
    + destruct (index_is_Some (history st) (historyIndex st + 1)) as [s Hs];
        [destruct Hinv; lia|].
      by rewrite (Hr s).
    + by rewrite redo_boundary.
  - intros s Hpos Hs. unfold exec. by rewrite (Hu s).
  - intros s Hs. unfold exec. by rewrite (Hr s).
Qed.

(** ** Recording, undoing and redoing compose *)

(** What a record makes of the stack when the index points at the entry
    [s]: the entries up to [s], without the oldest one at capacity, and the
    new snapshot on top. *)
Lemma pushed_onto (h : list snapshot) (i : Z) (s snap : snapshot) :
  index h i = Some s → Z.of_nat (length h) ≤ maxHistory →
  ∃ pre, pushed h i snap = ((pre ++ [snap])%list, Z.of_nat (length pre))
         ∧ last pre = Some s
         ∧ (∀ P : snapshot → Prop, Forall P h → Forall P pre).
Proof.
  intros Hs Hlen.
  assert (Hi : 0 ≤ i < Z.of_nat (length h)).
  { unfold index in Hs. destruct (i <? 0) eqn:E; [done|].
    apply lookup_lt_Some in Hs. zbool. lia. }
  rewrite index_lookup in Hs by lia.
  rewrite (pushed_spec h i snap) by auto. cbv zeta.
  set (kept := take (Z.to_nat (i + 1)) h).
  assert (Hk : length kept = Z.to_nat (i + 1)).
  { unfold kept. rewrite length_take. lia. }
  assert (Hlast : last kept = Some s).
  { rewrite last_lookup, Hk. unfold kept.
    rewrite lookup_take_lt by lia.
    replace (Nat.pred (Z.to_nat (i + 1))) with (Z.to_nat i) by lia. done. }
  assert (HP : ∀ P : snapshot → Prop, Forall P h → Forall P kept)
    by (intros P HP; by apply Forall_take).
  destruct (Z.of_nat (length kept) <? maxHistory) eqn:E; zbool.
  - exists kept. split; [|done]. f_equal. lia.
  - unfold maxHistory in *.
    destruct kept as [|x kept'] eqn:Ek; [simpl in Hk; lia|].
    exists kept'. simpl in *. conj_split.
    + f_equal. lia.
    + destruct kept' as [|y r]; [simpl in *; lia|]. done.
    + intros P HPh. specialize (HP P HPh). by inversion HP.
Qed.

(** Undo and redo from the top of a stack whose entry below the top is [s]. *)
Lemma undo_redo_on_top (r : editor) (pre : list snapshot) (s snap : snapshot) :
  history r = (pre ++ [snap])%list → historyIndex r = Z.of_nat (length pre) →
  last pre = Some s → faithful_snapshot s → faithful_snapshot snap →
  let undone := exec undo r in
  let redone := exec redo undone in
  nodes undone = snap_nodes s ∧ edges undone = snap_edges s
  ∧ index (history undone) (historyIndex undone) = Some s
  ∧ nodes redone = snap_nodes snap ∧ edges redone = snap_edges snap
  ∧ history redone = history r ∧ historyIndex redone = historyIndex r.
Proof.
  intros Hh Hi Hlast Hfs Hsnap undone redone.
  assert (Hpre : (0 < length pre)%nat) by (destruct pre; [done|simpl; lia]).
  assert (Hls : ((pre ++ [snap])%list) !! Nat.pred (length pre) = Some s).
  { rewrite lookup_app_l by lia. by rewrite <- last_lookup. }
  assert (Hund : undone
            = add_notice (MsgSuccess "撤销成功")
                (set_edges (snap_edges s) (set_nodes (snap_nodes s)
                   (set_historyIndex (Z.of_nat (length pre) - 1) r)))).
  { unfold undone, exec.
    rewrite (undo_restores r s); [simpl; by rewrite Hi| | |done].
    - lia.
    - rewrite Hh, Hi. rewrite index_lookup by lia.
      replace (Z.to_nat (Z.of_nat (length pre) - 1)) with (Nat.pred (length pre)) by lia.
      done. }
  assert (Hred : redone
            = add_notice (MsgSuccess "重做成功")
                (set_edges (snap_edges snap) (set_nodes (snap_nodes snap)
                   (set_historyIndex (historyIndex undone + 1) undone)))).
  { unfold redone, exec. rewrite (redo_restores undone snap); [done| | |done].
    - rewrite Hund. simpl. rewrite Hh, length_app. simpl. lia.
    - rewrite Hund. simpl. rewrite Hh. rewrite index_lookup by lia.
      replace (Z.to_nat (Z.of_nat (length pre) - 1 + 1)) with (length pre) by lia.
      rewrite lookup_app_r by lia. by rewrite Nat.sub_diag. }
  conj_split.
  - by rewrite Hund.
  - by rewrite Hund.
  - rewrite Hund. simpl. rewrite Hh. rewrite index_lookup by lia.
    replace (Z.to_nat (Z.of_nat (length pre) - 1)) with (Nat.pred (length pre)) by lia.
    done.
  - by rewrite Hred.
  - by rewrite Hred.
  - rewrite Hred, Hund. done.
  - rewrite Hred, Hund. simpl. lia.
Qed.

(** The stack after a record from a state whose index points at [s]. *)
Lemma recorded_on_top (st : editor) (s : snapshot) :
  sound st → index (history st) (historyIndex st) = Some s →
  nodes st ≠ VUndef → edges st ≠ VUndef →
  ∃ pre,
    history (exec saveToHistory st)
    = (pre ++ [Snapshot (clone (nodes st)) (clone (edges st))])%list
    ∧ historyIndex (exec saveToHistory st) = Z.of_nat (length pre)
    ∧ last pre = Some s ∧ faithful_snapshot s
    ∧ faithful_snapshot (Snapshot (clone (nodes st)) (clone (edges st))).
Proof.
  intros [[Hinv Hlen] Hf] Hs Hn He.
  set (snap := Snapshot (clone (nodes st)) (clone (edges st))).
  destruct (pushed_onto (history st) (historyIndex st) s snap Hs Hlen)
    as (pre & Hp & Hlast & HP).
  exists pre. unfold exec.
  rewrite (saveToHistory_ok st _ _ (JSON_clone_ok _ Hn) (JSON_clone_ok _ He)).
  fold snap. rewrite Hp. simpl. conj_split; try done.
  - apply (index_Forall _ _ _ _ Hf Hs).
  - split; by apply clone_faithful.
Qed.

(** X3.  When the index points at the snapshot [s] and the graph can
    be recorded, a record followed by an undo shows exactly [s], also when
    the record evicted the oldest snapshot of a full stack; the redo after
    that shows the deep copy of the graph that was recorded. *)
Theorem undo_after_a_record (st : editor) (s : snapshot) :
  sound st → index (history st) (historyIndex st) = Some s →
  nodes st ≠ VUndef → edges st ≠ VUndef →
  let undone := exec undo (exec saveToHistory st) in
  let redone := exec redo undone in
  nodes undone = snap_nodes s ∧ edges undone = snap_edges s
  ∧ index (history undone) (historyIndex undone) = Some s
  ∧ nodes redone = clone (nodes st) ∧ edges redone = clone (edges st).
Proof.
  intros Hs Hi Hn He.
  destruct (recorded_on_top st s Hs Hi Hn He) as (pre & Hh & Hx & Hlast & Hfs & Hsnap).
  destruct (undo_redo_on_top _ pre s _ Hh Hx Hlast Hfs Hsnap)
    as (H1 & H2 & H3 & H4 & H5 & _).
  done.
Qed.

(** Establish [sound] for a concrete state by evaluation; [h] is its
    history stack. *)
Ltac sound_by_evaluation h :=
  split;
  [ split;
    [ left; vm_compute; split; [discriminate|reflexivity]
    | vm_compute; discriminate ]
  | match goal with
    | |- Forall _ ?l => replace l with h by (vm_compute; reflexivity)
    end;
    repeat (constructor; [split; vm_compute; reflexivity|]); constructor ].

Lemma undo_after_a_record_witness :
  let cleared := play [EvInit; EvGraph (VArr []) (VArr [])]
                   (mounted (VArr [start_node]) (VArr [])) in
  let undone := exec undo (exec saveToHistory cleared) in
  nodes cleared = VArr [] ∧ nodes undone = VArr [start_node]
  ∧ edges undone = VArr []
  ∧ nodes (exec redo undone) = VArr [].
Proof.
  pose proof (undo_after_a_record
    (play [EvInit; EvGraph (VArr []) (VArr [])]
       (mounted (VArr [start_node]) (VArr [])))
    (Snapshot (VArr [start_node]) (VArr []))) as H.
  cbv zeta in *.
  destruct H as (H1 & H2 & _ & H4 & _).
  - sound_by_evaluation [Snapshot (VArr [start_node]) (VArr [])].
  - vm_compute. reflexivity.
  - vm_compute. discriminate.
  - vm_compute. discriminate.
  - conj_split; [vm_compute; reflexivity|exact H1|exact H2|exact H4].
Defined.

(** X4.  A record keeps the entries up to the index (without the
    oldest one when that makes [maxHistory] entries), puts the snapshot of
    the graph on top and moves the index there: the entries above the old
    index are gone, and a redo right after a record only warns. *)
Theorem a_record_discards_the_redo_tail (st : editor) :
  hist_ok st → nodes st ≠ VUndef → edges st ≠ VUndef →
  let recorded := exec saveToHistory st in
  let kept := take (Z.to_nat (historyIndex st + 1)) (history st) in
  let older := if Z.of_nat (length kept) <? maxHistory then kept else tail kept in
  history recorded = (older ++ [snapshot_of (nodes st, edges st)])%list
  ∧ historyIndex recorded = Z.of_nat (length (history recorded)) - 1
  ∧ redo recorded = (Ok tt, add_notice (MsgWarning "没有可重做的操作") recorded).
Proof.
  intros [Hinv Hlen] Hn He recorded kept older.
  set (snap := snapshot_of (nodes st, edges st)).
  assert (Hrec : recorded
            = set_historyIndex (snd (pushed (history st) (historyIndex st) snap))
                (set_history (fst (pushed (history st) (historyIndex st) snap)) st)).
  { unfold recorded, exec.
    by rewrite (saveToHistory_ok st _ _ (JSON_clone_ok _ Hn) (JSON_clone_ok _ He)). }
  destruct (pushed_hist_ok (history st) (historyIndex st) snap Hinv Hlen) as [Hi' Hl'].
  assert (Hh : history recorded = (older ++ [snap])%list).
  { rewrite Hrec. simpl. rewrite (pushed_spec _ _ snap Hinv Hlen). cbv zeta.
    unfold older, kept. by destruct (_ <? _). }
  assert (Hi : historyIndex recorded = Z.of_nat (length (history recorded)) - 1).
  { rewrite Hrec. simpl. exact Hi'. }
  conj_split; [exact Hh|exact Hi|].
  apply redo_boundary. lia.
Qed.

Lemma a_record_discards_the_redo_tail_witness :
  let st := play [EvInit; EvClear true; EvUndo]
              (mounted (VArr [start_node]) (VArr [])) in
  let recorded := exec saveToHistory st in
  historyIndex st = 0 ∧ length (history st) = 2%nat
  ∧ length (history recorded) = 2%nat
  ∧ redo recorded = (Ok tt, add_notice (MsgWarning "没有可重做的操作") recorded).
Proof.
  pose proof (a_record_discards_the_redo_tail
    (play [EvInit; EvClear true; EvUndo]
       (mounted (VArr [start_node]) (VArr [])))) as H.
  cbv zeta in *.
  destruct H as (H1 & _ & H3).
  - split; [left; vm_compute; split; [discriminate|reflexivity]|vm_compute; discriminate].
  - vm_compute. discriminate.
  - vm_compute. discriminate.
  - conj_split; [vm_compute; reflexivity|vm_compute; reflexivity| |exact H3].
    rewrite H1. vm_compute. reflexivity.
Defined.

(** X5.  On a sound stack, an undo followed by a redo, and a redo
    followed by an undo, leave the stack and the index as they were and show
    the snapshot recorded at the index (which is the graph shown before only
    if that graph had been recorded). *)
Theorem undo_and_redo_are_inverse (st : editor) :
  sound st →
  (0 < historyIndex st →
   let st' := exec redo (exec undo st) in
   history st' = history st ∧ historyIndex st' = historyIndex st
   ∧ index (history st) (historyIndex st) = Some (Snapshot (nodes st') (edges st')))
  ∧ (historyIndex st < Z.of_nat (length (history st)) - 1 →
     let st' := exec undo (exec redo st) in
     history st' = history st ∧ historyIndex st' = historyIndex st
     ∧ index (history st) (historyIndex st) = Some (Snapshot (nodes st') (edges st'))).
Proof.
  intros [[Hinv Hlen] Hf].
  assert (Hget : ∀ j, 0 ≤ j < Z.of_nat (length (history st)) →
            ∃ s, index (history st) j = Some s ∧ faithful_snapshot s).
  { intros j Hj. destruct (index_is_Some (history st) j Hj) as [s Hs].
    exists s. split; [done|]. by eapply index_Forall. }
  split; intros Hi st'.
  - destruct (Hget (historyIndex st - 1)) as (s1 & Hs1 & Hf1); [destruct Hinv; lia|].
    destruct (Hget (historyIndex st)) as (s & Hs & Hfs); [destruct Hinv; lia|].
    assert (Hu : exec undo st
              = add_notice (MsgSuccess "撤销成功")
                  (set_edges (snap_edges s1) (set_nodes (snap_nodes s1)
                     (set_historyIndex (historyIndex st - 1) st)))).
    { unfold exec. by rewrite (undo_restores st s1). }
    assert (Hr : st'
              = add_notice (MsgSuccess "重做成功")
                  (set_edges (snap_edges s) (set_nodes (snap_nodes s)
                     (set_historyIndex (historyIndex (exec undo st) + 1) (exec undo st))))).
    { unfold st', exec at 1. rewrite (redo_restores (exec undo st) s); [done| |
        |done].
      - rewrite Hu. simpl. destruct Hinv; lia.
      - rewrite Hu. simpl. by replace (historyIndex st - 1 + 1) with (historyIndex st) by lia. }
    rewrite Hr, Hu. simpl. conj_split; [done|lia|]. rewrite Hs. by destruct s.
  - destruct (Hget (historyIndex st + 1)) as (s1 & Hs1 & Hf1); [destruct Hinv; lia|].
    destruct (Hget (historyIndex st)) as (s & Hs & Hfs); [destruct Hinv; lia|].
    assert (Hr : exec redo st
              = add_notice (MsgSuccess "重做成功")
                  (set_edges (snap_edges s1) (set_nodes (snap_nodes s1)
                     (set_historyIndex (historyIndex st + 1) st)))).
    { unfold exec. by rewrite (redo_restores st s1). }
    assert (Hu : st'
              = add_notice (MsgSuccess "撤销成功")
                  (set_edges (snap_edges s) (set_nodes (snap_nodes s)
                     (set_historyIndex (historyIndex (exec redo st) - 1) (exec redo st))))).
    { unfold st', exec at 1. rewrite (undo_restores (exec redo st) s); [done| |
        |done].
      - rewrite Hr. simpl. destruct Hinv; lia.
      - rewrite Hr. simpl. by replace (historyIndex st + 1 - 1) with (historyIndex st) by lia. }
    rewrite Hu, Hr. simpl. conj_split; [done|lia|]. rewrite Hs. by destruct s.
Qed.

Lemma undo_and_redo_are_inverse_witness :
  let st := play [EvInit; EvClear true]
              (mounted (VArr [start_node]) (VArr [])) in
  let st' := exec redo (exec undo st) in
  historyIndex st = 1 ∧ historyIndex st' = 1 ∧ history st' = history st.
Proof.
  pose proof (undo_and_redo_are_inverse
    (play [EvInit; EvClear true]
       (mounted (VArr [start_node]) (VArr [])))) as H.
  cbv zeta in *.
  destruct H as [H _].
  - sound_by_evaluation [Snapshot (VArr [start_node]) (VArr []);
                         Snapshot (VArr []) (VArr [])].
  - destruct H as (H1 & H2 & _); [vm_compute; reflexivity|].
    conj_split; [vm_compute; reflexivity| |exact H1].
    rewrite H2. vm_compute. reflexivity.
Defined.

(** ** Clearing can be undone *)

(** X6.  A confirmed [handleClear] empties both lists, records the
    empty graph and reports success; when the index pointed at the snapshot
    [s], the next undo shows [s] again and the redo after it the empty
    graph.  A cancelled clear does nothing. *)
Theorem clearing_can_be_undone (st : editor) (s : snapshot) :
  sound st → index (history st) (historyIndex st) = Some s →
  let cleared := exec (handleClear true) st in
  let undone := exec undo cleared in
  nodes cleared = VArr [] ∧ edges cleared = VArr []
  ∧ notices cleared = (notices st ++ [MsgSuccess "画布已清空"])%list
  ∧ nodes undone = snap_nodes s ∧ edges undone = snap_edges s
  ∧ nodes (exec redo undone) = VArr [] ∧ edges (exec redo undone) = VArr []
  ∧ handleClear false st = (Ok tt, st).
Proof.
  intros Hs Hi. cbv zeta.
  set (s0 := set_edges (VArr []) (set_nodes (VArr []) st)).
  assert (Hc : exec (handleClear true) st
               = add_notice (MsgSuccess "画布已清空") (exec saveToHistory s0)).
  { unfold handleClear, s0. run_handler.
    match goal with |- context [saveToHistory ?s] =>
      by rewrite (saveToHistory_ok s (VArr []) (VArr [])) end. }
  destruct (recorded_on_top s0 s) as (pre & Hh & Hx & Hlast & Hfs & Hsnap);
    [by apply (sound_frame st)|done|done|done|].
  destruct (saveToHistory_frame s0) as (Hfn & Hfe & _ & _ & _ & _ & _ & Hfo).
  rewrite Hc.
  destruct (undo_redo_on_top (add_notice (MsgSuccess "画布已清空") (exec saveToHistory s0))
              pre s _ Hh Hx Hlast Hfs Hsnap) as (H1 & H2 & _ & H4 & H5 & _).
  conj_split; try done.
  cbn [notices add_notice]. by rewrite Hfo.
Qed.

Lemma clearing_can_be_undone_witness :
  let st := play [EvInit] (mounted (VArr [start_node]) (VArr [])) in
  let cleared := exec (handleClear true) st in
  nodes cleared = VArr []
  ∧ nodes (exec undo cleared) = VArr [start_node]
  ∧ edges (exec undo cleared) = VArr [].
Proof.
  destruct (clearing_can_be_undone
              (play [EvInit] (mounted (VArr [start_node]) (VArr [])))
              (Snapshot (VArr [start_node]) (VArr [])))
    as (H1 & _ & _ & H4 & H5 & _).
  - sound_by_evaluation [Snapshot (VArr [start_node]) (VArr [])].
  - vm_compute. reflexivity.
  - cbv zeta. conj_split; [exact H1|exact H4|exact H5].
Defined.

(** ** Deleting keeps the graph referentially intact *)

Lemma same_value_zero_str (v : value) (i : string) :
  same_value_zero v (VStr i) = true → v = VStr i.
Proof.
  destruct v; simpl; try done. intros H. apply String.eqb_eq in H. by subst.
Qed.

(** Removing the nodes with id [i] changes the membership test only for [i]
    itself. *)
Lemma set_has_without (ns : list value) (i : string) (v : value) :
  strict_eq v (VStr i) = false →
  set_has (node_ids (List.filter (id_differs i) ns)) v = set_has (node_ids ns) v.
Proof.
  intros Hv. unfold set_has, node_ids.
  induction ns as [|n r IH]; simpl; [done|].
  unfold id_differs at 1.
  destruct (strict_eq (get_opt "id" n) (VStr i)) eqn:E; simpl.
  - rewrite IH. apply strict_eq_str in E. rewrite E.
    destruct (same_value_zero v (VStr i)) eqn:E2; [|done].
    apply same_value_zero_str in E2. subst v. simpl in Hv.
    by rewrite String.eqb_refl in Hv.
  - by rewrite IH.
Qed.

Lemma filter_filter_length {A} (p q : A → bool) (l : list A) :
  (length (List.filter p (List.filter q l)) ≤ length (List.filter p l))%nat.
Proof.
  induction l as [|x r IH]; simpl; [done|].
  destruct (q x), (p x) eqn:E; simpl; rewrite ?E; simpl; lia.
Qed.

Lemma filter_ext_Forall {A} (p q : A → bool) (l : list A) :
  Forall (λ x, p x = q x) l → List.filter p l = List.filter q l.
Proof.
  induction 1 as [|x r Hx _ IH]; simpl; [done|]. by rewrite Hx, IH.
Qed.

Lemma Forall_filter_true {A} (q : A → bool) (l : list A) :
  Forall (λ x, q x = true) (List.filter q l).
Proof.
  induction l as [|x r IH]; simpl; [done|].
  destruct (q x) eqn:E; [by constructor|done].
Qed.

Lemma dangling_after_delete (ns es : list value) (i : string) :
  (dangling_endpoints (List.filter (id_differs i) ns) (List.filter (touches_neither i) es)
   ≤ dangling_endpoints ns es)%nat.
Proof.
  unfold dangling_endpoints.
  set (es' := List.filter (touches_neither i) es).
  assert (Hes : Forall (λ e, touches_neither i e = true) es')
    by apply Forall_filter_true.
  rewrite (filter_ext_Forall
             (λ e, negb (set_has (node_ids (List.filter (id_differs i) ns))
                           (get_opt "source" e)))
             (λ e, negb (set_has (node_ids ns) (get_opt "source" e))) es').
  2:{ eapply Forall_impl; [exact Hes|]. intros e He. simpl.
      unfold touches_neither in He. apply andb_true_iff in He as [H1 _].
      apply negb_true_iff in H1. by rewrite set_has_without. }
  rewrite (filter_ext_Forall
             (λ e, negb (set_has (node_ids (List.filter (id_differs i) ns))
                           (get_opt "target" e)))
             (λ e, negb (set_has (node_ids ns) (get_opt "target" e))) es').
  2:{ eapply Forall_impl; [exact Hes|]. intros e He. simpl.
      unfold touches_neither in He. apply andb_true_iff in He as [_ H2].
      apply negb_true_iff in H2. by rewrite set_has_without. }
  unfold es'.
  pose proof (filter_filter_length
    (λ e, negb (set_has (node_ids ns) (get_opt "source" e))) (touches_neither i) es).
  pose proof (filter_filter_length
    (λ e, negb (set_has (node_ids ns) (get_opt "target" e))) (touches_neither i) es).
  lia.
Qed.

(** X7.  A confirmed [handleDeleteNode] never increases the number
    of edge endpoints that reference no node; a graph without dangling
    endpoints stays without.  This holds of the lists that the handler hands
    to the store, compared with the lists that the store returned, and of the
    component's own lists, which the handler leaves as they are. *)
Theorem deleting_a_node_leaves_no_new_dangling_edge
    (st : editor) (ns es : list value) (i : string) :
  get "id" (selectedNode st) = Ok (VStr i) →
  Forall defined ns → Forall defined es →
  let st' := exec (handleDeleteNode ns es true) st in
  (∃ ns' es',
     storeCalls st' = (storeCalls st ++ [SetNodes ns'; SetEdges es'])%list
     ∧ (dangling_endpoints ns' es' ≤ dangling_endpoints ns es)%nat
     ∧ (dangling_endpoints ns es = 0%nat → dangling_endpoints ns' es' = 0%nat))
  ∧ nodes st' = nodes st ∧ edges st' = edges st.
Proof.
  intros Hsel Hns Hes. cbv zeta. unfold exec at 1 2 3.
  rewrite (handleDeleteNode_confirmed st ns es i) by done.
  match goal with |- context [saveToHistory ?s] =>
    pose proof (saveToHistory_calls s) as Hk;
    destruct (saveToHistory_frame s) as (Hn & He & _)
  end.
  unfold exec in Hk, Hn, He. rewrite Hk, Hn, He. simpl.
  split; [|done].
  exists (List.filter (id_differs i) ns), (List.filter (touches_neither i) es).
  pose proof (dangling_after_delete ns es i).
  rewrite <- app_assoc. conj_split; [done|done|lia].
Qed.

Lemma deleting_a_node_leaves_no_new_dangling_edge_witness :
  let st := exec (onNodeClick task1_node) opened in
  let st' := exec (handleDeleteNode initial_nodes initial_edges true) st in
  dangling_endpoints initial_nodes initial_edges = 0%nat
  ∧ (∃ ns' es', storeCalls st' = [SetNodes ns'; SetEdges es']
                ∧ dangling_endpoints ns' es' = 0%nat)
  ∧ nodes st' = VArr initial_nodes ∧ edges st' = VArr initial_edges.
Proof.
  split; [vm_compute; reflexivity|].
  destruct (deleting_a_node_leaves_no_new_dangling_edge
              (exec (onNodeClick task1_node) opened) initial_nodes initial_edges "task1")
    as ((ns' & es' & H1 & _ & H4) & H5 & H6).
  - reflexivity.
  - repeat constructor; discriminate.
  - repeat constructor; discriminate.
  - split; [|split; [exact H5|exact H6]].
    exists ns', es'. split; [exact H1|].
    apply H4. vm_compute. reflexivity.
Defined.

(** ** Deleting an edge *)

Lemma handleDeleteEdge_confirmed (st : editor) (es : list value) (j : string) :
  get "id" (selectedEdge st) = Ok (VStr j) →
  Forall defined es →
  handleDeleteEdge es true st =
    (saveToHistory
       (set_selectedEdge (VObj ∅) (set_selectedNode (VObj ∅) (set_updateState ""
          (add_notice (MsgSuccess "连线删除成功")
             (add_call (SetEdges (List.filter (id_differs j) es)) st)))))).
Proof.
  intros Hsel Hes. unfold handleDeleteEdge, handleClosePanel. run_handler.
  rewrite (other_id_ok _ j) by done. simpl. done.
Qed.

(** X8.  A confirmed [handleDeleteEdge] makes one request of the store: to
    keep exactly the edges, of those the store returned, whose id differs
    from the selected edge's, in order and unchanged (one edge leaves when
    the id names one edge).  It asks nothing about the nodes, leaves the
    component's own lists as they are, closes the panel with both selections
    reset and reports success; it returns when the component's lists can be
    recorded.  A cancelled deletion does nothing. *)
Theorem delete_edge_removes_the_selected_edge
    (st : editor) (es : list value) (j : string) :
  nodes st ≠ VUndef → edges st ≠ VUndef →
  get "id" (selectedEdge st) = Ok (VStr j) →
  Forall defined es →
  let st' := exec (handleDeleteEdge es true) st in
  let es' := List.filter (id_differs j) es in
  storeCalls st' = (storeCalls st ++ [SetEdges es'])%list
  ∧ nodes st' = nodes st ∧ edges st' = edges st
  ∧ (∀ e, e ∈ es' ↔ e ∈ es ∧ get_opt "id" e ≠ VStr j)
  ∧ (∀ k1 e k2, es = (k1 ++ e :: k2)%list → get_opt "id" e = VStr j →
       Forall (λ m, get_opt "id" m ≠ VStr j) (k1 ++ k2) → es' = (k1 ++ k2)%list)
  ∧ updateState st' = "" ∧ selectedEdge st' = VObj ∅ ∧ selectedNode st' = VObj ∅
  ∧ notices st' = (notices st ++ [MsgSuccess "连线删除成功"])%list
  ∧ fst (handleDeleteEdge es true st) = Ok tt
  ∧ handleDeleteEdge es false st = (Ok tt, st).
Proof.
  intros Hn He Hsel Hes. cbv zeta. unfold exec.
  rewrite (handleDeleteEdge_confirmed st es j) by done.
  match goal with |- context [saveToHistory ?s] =>
    pose proof (saveToHistory_frame s) as Hfr;
    pose proof (saveToHistory_calls s) as Hk;
    assert (Hok : saveToHistory s
                  = (Ok tt, exec saveToHistory s))
  end.
  { unfold exec.
    match goal with |- saveToHistory ?s = _ =>
      rewrite (saveToHistory_ok s (clone (nodes s)) (clone (edges s)))
    end; [done| |]; simpl; by apply JSON_clone_ok. }
  cbv zeta in Hfr. unfold exec in Hfr, Hok, Hk.
  destruct Hfr as (H1 & H2 & H3 & H4 & H5 & _ & _ & H8).
  rewrite H1, H2, H3, H4, H5, H8, Hk, Hok. simpl.
  conj_split; try done.
  - intros e. rewrite !list_elem_of_In, filter_In. unfold id_differs.
    rewrite negb_true_iff, <- not_true_iff_false, strict_eq_str. done.
  - intros k1 e k2 -> Hid Hothers. by apply filter_id_differs_remove.
Qed.

Lemma delete_edge_removes_the_selected_edge_witness :
  let first_edge := edge "e-start-task1" "start" "task1" "开始" in
  let st' := exec (handleDeleteEdge initial_edges true)
               (exec (onEdgeClick first_edge) opened) in
  storeCalls st' = [SetEdges (tail initial_edges)]
  ∧ edges st' = VArr initial_edges ∧ nodes st' = VArr initial_nodes
  ∧ updateState st' = "".
Proof.
  destruct (delete_edge_removes_the_selected_edge
              (exec (onEdgeClick (edge "e-start-task1" "start" "task1" "开始")) opened)
              initial_edges "e-start-task1")
    as (H1 & H2 & H3 & _ & _ & H5 & _).
  - discriminate.
  - discriminate.
  - reflexivity.
  - repeat constructor; discriminate.
  - cbv zeta. conj_split; [exact H1|exact H3|exact H2|exact H5].
Defined.

(** ** Events that leave the graph alone *)

Lemma leaves_ret {A} (a : A) : leaves_graph (mret a).
Proof. by intros st. Qed.

Lemma leaves_read {A} (f : editor → A) : leaves_graph (read f).
Proof. by intros st. Qed.

Lemma leaves_lift {A} (o : outcome A) : leaves_graph (lift o).
Proof. by intros st. Qed.

Lemma leaves_modify (f : editor → editor) :
  (∀ st, nodes (f st) = nodes st ∧ edges (f st) = edges st
         ∧ history (f st) = history st ∧ historyIndex (f st) = historyIndex st
         ∧ storeCalls (f st) = storeCalls st) →
  leaves_graph (modify f).
Proof. intros Hf st. apply Hf. Qed.

Lemma leaves_bind {A B} (m : handler A) (f : A → handler B) :
  leaves_graph m → (∀ a, leaves_graph (f a)) → leaves_graph (m ≫= f).
Proof.
  intros Hm Hf st. specialize (Hm st).
  unfold exec, mbind, handler_bind in *.
  destruct (m st) as [[a|] st1]; simpl in *; [|exact Hm].
  destruct (Hf a st1) as (H1 & H2 & H3 & H4 & H5). unfold exec in *.
  destruct Hm as (G1 & G2 & G3 & G4 & G5).
  by rewrite H1, H2, H3, H4, H5.
Qed.

Ltac leaves_step :=
  first
    [ apply leaves_ret
    | apply leaves_read
    | apply leaves_lift
    | apply leaves_modify; intros ?; repeat split; reflexivity
    | apply leaves_bind; [|intros ?]
    | match goal with
      | |- leaves_graph (if ?b then _ else _) => destruct b
      | |- leaves_graph (match ?x with _ => _ end) => destruct x
      | |- leaves_graph (let _ := _ in _) => cbv zeta
      end ].

(** X9.  Copying, exporting, saving, validating, clicking a node or
    an edge, starting or ending a drag and closing the panel change neither
    list of the graph nor the history stack nor its index, and ask nothing of
    the store, with any input and also when the handler throws. *)
Theorem passive_events_leave_the_graph (ev : event) (st : editor) :
  passive ev = true →
  let st' := exec (dispatch ev) st in
  nodes st' = nodes st ∧ edges st' = edges st
  ∧ history st' = history st ∧ historyIndex st' = historyIndex st
  ∧ storeCalls st' = storeCalls st.
Proof.
  intros Hp. cbv zeta.
  assert (H : leaves_graph (dispatch ev)); [|exact (H st)].
  destruct ev; try discriminate Hp; unfold dispatch;
    unfold handleCopy, handleExport, handleSave, handleValidate, onEdgeClick,
      onNodeClick, onDragStart, onDragEnd, handleClosePanel, notify, skip;
    repeat leaves_step.
Qed.

Lemma passive_events_leave_the_graph_witness :
  let st' := exec (dispatch (EvValidate initial_nodes initial_edges)) opened in
  nodes st' = VArr initial_nodes ∧ historyIndex st' = 0 ∧ storeCalls st' = [].
Proof.
  destruct (passive_events_leave_the_graph
              (EvValidate initial_nodes initial_edges) opened)
    as (H1 & _ & _ & H4 & H5).
  - reflexivity.
  - cbv zeta. conj_split; [exact H1|exact H4|exact H5].
Defined.

(** ** An imported document whose lists are no arrays *)

(** X10.  [handleFileChange] accepts a document whose [nodes] and
    [edges] are truthy even when [nodes] is not an array: the import is
    reported as successful, the value becomes the component's node list and
    its JSON deep copy is recorded on the stack, and from then on [stats],
    which reads that list, throws. *)
Theorem importing_a_document_without_arrays (st : editor) (data : value) :
  let dn := get_opt "nodes" data in
  let de := get_opt "edges" data in
  truthy dn = true → truthy de = true → (∀ l, dn ≠ VArr l) →
  let st' := exec (handleFileChange (Some (Ok data))) st in
  handleFileChange (Some (Ok data)) st = (Ok tt, st')
  ∧ nodes st' = dn ∧ edges st' = de
  ∧ notices st' = (notices st ++ [MsgSuccess "流程导入成功"])%list
  ∧ (history st', historyIndex st')
    = pushed (history st) (historyIndex st) (snapshot_of (dn, de))
  ∧ storeCalls st' = storeCalls st
  ∧ stats st' = Throw.
Proof.
  intros dn de Hn He Harr. cbv zeta.
  assert (Hrun : handleFileChange (Some (Ok data)) st = (Ok tt, imported dn de st))
    by (by rewrite handleFileChange_accepts).
  assert (Hst : exec (handleFileChange (Some (Ok data))) st = imported dn de st)
    by (unfold exec; by rewrite Hrun).
  rewrite Hst. unfold imported.
  set (s1 := set_edges de (set_nodes dn st)).
  destruct (saveToHistory_frame s1) as (Hfn & Hfe & _ & _ & _ & Hfc & _ & Hfo).
  pose proof (saveToHistory_calls s1) as Hfk.
  assert (Hpush : saveToHistory s1
                  = (Ok tt, set_historyIndex
                              (snd (pushed (history s1) (historyIndex s1)
                                      (snapshot_of (dn, de))))
                              (set_history
                                 (fst (pushed (history s1) (historyIndex s1)
                                         (snapshot_of (dn, de)))) s1))).
  { rewrite (saveToHistory_ok s1 (clone dn) (clone de));
      [done| |]; apply JSON_clone_ok; by apply truthy_defined. }
  assert (Hnodes : nodes (add_notice (MsgSuccess "流程导入成功") (exec saveToHistory s1)) = dn)
    by (simpl; by rewrite Hfn).
  assert (Hna : as_array dn = Throw).
  { destruct dn eqn:E; try done. by destruct (Harr l). }
  conj_split.
  - exact Hrun.
  - exact Hnodes.
  - simpl. by rewrite Hfe.
  - simpl. by rewrite Hfo.
  - unfold exec. rewrite Hpush. simpl. by destruct (pushed _ _ _).
  - simpl. by rewrite Hfk.
  - unfold stats. rewrite Hnodes.
    destruct (js_length dn); [|done]. simpl. by rewrite Hna.
Qed.

Lemma importing_a_document_without_arrays_witness :
  let doc := VObj {[ "nodes" := VStr "none"; "edges" := VArr [] ]} in
  let st' := exec (handleFileChange (Some (Ok doc))) opened in
  nodes st' = VStr "none"
  ∧ notices st' = [MsgSuccess "流程导入成功"]
  ∧ stats st' = Throw.
Proof.
  destruct (importing_a_document_without_arrays opened
              (VObj {[ "nodes" := VStr "none"; "edges" := VArr [] ]}))
    as (_ & H1 & _ & H3 & _ & _ & H4).
  - reflexivity.
  - reflexivity.
  - discriminate.
  - cbv zeta. conj_split; [exact H1|exact H3|exact H4].
Defined.

(** ** Saving a node keeps the edges attached *)

Lemma set_has_app (l k : list value) (v : value) :
  set_has (l ++ k) v = set_has l v || set_has k v.
Proof. unfold set_has. apply existsb_app. Qed.

Lemma set_has_filtered (ns : list value) (i : string) (v : value) :
  set_has (node_ids ns) v
  = set_has (node_ids (List.filter (id_differs i) ns)) v
    || (same_value_zero v (VStr i)
        && existsb (λ n, strict_eq (get_opt "id" n) (VStr i)) ns).
Proof.
  unfold set_has, node_ids. induction ns as [|n r IH]; simpl.
  - by rewrite andb_false_r.
  - unfold id_differs at 1.
    destruct (strict_eq (get_opt "id" n) (VStr i)) eqn:E; simpl.
    + rewrite IH. apply strict_eq_str in E. rewrite E.
      destruct (same_value_zero v (VStr i)); simpl; [by rewrite orb_true_r|done].
    + rewrite IH. by rewrite orb_assoc.
Qed.

Lemma filter_length_mono {A} (p q : A → bool) (l : list A) :
  (∀ x, p x = true → q x = true) →
  (length (List.filter p l) ≤ length (List.filter q l))%nat.
Proof.
  intros Hpq. induction l as [|x r IH]; simpl; [done|].
  destruct (p x) eqn:E.
  - rewrite (Hpq x E). simpl. lia.
  - destruct (q x); simpl; lia.
Qed.

(** X11.  [handleSaveNode] makes one request of the store: the node list
    the store returned with the saved node, which has the id of the
    selection, at the end; it asks nothing about the edges and leaves the
    component's own lists as they are.  Against any edge list, the requested
    node list has no more dangling edge endpoints than the list the store
    returned, and as many when the selected id names a node of that list. *)
Theorem saving_a_node_creates_no_dangling_edge
    (st : editor) (ns es : list value) (o f : gmap string value) (i : string) :
  Forall defined ns →
  selectedNode st = VObj o → o !! "id" = Some (VStr i) →
  plain (get_opt "data" (VObj o)) →
  let data := VObj f in
  let st' := exec (handleSaveNode ns data) st in
  let ns' := (List.filter (id_differs i) ns ++ [saved_node (VObj o) data])%list in
  storeCalls st' = (storeCalls st ++ [SetNodes ns'])%list
  ∧ nodes st' = nodes st ∧ edges st' = edges st
  ∧ (dangling_endpoints ns' es ≤ dangling_endpoints ns es)%nat
  ∧ (Exists (λ n, get_opt "id" n = VStr i) ns →
     dangling_endpoints ns' es = dangling_endpoints ns es).
Proof.
  intros Hns Hsel Hid _. cbv zeta. set (data := VObj f).
  assert (Hrun : exec (handleSaveNode ns data) st
                 = exec saveToHistory
                     (add_call (SetNodes (List.filter (id_differs i) ns
                                          ++ [saved_node (VObj o) data])) st)).
  { unfold exec at 1.
    rewrite (handleSaveNode_saves st ns i); try done;
      [by rewrite Hsel|by rewrite Hsel|rewrite Hsel; simpl; by rewrite Hid]. }
  rewrite Hrun, saveToHistory_calls.
  match goal with |- context [exec saveToHistory ?s] =>
    destruct (saveToHistory_frame s) as (-> & -> & _) end.
  cbn [nodes edges storeCalls add_call].
  assert (Hsid : get_opt "id" (saved_node (VObj o) data) = VStr i).
  { unfold saved_node. cbn [get_opt spread]. rewrite lookup_insert_ne by done.
    by rewrite Hid. }
  assert (Hhas : ∀ v,
            set_has (node_ids (List.filter (id_differs i) ns
                               ++ [saved_node (VObj o) data])) v
            = set_has (node_ids (List.filter (id_differs i) ns)) v
              || same_value_zero v (VStr i)).
  { intros v. unfold node_ids. rewrite map_app, set_has_app. cbn [map].
    rewrite Hsid. unfold set_has at 2. cbn [existsb]. by rewrite orb_false_r. }
  conj_split; [done|done|done| |].
  - unfold dangling_endpoints.
    pose proof (filter_length_mono
      (λ e, negb (set_has (node_ids (List.filter (id_differs i) ns
                                     ++ [saved_node (VObj o) data]))
                    (get_opt "source" e)))
      (λ e, negb (set_has (node_ids ns) (get_opt "source" e))) es) as H1.
    pose proof (filter_length_mono
      (λ e, negb (set_has (node_ids (List.filter (id_differs i) ns
                                     ++ [saved_node (VObj o) data]))
                    (get_opt "target" e)))
      (λ e, negb (set_has (node_ids ns) (get_opt "target" e))) es) as H2.
    assert (Himp : ∀ v,
              negb (set_has (node_ids (List.filter (id_differs i) ns
                                       ++ [saved_node (VObj o) data])) v) = true →
              negb (set_has (node_ids ns) v) = true).
    { intros v. rewrite Hhas, (set_has_filtered ns i v).
      destruct (set_has _ v), (same_value_zero v (VStr i)); simpl; done. }
    specialize (H1 (λ e, Himp _)). specialize (H2 (λ e, Himp _)). lia.
  - intros Hex. unfold dangling_endpoints.
    assert (Hexb : existsb (λ n, strict_eq (get_opt "id" n) (VStr i)) ns = true).
    { apply existsb_exists. apply Exists_exists in Hex as (n & Hin & Hn').
      exists n. split; [by apply list_elem_of_In|]. by apply strict_eq_str. }
    assert (Heq : ∀ v,
              set_has (node_ids (List.filter (id_differs i) ns
                                 ++ [saved_node (VObj o) data])) v
              = set_has (node_ids ns) v).
    { intros v. rewrite Hhas, (set_has_filtered ns i v), Hexb.
      by rewrite andb_true_r. }
    f_equal; f_equal; apply filter_ext_Forall, Forall_forall; intros e _;
      by rewrite Heq.
Qed.

Lemma saving_a_node_creates_no_dangling_edge_witness :
  let st := exec (onNodeClick task1_node) opened in
  let st' := exec (handleSaveNode initial_nodes (VObj task1_form)) st in
  let ns' := (List.filter (id_differs "task1") initial_nodes
              ++ [saved_node task1_node (VObj task1_form)])%list in
  storeCalls st' = [SetNodes ns'] ∧ dangling_endpoints ns' initial_edges = 0%nat.
Proof.
  destruct (saving_a_node_creates_no_dangling_edge
              (exec (onNodeClick task1_node) opened) initial_nodes initial_edges
              task1_props task1_form "task1")
    as (H1 & _ & _ & _ & H4).
  - repeat constructor; discriminate.
  - reflexivity.
  - reflexivity.
  - exact I.
  - cbv zeta. split; [exact H1|].
    cbv zeta in H4. unfold task1_node. rewrite H4; [vm_compute; reflexivity|].
    apply Exists_cons_tl, Exists_cons_hd. reflexivity.
Defined.

(** ** Saving an edge, and the two forms *)

(** Look a concrete key up in a chain of inserts. *)
Ltac lookup_chain :=
  repeat first [rewrite lookup_insert_eq | rewrite lookup_insert_ne by done].

(** X12.  [handleSaveEdge] makes one request of the store: the edge list
    the store returned with the saved edge at the end.  The saved edge's
    [data] holds exactly the form's condition and description and its
    [style] exactly the form's colour and stroke width (what the old edge
    had there is dropped, unlike the merge of [handleSaveNode]); label, type
    and animated come from the form, every other property from the selected
    edge.  The component's own lists, the selection and the panel state
    stay. *)
Theorem save_edge_replaces_style_and_data
    (st : editor) (es : list value) (oe f : gmap string value) (j : string) :
  Forall defined es →
  selectedEdge st = VObj oe → oe !! "id" = Some (VStr j) →
  let st' := exec (handleSaveEdge es (VObj f)) st in
  let saved := saved_edge (VObj oe) (VObj f) in
  let field k := default VUndef (f !! k) in
  storeCalls st' = (storeCalls st ++ [SetEdges (List.filter (id_differs j) es ++ [saved])])%list
  ∧ nodes st' = nodes st ∧ edges st' = edges st
  ∧ get_opt "data" saved
    = VObj {[ "condition" := field "condition"; "description" := field "description" ]}
  ∧ get_opt "style" saved
    = VObj {[ "stroke" := field "color"; "strokeWidth" := field "strokeWidth" ]}
  ∧ get_opt "label" saved = field "label"
  ∧ get_opt "type" saved = field "type"
  ∧ get_opt "animated" saved = field "animated"
  ∧ (∀ k, k ∉ ["label"; "type"; "animated"; "style"; "data"] →
       get_opt k saved = get_opt k (VObj oe))
  ∧ selectedEdge st' = VObj oe ∧ updateState st' = updateState st.
Proof.
  intros Hes Hsel Hid. cbv zeta.
  assert (Hrun : exec (handleSaveEdge es (VObj f)) st
                 = exec saveToHistory
                     (add_call (SetEdges (List.filter (id_differs j) es
                                          ++ [saved_edge (VObj oe) (VObj f)])) st)).
  { unfold exec at 1.
    rewrite (handleSaveEdge_saves st es j);
      first [done | by rewrite Hsel | (rewrite Hsel; simpl; by rewrite Hid)
            | (split; discriminate)]. }
  rewrite Hrun, saveToHistory_calls.
  match goal with |- context [exec saveToHistory ?s] =>
    destruct (saveToHistory_frame s) as (-> & -> & -> & _ & -> & _) end.
  simpl. conj_split; try done; try (by lookup_chain).
  intros k Hk.
  rewrite !lookup_insert_ne; [done|..];
    intros <-; apply Hk; set_solver.
Qed.

Lemma save_edge_replaces_style_and_data_witness :
  let first_edge := edge "e-start-task1" "start" "task1" "开始" in
  let st' := exec (handleSaveEdge initial_edges edge_form)
               (exec (onEdgeClick first_edge) opened) in
  let saved := saved_edge first_edge edge_form in
  storeCalls st' = [SetEdges (tail initial_edges ++ [saved])]
  ∧ get_opt "style" saved = VObj {[ "stroke" := VStr "#ff0000"; "strokeWidth" := VNum 3 ]}
  ∧ get_opt "source" saved = VStr "start".
Proof.
  destruct (save_edge_replaces_style_and_data
              (exec (onEdgeClick (edge "e-start-task1" "start" "task1" "开始")) opened)
              initial_edges
              {[ "id" := VStr "e-start-task1"; "type" := VStr "smoothstep";
                 "source" := VStr "start"; "target" := VStr "task1";
                 "label" := VStr "开始" ]}
              {[ "label" := VStr "开始"; "type" := VStr "straight";
                 "color" := VStr "#ff0000"; "strokeWidth" := VNum 3;
                 "animated" := VBool true; "condition" := VStr "";
                 "description" := VStr "" ]}
              "e-start-task1")
    as (H1 & _ & _ & _ & H4 & _).
  - repeat constructor; discriminate.
  - reflexivity.
  - reflexivity.
  - cbv zeta. conj_split; [exact H1|exact H4|reflexivity].
Defined.

Lemma js_or_idem (a d : value) : js_or (js_or a d) d = js_or a d.
Proof.
  unfold js_or. destruct (truthy a) eqn:E; [by rewrite E|].
  by destruct (truthy d).
Qed.

(** X13.  Saving the form that NodeConfigPanel builds for a node [n]
    stores all eleven form fields in the payload of the saved node, keeps
    the other payload fields of the selection, and the form built from the
    saved node is again the form that was saved. *)
Theorem node_form_reads_back (sel n : value) :
  let saved := saved_node sel (formData n) in
  formData saved = formData n
  ∧ (∀ k v, spread (formData n) !! k = Some v →
       get_opt k (get_opt "data" saved) = v)
  ∧ (∀ k, spread (formData n) !! k = None →
       get_opt k (get_opt "data" saved) = get_opt k (get_opt "data" sel))
  ∧ size (spread (formData n)) = 11%nat.
Proof.
  cbv zeta.
  assert (Hdata : get_opt "data" (saved_node sel (formData n))
                  = VObj (spread (formData n) ∪ spread (get_opt "data" sel))).
  { unfold saved_node. simpl. by rewrite lookup_insert_eq. }
  assert (Hread : ∀ k v, spread (formData n) !! k = Some v →
            get_opt k (get_opt "data" (saved_node sel (formData n))) = v).
  { intros k v Hk. rewrite Hdata. simpl.
    by rewrite (lookup_union_Some_l _ _ k v Hk). }
  conj_split.
  - unfold formData at 1.
    rewrite (Hread "label" (js_or (get_opt "label" (get_opt "data" n)) (VStr "")))
      by reflexivity.
    rewrite (Hread "assignee" (js_or (get_opt "assignee" (get_opt "data" n)) (VStr "")))
      by reflexivity.
    rewrite (Hread "priority"
               (js_or (get_opt "priority" (get_opt "data" n)) (VStr "medium")))
      by reflexivity.
    rewrite (Hread "approver" (js_or (get_opt "approver" (get_opt "data" n)) (VStr "")))
      by reflexivity.
    rewrite (Hread "approvalType"
               (js_or (get_opt "approvalType" (get_opt "data" n)) (VStr "single")))
      by reflexivity.
    rewrite (Hread "notifyType"
               (js_or (get_opt "notifyType" (get_opt "data" n)) (VStr "email")))
      by reflexivity.
    rewrite (Hread "recipients"
               (js_or (get_opt "recipients" (get_opt "data" n)) (VStr "")))
      by reflexivity.
    rewrite (Hread "delay" (js_or (get_opt "delay" (get_opt "data" n)) (VNum 0)))
      by reflexivity.
    rewrite (Hread "condition"
               (js_or (get_opt "condition" (get_opt "data" n)) (VStr "")))
      by reflexivity.
    rewrite (Hread "branchCount"
               (js_or (get_opt "branchCount" (get_opt "data" n)) (VNum 2)))
      by reflexivity.
    rewrite (Hread "description"
               (js_or (get_opt "description" (get_opt "data" n)) (VStr "")))
      by reflexivity.
    rewrite !js_or_idem. reflexivity.
  - exact Hread.
  - intros k Hk. rewrite Hdata. cbn [get_opt]. rewrite (lookup_union_r _ _ k Hk).
    by destruct (get_opt "data" sel).
  - reflexivity.
Qed.

Lemma saved_edge_fields (sel data : value) :
  let saved := saved_edge sel data in
  get_opt "label" saved = get_opt "label" data
  ∧ get_opt "type" saved = get_opt "type" data
  ∧ get_opt "animated" saved = get_opt "animated" data
  ∧ get_opt "stroke" (get_opt "style" saved) = get_opt "color" data
  ∧ get_opt "strokeWidth" (get_opt "style" saved) = get_opt "strokeWidth" data
  ∧ get_opt "condition" (get_opt "data" saved) = get_opt "condition" data
  ∧ get_opt "description" (get_opt "data" saved) = get_opt "description" data.
Proof.
  cbv zeta. unfold saved_edge. cbn [get_opt].
  conj_split; lookup_chain; reflexivity.
Qed.

(** X14.  The form that EdgeConfigPanel builds from an edge saved by
    [handleSaveEdge] with the form of an edge [e] is the form of [e],
    whatever the selected edge was. *)
Theorem edge_form_reads_back (sel e : value) :
  EdgeConfigPanel.formData (saved_edge sel (EdgeConfigPanel.formData e))
  = EdgeConfigPanel.formData e.
Proof.
  destruct (saved_edge_fields sel (EdgeConfigPanel.formData e))
    as (H1 & H2 & H3 & H4 & H5 & H6 & H7).
  unfold EdgeConfigPanel.formData at 1.
  rewrite H1, H2, H3, H4, H5, H6, H7.
  change (get_opt "label" (EdgeConfigPanel.formData e))
    with (js_or (get_opt "label" e) (VStr "")).
  change (get_opt "type" (EdgeConfigPanel.formData e))
    with (js_or (get_opt "type" e) (VStr "smoothstep")).
  change (get_opt "animated" (EdgeConfigPanel.formData e))
    with (js_or (get_opt "animated" e) (VBool false)).
  change (get_opt "color" (EdgeConfigPanel.formData e))
    with (js_or (get_opt "stroke" (get_opt "style" e)) (VStr "#000000")).
  change (get_opt "strokeWidth" (EdgeConfigPanel.formData e))
    with (js_or (get_opt "strokeWidth" (get_opt "style" e)) (VNum 2)).
  change (get_opt "condition" (EdgeConfigPanel.formData e))
    with (js_or (get_opt "condition" (get_opt "data" e)) (VStr "")).
  change (get_opt "description" (EdgeConfigPanel.formData e))
    with (js_or (get_opt "description" (get_opt "data" e)) (VStr "")).
  rewrite !js_or_idem. reflexivity.
Qed.

(** ** Pasting twice, dragging and dropping *)

Lemma pasted_id (c : value) (now : Z) :
  get_opt "id" (pasted c now) = VStr ("node-" +:+ pretty now).
Proof.
  unfold pasted. cbn [get_opt]. rewrite lookup_insert_ne by done.
  by rewrite lookup_insert_eq.
Qed.

(** X15.  Two pastes of the same clipboard ask the store, one after the
    other, to add two nodes that agree on every property but [id]: both sit
    at the clipboard position plus 50 (the offset does not accumulate), and
    their ids are equal exactly when the two clock readings are.  The
    clipboard and the component's own lists are unchanged and the second
    node is selected. *)
Theorem pasting_twice (st : editor) (co : gmap string value) (now1 now2 : Z) :
  clipboard st = VObj co → defined (get_opt "position" (VObj co)) →
  let first := pasted (VObj co) now1 in
  let second := pasted (VObj co) now2 in
  let st' := exec (handlePaste now2) (exec (handlePaste now1) st) in
  storeCalls st' = (storeCalls st ++ [AddNodes first; AddNodes second])%list
  ∧ get_opt "position" second = get_opt "position" first
  ∧ (get_opt "id" second = get_opt "id" first ↔ now2 = now1)
  ∧ (∀ k, k ≠ "id" → get_opt k second = get_opt k first)
  ∧ clipboard st' = VObj co ∧ selectedNode st' = second
  ∧ nodes st' = nodes st ∧ edges st' = edges st.
Proof.
  intros Hc Hp. cbv zeta.
  destruct (handlePaste_object st co now1 Hc Hp) as (Hk1 & _ & _ & Hc1 & Hn1 & He1 & _).
  cbv zeta in *.
  set (s1 := exec (handlePaste now1) st) in *.
  destruct (handlePaste_object s1 co now2 Hc1 Hp) as (Hk2 & Hs2 & _ & Hc2 & Hn2 & He2 & _).
  cbv zeta in *.
  conj_split.
  - by rewrite Hk2, Hk1, <- app_assoc.
  - unfold pasted. cbn [get_opt]. by rewrite !lookup_insert_eq.
  - rewrite !pasted_id. split.
    + intros Heq. injection Heq as Heq. simpl in Heq.
      by apply (inj (pretty : Z → string)).
    + by intros ->.
  - intros k Hk. unfold pasted. cbn [get_opt].
    destruct (decide (k = "position")) as [->|Hkp].
    + by rewrite !lookup_insert_eq.
    + by rewrite !(lookup_insert_ne _ "position"), !(lookup_insert_ne _ "id") by done.
  - exact Hc2.
  - exact Hs2.
  - by rewrite Hn2.
  - by rewrite He2.
Qed.

Lemma pasting_twice_witness :
  let st := exec handleCopy (exec (onNodeClick task1_node) opened) in
  let st' := exec (handlePaste 1700000006000) (exec (handlePaste 1700000005000) st) in
  storeCalls st' = [AddNodes (pasted task1_node 1700000005000);
                    AddNodes (pasted task1_node 1700000006000)]
  ∧ get_opt "position" (pasted task1_node 1700000006000) = position 400 200
  ∧ nodes st' = VArr initial_nodes.
Proof.
  destruct (pasting_twice
              (exec handleCopy (exec (onNodeClick task1_node) opened))
              task1_props 1700000005000 1700000006000)
    as (H1 & _ & _ & _ & _ & _ & H7 & _).
  - reflexivity.
  - split; discriminate.
  - cbv zeta. conj_split; [exact H1|reflexivity|exact H7].
Defined.

(** The type of the node made for the palette entry [item]. *)
Lemma onDragStart_sets (clientX clientY item : value) (now : Z) (st : editor) :
  defined item →
  ∃ d, onDragStart clientX clientY item now st = (Ok tt, set_dragItem (VObj d) st)
       ∧ d !! "id" = Some (VStr ("node-" +:+ pretty now))
       ∧ d !! "type"
         = Some (match item with
                 | VStr _ =>
                     if strict_eq item (VStr "开始") then VStr "input"
                     else if strict_eq item (VStr "结束") then VStr "output"
                     else VStr "custom"
                 | _ => js_or (get_opt "type" item) (VStr "custom")
                 end)
       ∧ get_opt "label" (default VUndef (d !! "data"))
         = (match item with
            | VStr _ => item
            | _ => js_or (get_opt "label" item) (get_opt "name" item)
            end).
Proof.
  intros [Hu Hnl].
  destruct item; try done; unfold onDragStart; run_handler;
    eexists; (split; [reflexivity|]); conj_split; reflexivity.
Qed.

(** X16.  Dragging a palette entry and dropping it asks the store to add
    exactly one node: the pending item with its position replaced by the
    drop position; its id is [node-] followed by the clock reading at drag
    start, its type is input, output or custom for a text entry and the
    entry's type (custom when it has none) otherwise.  The drag start asks
    nothing of the store and touches neither the component's lists nor the
    history; the drop leaves the component's lists as they are, resets the
    pending item and returns when those lists can be recorded; a drag that
    ends elsewhere only resets the pending item. *)
Theorem drop_adds_the_dragged_node (st : editor)
    (clientX clientY item position : value) (now : Z) :
  nodes st ≠ VUndef → edges st ≠ VUndef → defined item →
  let dragging := exec (onDragStart clientX clientY item now) st in
  let st' := exec (onDrop position) dragging in
  ∃ n,
    storeCalls st' = (storeCalls st ++ [AddNodes n])%list
    ∧ n = dropped_at position (dragItem dragging)
    ∧ get_opt "id" n = VStr ("node-" +:+ pretty now)
    ∧ get_opt "position" n = position
    ∧ get_opt "type" n
      = (match item with
         | VStr _ =>
             if strict_eq item (VStr "开始") then VStr "input"
             else if strict_eq item (VStr "结束") then VStr "output"
             else VStr "custom"
         | _ => js_or (get_opt "type" item) (VStr "custom")
         end)
    ∧ get_opt "label" (get_opt "data" n)
      = (match item with
         | VStr _ => item
         | _ => js_or (get_opt "label" item) (get_opt "name" item)
         end)
    ∧ storeCalls dragging = storeCalls st
    ∧ nodes dragging = nodes st ∧ history dragging = history st
    ∧ dragItem st' = VNull ∧ nodes st' = nodes st ∧ edges st' = edges st
    ∧ fst (onDrop position dragging) = Ok tt
    ∧ exec onDragEnd dragging = set_dragItem VNull st.
Proof.
  intros Hn He Hitem. cbv zeta.
  destruct (onDragStart_sets clientX clientY item now st Hitem)
    as (d & Hd & Hid & Hty & Hlb).
  assert (Hdg : exec (onDragStart clientX clientY item now) st = set_dragItem (VObj d) st)
    by (unfold exec; by rewrite Hd).
  rewrite Hdg.
  set (s2 := add_call (AddNodes (dropped_at position (VObj d)))
               (set_dragItem VNull (set_dragItem (VObj d) st))).
  assert (Hdrop : onDrop position (set_dragItem (VObj d) st) = saveToHistory s2).
  { unfold onDrop. run_handler. done. }
  assert (Hok : saveToHistory s2 = (Ok tt, exec saveToHistory s2)).
  { unfold exec.
    rewrite (saveToHistory_ok s2 (clone (nodes s2)) (clone (edges s2)));
      [done| |]; by apply JSON_clone_ok. }
  assert (Hst' : exec (onDrop position) (set_dragItem (VObj d) st) = exec saveToHistory s2)
    by (unfold exec; by rewrite Hdrop).
  rewrite Hst', Hdrop, Hok, saveToHistory_calls.
  destruct (saveToHistory_frame s2) as (-> & -> & _ & _ & _ & _ & -> & _).
  exists (dropped_at position (VObj d)). simpl.
  conj_split; try done.
  - by rewrite lookup_insert_ne, Hid by done.
  - by rewrite lookup_insert_eq.
  - by rewrite lookup_insert_ne, Hty by done.
  - rewrite lookup_insert_ne by done. exact Hlb.
Qed.

Lemma drop_adds_the_dragged_node_witness :
  let dragging := exec (onDragStart (VNum 120) (VNum 340) approval_item 1700000000000) blank in
  let st' := exec (onDrop (position 300 200)) dragging in
  ∃ n, storeCalls st' = [AddNodes n]
       ∧ get_opt "id" n = VStr "node-1700000000000"
       ∧ get_opt "position" n = position 300 200
       ∧ get_opt "type" n = VStr "approval"
       ∧ dragItem st' = VNull ∧ nodes st' = VArr [].
Proof.
  destruct (drop_adds_the_dragged_node blank (VNum 120) (VNum 340) approval_item
              (position 300 200) 1700000000000)
    as (n & H1 & _ & H3 & H4 & H5 & _ & _ & _ & _ & H9 & H10 & _).
  - discriminate.
  - discriminate.
  - split; discriminate.
  - exists n. cbv zeta.
    conj_split; [exact H1|exact H3|exact H4|exact H5|exact H9|exact H10].
Defined.

(** ** Templates *)

Lemma handleTemplateSelect_loads (st : editor) (templateId : value) (t : template) :
  List.find (λ t, strict_eq (VStr (tpl_id t)) templateId) templates = Some t →
  faithful (VArr (tpl_nodes t)) → faithful (VArr (tpl_edges t)) →
  handleTemplateSelect templateId true st
  = (Ok tt,
     add_notice (MsgSuccess ("已加载模板: " +:+ tpl_name t))
       (exec saveToHistory
          (set_edges (VArr (tpl_edges t)) (set_nodes (VArr (tpl_nodes t)) st)))).
Proof.
  intros Hfind Hn He. unfold handleTemplateSelect. rewrite Hfind.
  pose proof (faithful_clone _ Hn) as Hn'. pose proof (faithful_clone _ He) as He'.
  unfold exec, notify, skip, read, modify, lift, mbind, mret, handler_bind, handler_ret.
  unfold JSON_clone. rewrite Hn', He'.
  match goal with |- context [saveToHistory ?s] =>
    rewrite (saveToHistory_ok s (VArr (tpl_nodes t)) (VArr (tpl_edges t))) by done
  end.
  done.
Qed.

Lemma template_cases (P : template → Prop) :
  Forall P templates → ∀ t, t ∈ templates → P t.
Proof. intros H t Ht. by eapply Forall_forall in H. Qed.

Lemma templates_well_formed :
  Forall (λ t,
    List.find (λ u, strict_eq (VStr (tpl_id u)) (VStr (tpl_id t))) templates = Some t
    ∧ faithful (VArr (tpl_nodes t)) ∧ faithful (VArr (tpl_edges t))
    ∧ validate (tpl_nodes t) (tpl_edges t) = Ok ([], []))
    templates.
Proof.
  repeat constructor; vm_compute; reflexivity.
Qed.

Lemma handleValidate_clean (st : editor) (ns es : list value) :
  validate ns es = Ok ([], []) →
  handleValidate ns es st
  = (Ok tt, add_notice (MsgSuccess "流程验证通过，没有发现问题") st).
Proof.
  intros Hv. unfold handleValidate. run_handler. by rewrite Hv.
Qed.

(** X17.  A confirmed [handleTemplateSelect] on the id of one of the
    three templates replaces the graph by that template's nodes and edges,
    exactly as written, records it and reports the template's name; the
    validator, reading these lists from the store, then passes without
    errors or warnings.  A cancelled selection does nothing. *)
Theorem loading_a_template (st : editor) (t : template) :
  t ∈ templates →
  let st' := exec (handleTemplateSelect (VStr (tpl_id t)) true) st in
  nodes st' = VArr (tpl_nodes t) ∧ edges st' = VArr (tpl_edges t)
  ∧ (history st', historyIndex st')
    = pushed (history st) (historyIndex st)
        (Snapshot (VArr (tpl_nodes t)) (VArr (tpl_edges t)))
  ∧ notices st' = (notices st ++ [MsgSuccess ("已加载模板: " +:+ tpl_name t)])%list
  ∧ handleValidate (tpl_nodes t) (tpl_edges t) st'
    = (Ok tt, add_notice (MsgSuccess "流程验证通过，没有发现问题") st')
  ∧ handleTemplateSelect (VStr (tpl_id t)) false st = (Ok tt, st).
Proof.
  intros Ht.
  destruct (template_cases _ templates_well_formed t Ht) as (Hfind & Hn & He & Hv).
  cbv zeta.
  set (s1 := set_edges (VArr (tpl_edges t)) (set_nodes (VArr (tpl_nodes t)) st)).
  assert (Hst' : exec (handleTemplateSelect (VStr (tpl_id t)) true) st
                 = add_notice (MsgSuccess ("已加载模板: " +:+ tpl_name t))
                     (exec saveToHistory s1)).
  { unfold exec at 1. by rewrite (handleTemplateSelect_loads st _ t Hfind Hn He). }
  rewrite Hst'.
  destruct (saveToHistory_frame s1) as (Hfn & Hfe & _ & _ & _ & _ & _ & Hfo).
  assert (Hs : exec saveToHistory s1
               = set_historyIndex
                   (snd (pushed (history st) (historyIndex st)
                           (Snapshot (VArr (tpl_nodes t)) (VArr (tpl_edges t)))))
                   (set_history
                      (fst (pushed (history st) (historyIndex st)
                              (Snapshot (VArr (tpl_nodes t)) (VArr (tpl_edges t))))) s1)).
  { unfold exec.
    by rewrite (saveToHistory_ok s1 (VArr (tpl_nodes t)) (VArr (tpl_edges t))). }
  conj_split.
  - simpl. by rewrite Hfn.
  - simpl. by rewrite Hfe.
  - rewrite Hs. simpl. by destruct (pushed _ _ _).
  - simpl. by rewrite Hfo.
  - apply handleValidate_clean. exact Hv.
  - unfold handleTemplateSelect. rewrite Hfind. done.
Qed.

Lemma loading_a_template_witness :
  let st' := exec (handleTemplateSelect (VStr "approval") true) opened in
  nodes st' = VArr (tpl_nodes approval_template)
  ∧ edges st' = VArr (tpl_edges approval_template)
  ∧ notices st' = [MsgSuccess "已加载模板: 审批流程"].
Proof.
  destruct (loading_a_template opened approval_template) as (H1 & H2 & _ & H4 & _).
  - apply list_elem_of_here.
  - cbv zeta. conj_split; [exact H1|exact H2|exact H4].
Defined.

(** X18.  [handleTemplateSelect] on a value that is the id of no
    template (the comparison is strict and case-sensitive) does nothing,
    confirmed or not. *)
Theorem unknown_template_does_nothing (st : editor) (templateId : value) (confirmed : bool) :
  Forall (λ t, VStr (tpl_id t) ≠ templateId) templates →
  handleTemplateSelect templateId confirmed st = (Ok tt, st).
Proof.
  intros H. unfold handleTemplateSelect.
  destruct (List.find _ templates) as [t|] eqn:Hf; [|done].
  apply find_some in Hf as [Hin Heq].
  apply list_elem_of_In in Hin.
  eapply Forall_forall in H; [|exact Hin].
  destruct templateId; try done.
  simpl in Heq. apply String.eqb_eq in Heq. by subst.
Qed.

Lemma unknown_template_does_nothing_witness :
  handleTemplateSelect (VStr "Approval") true opened = (Ok tt, opened).
Proof.
  apply unknown_template_does_nothing.
  repeat constructor; discriminate.
Defined.

(** ** Export and import, save and load *)

Lemma truthy_clone (v : value) : truthy (clone v) = truthy v.
Proof. by destruct v. Qed.

Lemma both_defined_clone (a b : value) : both_defined (clone a) (clone b) = both_defined a b.
Proof. by destruct a, b. Qed.

(** X19.  [handleExport] only shows a notice.  Importing the exported
    document into any editor state is accepted exactly when both lists of
    the exporting state are truthy, so for every graph of two arrays, the
    empty canvas included; the imported lists are the deep copies of the
    exported ones, and the lists themselves when the deep copy reproduces
    them. *)
Theorem export_then_import (st target : editor) (createdAt exportedAt : string) :
  let doc := fst (handleExport createdAt exportedAt st) in
  let st' := exec (handleFileChange (Some (reread doc))) target in
  exec (handleExport createdAt exportedAt) st = add_notice (MsgSuccess "流程导出成功") st
  ∧ st' = (if truthy (nodes st) && truthy (edges st)
           then imported (clone (nodes st)) (clone (edges st)) target
           else add_notice (MsgError "无效的流程文件格式") target)
  ∧ (∀ ns es, nodes st = VArr ns → edges st = VArr es →
       nodes st' = clone (VArr ns) ∧ edges st' = clone (VArr es)
       ∧ (faithful (VArr ns) → faithful (VArr es) →
          nodes st' = VArr ns ∧ edges st' = VArr es)).
Proof.
  cbv zeta.
  set (m := ({[ "nodes" := nodes st; "edges" := edges st;
                "metadata" := VObj {[ "version" := VStr "1.0.0";
                                      "createdAt" := VStr createdAt;
                                      "exportedAt" := VStr exportedAt ]} ]}
             : gmap string value)).
  assert (Hdoc : handleExport createdAt exportedAt st
                 = (Ok (VObj m), add_notice (MsgSuccess "流程导出成功") st)) by done.
  rewrite Hdoc. cbn [fst]. unfold exec at 1. rewrite Hdoc. cbn [snd].
  change (reread (Ok (VObj m))) with (Ok (clone (VObj m)) : outcome value).
  pose proof (clone_lookup m "nodes") as Hcn.
  pose proof (clone_lookup m "edges") as Hce.
  change (get_opt "nodes" (VObj m)) with (nodes st) in Hcn.
  change (get_opt "edges" (VObj m)) with (edges st) in Hce.
  destruct (clone_object m) as [cm Hcm]. rewrite Hcm in *.
  assert (Himp : exec (handleFileChange (Some (Ok (VObj cm)))) target
            = (if truthy (nodes st) && truthy (edges st)
               then imported (clone (nodes st)) (clone (edges st)) target
               else add_notice (MsgError "无效的流程文件格式") target)).
  { unfold exec.
    destruct (truthy (nodes st) && truthy (edges st)) eqn:E.
    - apply andb_true_iff in E as [E1 E2].
      rewrite handleFileChange_accepts; rewrite ?Hcn, ?Hce, ?truthy_clone; done.
    - rewrite handleFileChange_rejects; rewrite ?Hcn, ?Hce, ?truthy_clone; done. }
  conj_split; [done|exact Himp|].
  intros ns es Hn He. rewrite Himp, Hn, He. cbn [truthy andb]. unfold imported.
  match goal with |- context [exec saveToHistory ?s] =>
    destruct (saveToHistory_frame s) as (Hfn & Hfe & _) end.
  cbn [nodes edges add_notice]. rewrite Hfn, Hfe. cbn [nodes edges set_nodes set_edges].
  conj_split; [done|done|].
  intros H1 H2. by rewrite (faithful_clone _ H1), (faithful_clone _ H2).
Qed.

(** X20.  [handleSave] only shows a notice.  Loading the saved
    document into any editor state sets both lists to the deep copies of the
    saved ones; the load succeeds and records when neither saved list was
    [undefined], and otherwise reports a failure after the lists have been
    overwritten. *)
Theorem save_then_load (st target : editor) (text : string) :
  text ≠ "" →
  let doc := fst (handleSave st) in
  let st' := exec (handleLoad (Some text) (reread doc)) target in
  exec handleSave st = add_notice (MsgSuccess "流程保存成功") st
  ∧ nodes st' = clone (nodes st) ∧ edges st' = clone (edges st)
  ∧ (if both_defined (nodes st) (edges st)
     then notices st' = (notices target ++ [MsgSuccess "流程加载成功"])%list
          ∧ (history st', historyIndex st')
            = pushed (history target) (historyIndex target)
                (Snapshot (clone (nodes st)) (clone (edges st)))
     else notices st' = (notices target ++ [MsgError "流程加载失败"])%list
          ∧ history st' = history target ∧ historyIndex st' = historyIndex target).
Proof.
  intros Htext. cbv zeta.
  set (m := ({[ "nodes" := nodes st; "edges" := edges st ]} : gmap string value)).
  assert (Hdoc : handleSave st = (Ok (VObj m), add_notice (MsgSuccess "流程保存成功") st))
    by done.
  rewrite Hdoc. cbn [fst]. unfold exec at 1. rewrite Hdoc. cbn [snd].
  change (reread (Ok (VObj m))) with (Ok (clone (VObj m)) : outcome value).
  pose proof (clone_lookup m "nodes") as Hcn.
  pose proof (clone_lookup m "edges") as Hce.
  change (get_opt "nodes" (VObj m)) with (nodes st) in Hcn.
  change (get_opt "edges" (VObj m)) with (edges st) in Hce.
  destruct (clone_object m) as [cm Hcm]. rewrite Hcm in *.
  rewrite (handleLoad_parsed target text (VObj cm) Htext) by (split; discriminate).
  cbv zeta. rewrite Hcn, Hce, both_defined_clone.
  split; [done|].
  destruct (both_defined (nodes st) (edges st)) eqn:E.
  - set (s1 := set_edges (clone (edges st)) (set_nodes (clone (nodes st)) target)).
    destruct (saveToHistory_frame s1) as (Hfn & Hfe & _ & _ & _ & _ & _ & Hfo).
    assert (Hs : saveToHistory s1
                 = (Ok tt, set_historyIndex
                     (snd (pushed (history target) (historyIndex target)
                             (Snapshot (clone (nodes st)) (clone (edges st)))))
                     (set_history
                        (fst (pushed (history target) (historyIndex target)
                                (Snapshot (clone (nodes st)) (clone (edges st))))) s1))).
    { assert (nodes st ≠ VUndef ∧ edges st ≠ VUndef) as [Hn He]
        by (destruct (nodes st), (edges st); done).
      rewrite (saveToHistory_ok s1 (clone (nodes st)) (clone (edges st))); [done| |];
        simpl; rewrite JSON_clone_ok, ?clone_idempotent; try done;
        intros Hc; by apply clone_undef in Hc. }
    conj_split.
    + simpl. by rewrite Hfn.
    + simpl. by rewrite Hfe.
    + simpl. by rewrite Hfo.
    + unfold exec. rewrite Hs. simpl. by destruct (pushed _ _ _).
  - done.
Qed.

Lemma save_then_load_witness :
  let st' := exec (handleLoad (Some "{}") (reread (fst (handleSave opened)))) blank in
  nodes st' = VArr initial_nodes ∧ edges st' = VArr initial_edges
  ∧ notices st' = [MsgSuccess "流程加载成功"].
Proof.
  destruct (save_then_load opened blank "{}") as (_ & H2 & H3 & H4).
  - discriminate.
  - cbv zeta. conj_split; [exact H2|exact H3|].
    destruct H4 as [H4 _]. exact H4.
Defined.

(** X21.  [handleLoad] never throws.  Without saved text it warns;
    when the text does not parse (or parses to [null]) it reports a failure
    and changes nothing else; otherwise both lists are overwritten by the
    document's fields, whatever they are, and the load succeeds with one
    recorded snapshot exactly when neither field is [undefined]. *)
Theorem load_outcomes (st : editor) (savedData : option string) (parsed : outcome value) :
  let st' := exec (handleLoad savedData parsed) st in
  fst (handleLoad savedData parsed st) = Ok tt
  ∧ match savedData with
    | None => st' = add_notice (MsgWarning "没有保存的流程数据") st
    | Some text =>
        if String.eqb text "" then st' = add_notice (MsgWarning "没有保存的流程数据") st
        else
          match parsed with
          | Throw | Ok VUndef | Ok VNull => st' = add_notice (MsgError "流程加载失败") st
          | Ok data =>
              let dn := get_opt "nodes" data in
              let de := get_opt "edges" data in
              nodes st' = dn ∧ edges st' = de
              ∧ (if both_defined dn de
                 then notices st' = (notices st ++ [MsgSuccess "流程加载成功"])%list
                      ∧ (history st', historyIndex st')
                        = pushed (history st) (historyIndex st)
                            (Snapshot (clone dn) (clone de))
                 else notices st' = (notices st ++ [MsgError "流程加载失败"])%list
                      ∧ history st' = history st ∧ historyIndex st' = historyIndex st)
          end
    end.
Proof.
  cbv zeta. split.
  - unfold handleLoad.
    destruct (truthy _); [|done].
    unfold try_catch.
    match goal with |- context [match ?b st with _ => _ end] => destruct (b st) as [[[]|] s1] end;
      done.
  - destruct savedData as [text|]; [|unfold exec; by rewrite handleLoad_missing_slot].
    destruct (String.eqb text "") eqn:Et.
    { apply String.eqb_eq in Et. subst text. done. }
    apply String.eqb_neq in Et.
    assert (Hbad : ∀ p, p = Throw ∨ p = Ok VUndef ∨ p = Ok VNull →
              exec (handleLoad (Some text) p) st
              = add_notice (MsgError "流程加载失败") st).
    { intros p Hp. unfold handleLoad.
      replace (truthy (from_option VStr VNull (Some text))) with true
        by (simpl; destruct text; done).
      destruct Hp as [->|[->| ->]]; done. }
    assert (Hgood : ∀ data, defined data →
              let dn := get_opt "nodes" data in
              let de := get_opt "edges" data in
              let st' := exec (handleLoad (Some text) (Ok data)) st in
              nodes st' = dn ∧ edges st' = de
              ∧ (if both_defined dn de
                 then notices st' = (notices st ++ [MsgSuccess "流程加载成功"])%list
                      ∧ (history st', historyIndex st')
                        = pushed (history st) (historyIndex st)
                            (Snapshot (clone dn) (clone de))
                 else notices st' = (notices st ++ [MsgError "流程加载失败"])%list
                      ∧ history st' = history st ∧ historyIndex st' = historyIndex st)).
    { intros data Hdef. cbv zeta.
      rewrite (handleLoad_parsed st text data Et Hdef). cbv zeta.
      set (dn := get_opt "nodes" data). set (de := get_opt "edges" data).
      destruct (both_defined dn de) eqn:E; [|done].
      set (s1 := set_edges de (set_nodes dn st)).
      destruct (saveToHistory_frame s1) as (Hfn & Hfe & _ & _ & _ & _ & _ & Hfo).
      assert (dn ≠ VUndef ∧ de ≠ VUndef) as [Hn He] by (destruct dn, de; done).
      assert (Hs : saveToHistory s1
                   = (Ok tt, set_historyIndex
                       (snd (pushed (history st) (historyIndex st)
                               (Snapshot (clone dn) (clone de))))
                       (set_history
                          (fst (pushed (history st) (historyIndex st)
                                  (Snapshot (clone dn) (clone de)))) s1))).
      { rewrite (saveToHistory_ok s1 (clone dn) (clone de)); [done| |];
          simpl; by rewrite JSON_clone_ok. }
      conj_split.
      - simpl. by rewrite Hfn.
      - simpl. by rewrite Hfe.
      - simpl. by rewrite Hfo.
      - unfold exec. rewrite Hs. simpl. by destruct (pushed _ _ _). }
    destruct parsed as [data|]; [|apply Hbad; auto].
    destruct data; try (apply Hgood; split; discriminate); apply Hbad; auto.
Qed.

(** ** The validator's report *)

Lemma validate_report (ns es : list value) :
  Forall node_ok ns → Forall defined es →
  validate ns es
  = Ok ((empty_errors ns ++ start_errors ns ++ end_errors ns
          ++ flat_map (dangling_errors (node_ids ns)) es)%list,
        (start_warnings ns ++ end_warnings ns ++ orphan_warning ns es)%list).
Proof.
  intros Hns Hes.
  assert (Hdef : Forall defined ns).
  { eapply Forall_impl; [exact Hns|]. by intros n [? _]. }
  unfold validate. simpl.
  rewrite !has_type_ok by done. simpl.
  rewrite (mapM_ok _ (get_opt "id")); [|eapply Forall_impl; [exact Hdef|];
    intros n Hn; by apply get_defined]. simpl.
  rewrite edge_errors_ok by done. simpl.
  rewrite orphans_ok by done. simpl.
  assert (Hw : ∀ t (msg : string),
            (if Z.of_nat (length (List.filter (is_kind t) ns)) =? 0 then []
             else if Z.of_nat (length (List.filter (is_kind t) ns)) >? 1 then [msg]
             else [])
            = (if 1 <? Z.of_nat (kind_count t ns) then [msg] else [])).
  { intros t msg. unfold kind_count. rewrite Z.gtb_ltb.
    destruct (_ =? 0) eqn:E0; [|done].
    zbool. destruct (1 <? _) eqn:E1; [|done]. zbool. lia. }
  unfold start_warnings, end_warnings, orphan_warning, orphans.
  rewrite <- !Hw.
  destruct (Z.of_nat (length (List.filter _ ns)) >? 0) eqn:E.
  - rewrite labels_ok by (by apply Forall_filter_list). simpl. reflexivity.
  - simpl. reflexivity.
Qed.

Lemma handleValidate_verdict (st : editor) (ns es : list value)
    (errors warnings : list string) :
  validate ns es = Ok (errors, warnings) →
  handleValidate ns es st = (Ok tt, add_notice (verdict errors warnings) st).
Proof.
  intros Hv. unfold handleValidate. run_handler. rewrite Hv. simpl.
  destruct errors as [|e1 errors]; simpl.
  - destruct warnings as [|w1 warnings]; simpl; [done|].
    replace (Z.pos (Pos.of_succ_nat (length warnings)) >? 0) with true; [done|].
    symmetry. rewrite Z.gtb_ltb. apply Z.ltb_lt. lia.
  - replace (Z.pos (Pos.of_succ_nat (length errors)) >? 0) with true; [done|].
    symmetry. rewrite Z.gtb_ltb. apply Z.ltb_lt. lia.
Qed.

Lemma filter_nil_length {A} (p : A → bool) (l : list A) :
  length (List.filter p l) = 0%nat ↔ List.filter p l = [].
Proof. destruct (List.filter p l); simpl; split; done. Qed.

(** X22.  [handleValidate] checks the lists that the store returns and
    nothing else: the component's own lists play no part.  When the nodes and
    edges returned can be read, it does not throw.  Its errors are: no nodes,
    no start node, no end node, then one per endpoint of a returned edge that
    names no returned node, in edge order; so their number is the number of
    such endpoints plus one for each of the three counts that is zero.  It
    gives at most three warnings (several start nodes, several end nodes, the
    isolated nodes), and shows the failure dialog when there is an error,
    else the warning dialog when there is a warning, else the success
    message. *)
Theorem validator_report (st : editor) (ns es : list value) :
  Forall node_ok ns → Forall defined es →
  let errors := (empty_errors ns ++ start_errors ns ++ end_errors ns
                 ++ flat_map (dangling_errors (node_ids ns)) es)%list in
  let warnings := (start_warnings ns ++ end_warnings ns ++ orphan_warning ns es)%list in
  validate ns es = Ok (errors, warnings)
  ∧ handleValidate ns es st = (Ok tt, add_notice (verdict errors warnings) st)
  ∧ length errors
    = ((if decide (ns = []) then 1 else 0)
       + (if decide (kind_count "input" ns = 0) then 1 else 0)
       + (if decide (kind_count "output" ns = 0) then 1 else 0)
       + dangling_endpoints ns es)%nat
  ∧ (length warnings ≤ 3)%nat.
Proof.
  intros Hns Hes. cbv zeta.
  pose proof (validate_report ns es Hns Hes) as Hv.
  conj_split.
  - exact Hv.
  - by apply handleValidate_verdict.
  - rewrite !length_app, dangling_errors_length.
    unfold empty_errors, start_errors, end_errors.
    destruct ns as [|n r] eqn:En; [done|]. rewrite <- En.
    assert (ns ≠ []) by (by rewrite En).
    replace (Z.of_nat (length ns) =? 0) with false
      by (symmetry; apply Z.eqb_neq; rewrite En; simpl; lia).
    destruct (decide (ns = [])); [done|].
    destruct (decide (kind_count "input" ns = 0%nat)) as [->|H0];
      destruct (decide (kind_count "output" ns = 0%nat)) as [->|H1]; simpl;
      repeat match goal with
      | |- context [Z.of_nat ?k =? 0] =>
          replace (Z.of_nat k =? 0) with false by (symmetry; apply Z.eqb_neq; lia)
      end; simpl; lia.
  - rewrite !length_app. unfold start_warnings, end_warnings, orphan_warning.
    repeat match goal with |- context [if ?b then _ else _] => destruct b end;
      simpl; lia.
Qed.

(** A task and an end node joined by one edge, with no start node: one
    error and no warning, whatever the component's own lists hold. *)
Lemma validator_report_witness :
  let st := mounted (VArr no_start_nodes) (VArr one_dangling) in
  handleValidate no_start_nodes [edge "e-task1-end" "task1" "end" "完成"] st
  = (Ok tt, add_notice (AlertFailed ["流程缺少开始节点"] []) st).
Proof.
  destruct (validator_report (mounted (VArr no_start_nodes) (VArr one_dangling))
              no_start_nodes [edge "e-task1-end" "task1" "end" "完成"]) as (_ & H & _).
  - repeat constructor; discriminate.
  - repeat constructor; discriminate.
  - exact H.
Defined.

(** X23.  When the nodes and edges that the store returns can be read,
    [handleValidate] shows the success message exactly when those lists have
    one start node, one end node, no edge endpoint that names no returned
    node and no isolated node. *)
Theorem validation_passes_exactly_when (st : editor) (ns es : list value) :
  Forall node_ok ns → Forall defined es →
  handleValidate ns es st
  = (Ok tt, add_notice (MsgSuccess "流程验证通过，没有发现问题") st)
  ↔ kind_count "input" ns = 1%nat ∧ kind_count "output" ns = 1%nat
    ∧ dangling_endpoints ns es = 0%nat ∧ orphans ns es = [].
Proof.
  intros Hns Hes.
  pose proof (validate_report ns es Hns Hes) as Hv.
  rewrite (handleValidate_verdict st ns es _ _ Hv).
  set (errors := (empty_errors ns ++ _)%list).
  set (warnings := (start_warnings ns ++ _)%list).
  assert (Hclean : verdict errors warnings = MsgSuccess "流程验证通过，没有发现问题"
                   ↔ errors = [] ∧ warnings = []).
  { destruct errors, warnings; simpl; split; try done; by intros [? ?]. }
  assert (Hiff : errors = [] ∧ warnings = []
                 ↔ kind_count "input" ns = 1%nat ∧ kind_count "output" ns = 1%nat
                   ∧ dangling_endpoints ns es = 0%nat ∧ orphans ns es = []).
  { unfold errors, warnings.
    rewrite <- (dangling_errors_length ns es).
    unfold empty_errors, start_errors, end_errors, start_warnings, end_warnings,
      orphan_warning.
    rewrite Z.gtb_ltb.
    split.
    - intros [H1 H2].
      apply app_eq_nil in H1 as [_ H1]. apply app_eq_nil in H1 as [Hs H1].
      apply app_eq_nil in H1 as [Hen Hd].
      apply app_eq_nil in H2 as [Hsw H2]. apply app_eq_nil in H2 as [Hew Ho].
      destruct (Z.of_nat (kind_count "input" ns) =? 0) eqn:E1; [done|].
      destruct (Z.of_nat (kind_count "output" ns) =? 0) eqn:E2; [done|].
      destruct (1 <? Z.of_nat (kind_count "input" ns)) eqn:E3; [done|].
      destruct (1 <? Z.of_nat (kind_count "output" ns)) eqn:E4; [done|].
      destruct (0 <? Z.of_nat (length (orphans ns es))) eqn:E5; [done|].
      zbool. rewrite Hd. conj_split; [lia|lia|done|].
      destruct (orphans ns es); [done|simpl in E5; lia].
    - intros (H1 & H2 & H3 & H4).
      apply length_zero_iff_nil in H3.
      rewrite H1, H2, H3, H4. simpl.
      destruct ns as [|n r]; [done|]. done. }
  rewrite <- Hiff, <- Hclean. split.
  - intros Heq. injection Heq as Heq.
    apply app_inv_head in Heq. by injection Heq.
  - by intros ->.
Qed.

Lemma validation_passes_exactly_when_witness :
  handleValidate initial_nodes initial_edges opened
  = (Ok tt, add_notice (MsgSuccess "流程验证通过，没有发现问题") opened).
Proof.
  apply (validation_passes_exactly_when opened initial_nodes initial_edges).
  - repeat constructor; discriminate.
  - repeat constructor; discriminate.
  - conj_split; vm_compute; reflexivity.
Defined.

(** ** The statistics panel *)

Lemma kinds_disjoint (n : value) (t u : string) :
  t ≠ u → is_kind t n = true → is_kind u n = false.
Proof.
  unfold is_kind. intros Htu Ht. apply strict_eq_str in Ht. rewrite Ht. simpl.
  by apply String.eqb_neq.
Qed.

Lemma three_kinds_count (ns : list value) :
  (kind_count "task" ns + kind_count "approval" ns + kind_count "condition" ns
   = length (List.filter counted ns))%nat.
Proof.
  unfold kind_count, counted. induction ns as [|n r IH]; simpl; [done|].
  destruct (is_kind "task" n) eqn:E1.
  - rewrite (kinds_disjoint n "task" "approval"), (kinds_disjoint n "task" "condition")
      by done. simpl. lia.
  - destruct (is_kind "approval" n) eqn:E2.
    + rewrite (kinds_disjoint n "approval" "condition") by done. simpl. lia.
    + destruct (is_kind "condition" n); simpl; lia.
Qed.

Lemma filter_all_length {A} (p : A → bool) (l : list A) :
  length (List.filter p l) = length l ↔ Forall (λ x, p x = true) l.
Proof.
  induction l as [|x r IH]; simpl; [split; [constructor|done]|].
  pose proof (filter_length_le p r).
  destruct (p x) eqn:E; simpl.
  - split.
    + intros H'. constructor; [done|]. apply IH. lia.
    + intros H'. inversion H' as [|? ? _ Hr]. f_equal. by apply IH.
  - split; [lia|]. intros H'. inversion H' as [|? ? Hx _]. congruence.
Qed.

(** X24.  On a graph of two arrays whose nodes can be read, [stats]
    returns the number of nodes, of task, approval and condition nodes, and
    of edges.  The three kind counts add up to at most the total, and to the
    total exactly when every node is of one of the three kinds. *)
Theorem stats_counts (st : editor) (ns es : list value) :
  nodes st = VArr ns → edges st = VArr es → Forall defined ns →
  let t := kind_count "task" ns in
  let a := kind_count "approval" ns in
  let c := kind_count "condition" ns in
  stats st
  = Ok (Statistics (VNum (Z.of_nat (length ns))) (VNum (Z.of_nat t)) (VNum (Z.of_nat a))
          (VNum (Z.of_nat c)) (VNum (Z.of_nat (length es))))
  ∧ (t + a + c ≤ length ns)%nat
  ∧ ((t + a + c)%nat = length ns ↔ Forall (λ n, counted n = true) ns).
Proof.
  intros Hn He Hns. cbv zeta. conj_split.
  - unfold stats. rewrite Hn, He. simpl.
    rewrite !has_type_ok by done. simpl. done.
  - rewrite three_kinds_count. apply filter_length_le.
  - rewrite three_kinds_count. apply filter_all_length.
Qed.

Lemma stats_counts_witness :
  stats opened = Ok (Statistics (VNum 8) (VNum 2) (VNum 1) (VNum 1) (VNum 8)).
Proof.
  destruct (stats_counts opened initial_nodes initial_edges) as [H _].
  - reflexivity.
  - reflexivity.
  - repeat constructor; discriminate.
  - exact H.
Defined.

(** ** Keys that are no shortcut *)

(** X25.  A key event that is no shortcut leaves the whole state as it
    is: with Ctrl or Cmd held, any key but s, c, v, z, y (so Ctrl+Delete
    deletes nothing), c with no node selected and v with an empty clipboard;
    without them, any key but Delete and Backspace, and every key while no
    panel is open.  Nothing is asked of the store, whatever lists it would
    return. *)
Theorem idle_keys_change_nothing (e : KeyboardEvent) (now : Z) (confirmed : bool)
    (allNodes allEdges : list value) (st : editor) :
  idle e st → exec (handleKeyDown e now confirmed allNodes allEdges) st = st.
Proof.
  unfold idle, handleKeyDown.
  destruct (ctrlKey e || metaKey e).
  - intros [Hk|[[Hk Hs]|[Hk Hc]]].
    + destruct (String.eqb (toLowerCase (key e)) "s") eqn:E1;
        [apply String.eqb_eq in E1; exfalso; apply Hk; rewrite E1; set_solver|].
      destruct (String.eqb (toLowerCase (key e)) "c") eqn:E2;
        [apply String.eqb_eq in E2; exfalso; apply Hk; rewrite E2; set_solver|].
      destruct (String.eqb (toLowerCase (key e)) "v") eqn:E3;
        [apply String.eqb_eq in E3; exfalso; apply Hk; rewrite E3; set_solver|].
      destruct (String.eqb (toLowerCase (key e)) "z") eqn:E4;
        [apply String.eqb_eq in E4; exfalso; apply Hk; rewrite E4; set_solver|].
      destruct (String.eqb (toLowerCase (key e)) "y") eqn:E5;
        [apply String.eqb_eq in E5; exfalso; apply Hk; rewrite E5; set_solver|].
      done.
    + rewrite Hk. simpl. run_handler.
      destruct (selectedNode st) eqn:Es; simpl in *; try done.
      by rewrite Hs.
    + rewrite Hk. simpl. run_handler. by rewrite Hc.
  - intros [Hk| Hu].
    + destruct (String.eqb (key e) "Delete") eqn:E1;
        [apply String.eqb_eq in E1; exfalso; apply Hk; rewrite E1; set_solver|].
      destruct (String.eqb (key e) "Backspace") eqn:E2;
        [apply String.eqb_eq in E2; exfalso; apply Hk; rewrite E2; set_solver|].
      done.
    + destruct (_ || _); [|done]. run_handler. rewrite Hu.
      destruct (get "id" (selectedNode st)) as [sid|]; [|done].
      replace (truthy sid && String.eqb "" "node") with false
        by (by destruct (truthy sid)).
      cbn beta. rewrite Hu.
      destruct (get "id" (selectedEdge st)) as [eid|]; [|done].
      replace (truthy eid && String.eqb "" "edge") with false
        by (by destruct (truthy eid)).
      done.
Qed.

Lemma idle_keys_change_nothing_witness :
  exec (handleKeyDown (KeyEvent true false false "Delete") 0 true
          initial_nodes initial_edges)
    (exec (onNodeClick task1_node) opened)
  = exec (onNodeClick task1_node) opened.
Proof.
  apply idle_keys_change_nothing.
  left. change (toLowerCase "Delete") with "delete".
  repeat (apply not_elem_of_cons; split; [discriminate|]). apply not_elem_of_nil.
Defined.

(** ** Edits made through the store are not in the record *)

Lemma silent_ret {A} (a : A) : silent (mret a).
Proof. by intros st. Qed.

Lemma silent_read {A} (f : editor → A) : silent (read f).
Proof. by intros st. Qed.

Lemma silent_lift {A} (o : outcome A) : silent (lift o).
Proof. by intros st. Qed.

Lemma silent_modify (f : editor → editor) :
  (∀ st, nodes (f st) = nodes st ∧ edges (f st) = edges st
         ∧ history (f st) = history st ∧ historyIndex (f st) = historyIndex st) →
  silent (modify f).
Proof. intros Hf st. apply Hf. Qed.

Lemma silent_bind {A B} (m : handler A) (f : A → handler B) :
  silent m → (∀ a, silent (f a)) → silent (m ≫= f).
Proof.
  intros Hm Hf st. specialize (Hm st).
  unfold exec, mbind, handler_bind in *.
  destruct (m st) as [[a|] st1]; simpl in *; [|exact Hm].
  destruct (Hf a st1) as (H1 & H2 & H3 & H4). unfold exec in *.
  destruct Hm as (G1 & G2 & G3 & G4).
  by rewrite H1, H2, H3, H4.
Qed.

Ltac silent_step :=
  first
    [ apply silent_ret
    | apply silent_read
    | apply silent_lift
    | apply silent_modify; intros ?; repeat split; reflexivity
    | apply silent_bind; [|intros ?]
    | match goal with
      | |- silent (if ?b then _ else _) => destruct b
      | |- silent (match ?x with _ => _ end) => destruct x
      | |- silent (let _ := _ in _) => cbv zeta
      end ].

Lemma unrecorded_silent {A} (h : handler A) : silent h → unrecorded h.
Proof.
  intros H st. destruct (H st) as (H1 & H2 & H3 & H4).
  split; [done|]. split; [done|]. left. by rewrite H3, H4.
Qed.

Lemma unrecorded_saveToHistory : unrecorded saveToHistory.
Proof.
  intros st. destruct (saveToHistory_frame st) as (Hn & He & _).
  split; [done|]. split; [done|].
  unfold exec.
  destruct (JSON_clone (nodes st)) as [n|] eqn:En;
    [destruct (JSON_clone (edges st)) as [e|] eqn:Ee|].
  - right. rewrite (saveToHistory_ok st n e) by done. simpl.
    assert (n = clone (nodes st) ∧ e = clone (edges st)) as [-> ->].
    { unfold JSON_clone in En, Ee.
      destruct (nodes st), (edges st); simpl in *; split; congruence. }
    unfold snapshot_of. simpl. by destruct (pushed _ _ _).
  - left. rewrite saveToHistory_throw; auto.
  - left. rewrite saveToHistory_throw; auto.
Qed.

(** Silent steps before or after do not change what is recorded. *)
Lemma unrecorded_after {A B} (m : handler A) (f : A → handler B) :
  silent m → (∀ a, unrecorded (f a)) → unrecorded (m ≫= f).
Proof.
  intros Hm Hf st. destruct (Hm st) as (G1 & G2 & G3 & G4).
  unfold exec, mbind, handler_bind in *.
  destruct (m st) as [[a|] st1]; simpl in *.
  - destruct (Hf a st1) as (H1 & H2 & H3). unfold exec in *.
    rewrite H1, H2, G1, G2. split; [done|]. split; [done|].
    by rewrite G1, G2, G3, G4 in H3.
  - split; [done|]. split; [done|]. left. by rewrite G3, G4.
Qed.

Lemma unrecorded_before {A B} (m : handler A) (f : A → handler B) :
  unrecorded m → (∀ a, silent (f a)) → unrecorded (m ≫= f).
Proof.
  intros Hm Hf st. destruct (Hm st) as (G1 & G2 & G3).
  unfold exec, mbind, handler_bind in *.
  destruct (m st) as [[a|] st1]; simpl in *; [|done].
  destruct (Hf a st1) as (H1 & H2 & H3 & H4). unfold exec in *.
  by rewrite H1, H2, H3, H4.
Qed.

Ltac unrecorded_step :=
  first
    [ apply unrecorded_saveToHistory
    | apply unrecorded_silent; solve [repeat silent_step]
    | apply unrecorded_after; [solve [repeat silent_step]|intros ?]
    | apply unrecorded_before;
        [apply unrecorded_saveToHistory|intros ?; solve [repeat silent_step]]
    | match goal with
      | |- unrecorded (if ?b then _ else _) => destruct b
      | |- unrecorded (match ?x with _ => _ end) => destruct x
      | |- unrecorded (let _ := _ in _) => cbv zeta
      end ].

(** X26.  Dropping, pasting, connecting, dragging a node, saving or
    deleting a node or an edge, by button or by key, leave both lists of the
    component as they are, whatever they ask of the store; and what such an
    event records, if it records, is the snapshot of those unchanged lists.
    So the node that was dropped or pasted, the edge that was connected and
    the deletion that was made are in no snapshot of the stack. *)
Theorem store_edits_are_not_recorded (ev : event) (st : editor) :
  store_edit ev = true →
  let st' := exec (dispatch ev) st in
  nodes st' = nodes st ∧ edges st' = edges st
  ∧ ((history st', historyIndex st') = (history st, historyIndex st)
     ∨ (history st', historyIndex st')
       = pushed (history st) (historyIndex st) (snapshot_of (nodes st, edges st))).
Proof.
  intros Hev. cbv zeta.
  assert (H : unrecorded (dispatch ev)); [|exact (H st)].
  destruct ev; try discriminate Hev; unfold dispatch.
  - unfold onNodeDragStop. apply unrecorded_saveToHistory.
  - unfold onConnect, addEdges. repeat unrecorded_step.
  - unfold handleKeyDown. simpl in Hev.
    destruct (ctrlKey e || metaKey e); simpl in Hev; cbv zeta.
    + apply negb_true_iff, orb_false_iff in Hev as [Hz Hy]. rewrite Hz, Hy.
      unfold handleSave, handleCopy, handlePaste, addNodes, notify, skip.
      repeat unrecorded_step.
    + unfold handleDeleteNode, handleDeleteEdge, handleClosePanel, setNodes, setEdges,
        notify, skip.
      repeat unrecorded_step.
  - unfold handlePaste, addNodes, notify, skip. repeat unrecorded_step.
  - unfold onDrop, addNodes. repeat unrecorded_step.
  - unfold handleSaveNode, setNodes. repeat unrecorded_step.
  - unfold handleDeleteNode, handleClosePanel, setNodes, setEdges, notify, skip.
    repeat unrecorded_step.
  - unfold handleSaveEdge, setEdges. repeat unrecorded_step.
  - unfold handleDeleteEdge, handleClosePanel, setEdges, notify, skip.
    repeat unrecorded_step.
Qed.

(** An approval node is dropped on the empty canvas: the store is asked to
    add it, the component's node list is still empty, and the snapshot that
    the drop pushes is that of the empty lists. *)
Lemma store_edits_are_not_recorded_witness :
  let dragging := exec (onDragStart (VNum 120) (VNum 340) approval_item 1700000000000) blank in
  let st' := exec (dispatch (EvDrop (position 300 200))) dragging in
  storeCalls st' = [AddNodes dropped_node]
  ∧ nodes st' = VArr [] ∧ edges st' = VArr []
  ∧ history st' = [Snapshot (VArr []) (VArr []); Snapshot (VArr []) (VArr [])]
  ∧ historyIndex st' = 1.
Proof.
  cbv zeta.
  destruct (store_edits_are_not_recorded (EvDrop (position 300 200))
              (exec (onDragStart (VNum 120) (VNum 340) approval_item 1700000000000) blank))
    as (H1 & H2 & _).
  - reflexivity.
  - split; [vm_compute; reflexivity|]. split; [exact H1|]. split; [exact H2|].
    split; vm_compute; reflexivity.
Defined.
